(** * A model of static/js/app.js, the browser client of the clinical-trials
      search application

    The script is a set of event handlers over a page: each one reads form
    controls, possibly sends one request to the backend, and writes markup
    back into the page.  The model below keeps that shape:

    - the page is a store from element ids to elements ([Element]); the
      children of an element are a list of [Node]s, one constructor per markup
      template the script writes, carrying the values the template
      interpolates;
    - the six module-level variables of the script, the page and the log of
      [alert] calls make up the [State];
    - an [async] handler is a function into [Step]: it either returns, or
      stops at its [fetch] with the state it has reached, the request and the
      code that runs when the reply arrives (which starts from whatever state
      the page has by then);
    - [Date.now()] readings are arguments of the handlers that take them;
    - numbers that the script uses as integers (page numbers, counts, time
      stamps) are in [Z] and [N]; page numbers and counts are taken below
      2^53 - 3 in magnitude, where the arithmetic of doubles is that of the
      integers.  A script variable that a reply can leave [undefined] is an
      [option]; [parseInt] rounds to the nearest double.

    Strings are sequences of 8-bit characters, read as code units below 256.
    The text of a reply of the backend is not parsed as markup.  The body of
    a reply is a JSON object; a property it has is of the type its handler
    expects, and the message of a TypeError is in the wording of V8.
    [switchTab] writes the inline style of six elements that no other
    handler reads; it has a store of its own ([Styles]).
    [downloadReportAsPDF] hands a subtree to a library or to a print window
    and is left out. *)

From Stdlib Require Import ZArith NArith List Bool Lia.
From Stdlib Require Import Strings.String Strings.Ascii.
From Stdlib Require Import Numbers.DecimalString Numbers.DecimalN Numbers.DecimalZ.
Import ListNotations.

Open Scope string_scope.
Open Scope Z_scope.

(** ** Strings as the script uses them *)

Module JsString.

(** The characters [String.prototype.trim] strips, among the code units
    below 256: TAB, LF, VT, FF, CR, SPACE and NBSP. *)
Definition is_ws (c : ascii) : bool :=
  let n := nat_of_ascii c in
  (Nat.eqb n 9 || Nat.eqb n 10 || Nat.eqb n 11 || Nat.eqb n 12
   || Nat.eqb n 13 || Nat.eqb n 32 || Nat.eqb n 160)%bool.

Definition is_empty (s : string) : bool :=
  match s with EmptyString => true | String _ _ => false end.

(** A string in a condition: true exactly when it is not empty. *)
Definition truthy (s : string) : bool := negb (is_empty s).

Fixpoint trimStart (s : string) : string :=
  match s with
  | EmptyString => EmptyString
  | String c r => if is_ws c then trimStart r else s
  end.

Fixpoint trimEnd (s : string) : string :=
  match s with
  | EmptyString => EmptyString
  | String c r =>
      let r' := trimEnd r in
      if (is_ws c && is_empty r')%bool then EmptyString else String c r'
  end.

Definition trim (s : string) : string := trimEnd (trimStart s).

Fixpoint all_ws (s : string) : bool :=
  match s with
  | EmptyString => true
  | String c r => (is_ws c && all_ws r)%bool
  end.

(** [s.split(',')]: the pieces between commas; the empty string has one
    (empty) piece. *)
Fixpoint split_comma (s : string) : list string :=
  match s with
  | EmptyString => [EmptyString]
  | String c r =>
      if Ascii.eqb c ","%char then EmptyString :: split_comma r
      else match split_comma r with
           | h :: t => String c h :: t
           | [] => [String c EmptyString]
           end
  end.

(** Decimal rendering of a number that is used as text
    ([btn.textContent = i], ['msg-' + Date.now()]). *)
Definition of_Z (z : Z) : string := NilZero.string_of_int (Z.to_int z).
Definition of_N (n : N) : string := NilEmpty.string_of_uint (N.to_uint n).

(** What [el.innerHTML = v] or string concatenation makes of a property
    that may be missing. *)
Definition of_prop (v : option string) : string :=
  match v with Some s => s | None => "undefined" end.

(** A property that may be missing, seen through [if (data.p)]: its value
    when it is there and not the empty string. *)
Definition if_truthy (v : option string) : option string :=
  match v with
  | Some s => if truthy s then Some s else None
  | None => None
  end.

(** The characters of a string, first and last. *)
Definition first_char (s : string) : option ascii :=
  match s with EmptyString => None | String c _ => Some c end.

Fixpoint last_char (s : string) : option ascii :=
  match s with
  | EmptyString => None
  | String c EmptyString => Some c
  | String _ r => last_char r
  end.

End JsString.

(** ** The page *)

(** The third argument of [addModalMessage] and [addSidebarMessage]: every
    call in the script passes one of these three literals. *)
Inductive Role := user | loading | assistant.

Definition role_name (r : Role) : string :=
  match r with user => "user" | loading => "loading" | assistant => "assistant" end.

(** The text of a message row: a string, or the sidebar's info badge
    followed by the answer. *)
Inductive Markup :=
| Raw (s : string)
| InfoBadged (info answer : string).

(** What a pagination button does when clicked.  The closures of Previous and
    Next read [currentPage] when they run; a numbered button has captured its
    own [i]. *)
Inductive OnClick :=
| GoPrevious
| GoPage (i : Z)
| GoNext.

Record PageButton := {
  b_text : string;
  b_disabled : bool;
  b_className : string;
  b_onclick : OnClick
}.

(** The fields of a study that [displayResults] interpolates. *)
Record Study := {
  st_nctId : string;
  st_briefTitle : option string;
  st_overallStatus : string;
  st_studyType : string;
  st_phases : option (list string);
  st_leadSponsor : option string;
  st_hasResults : bool
}.

(** A child of an element: one constructor per template the script writes. *)
Inductive Node :=
| Text (s : string)
    (* text or markup assigned as a plain string *)
| ModalPlaceholder (title : string)
    (* the centred block of openChatModal, with the study title *)
| SidebarPlaceholder
    (* div.chat-placeholder written by clearFilters *)
| MessageRow (id : string) (role : Role) (text : Markup)
    (* div#id.chat-message.role made by addModalMessage/addSidebarMessage *)
| PlainCount (total : Z)
    (* total.toLocaleString() *)
| SemanticCount (total : Z)
    (* total.toLocaleString() followed by the AI SEMANTIC badge *)
| NoStudies
    (* <p>No studies found matching your criteria.</p> *)
| StudyCard (st : Study)
    (* div.study-card *)
| PagerButton (b : PageButton)
| AgentLoading
    (* the hourglass block of showAgentLoading *)
| AgentError (message : string)
    (* the red box of showAgentError: <strong>Error:</strong> message *)
| AgentReport (html : string).
    (* the markup built by the success branch of an agent handler *)

Inductive Kind := TextInput | DateInput | CheckboxInput | SelectEl | OtherEl.

Record Element := {
  kind : Kind;
  multiple : bool;                  (* of a select: the multiple attribute *)
  value : string;
  checked : bool;
  options : list (string * bool);   (* of a select: value, selected *)
  disabled : bool;
  display : string;                 (* style.display *)
  classList : list string;
  children : list Node
}.

Definition with_value (v : string) (e : Element) : Element :=
  {| kind := kind e; multiple := multiple e; value := v; checked := checked e;
     options := options e;
     disabled := disabled e; display := display e; classList := classList e;
     children := children e |}.

Definition with_checked (b : bool) (e : Element) : Element :=
  {| kind := kind e; multiple := multiple e; value := value e; checked := b;
     options := options e;
     disabled := disabled e; display := display e; classList := classList e;
     children := children e |}.

Definition with_options (o : list (string * bool)) (e : Element) : Element :=
  {| kind := kind e; multiple := multiple e; value := value e;
     checked := checked e; options := o;
     disabled := disabled e; display := display e; classList := classList e;
     children := children e |}.

Definition with_disabled (b : bool) (e : Element) : Element :=
  {| kind := kind e; multiple := multiple e; value := value e;
     checked := checked e; options := options e;
     disabled := b; display := display e; classList := classList e;
     children := children e |}.

Definition with_display (d : string) (e : Element) : Element :=
  {| kind := kind e; multiple := multiple e; value := value e;
     checked := checked e; options := options e;
     disabled := disabled e; display := d; classList := classList e;
     children := children e |}.

Definition with_classList (c : list string) (e : Element) : Element :=
  {| kind := kind e; multiple := multiple e; value := value e;
     checked := checked e; options := options e;
     disabled := disabled e; display := display e; classList := c;
     children := children e |}.

Definition with_children (c : list Node) (e : Element) : Element :=
  {| kind := kind e; multiple := multiple e; value := value e;
     checked := checked e; options := options e;
     disabled := disabled e; display := display e; classList := classList e;
     children := c |}.

(** [el.value]: a select reports its first selected option, or the empty
    string when none is selected.  A select without [multiple] is a drop-down
    list (it has no [size] attribute), and the options of a select are
    enabled. *)
Definition el_value (e : Element) : string :=
  match kind e with
  | SelectEl =>
      match filter snd (options e) with
      | (v, _) :: _ => v
      | [] => ""
      end
  | _ => value e
  end.

(** [Array.from(el.selectedOptions).map(o => o.value)] *)
Definition selected_values (e : Element) : list string :=
  map fst (filter snd (options e)).

(** [el.innerHTML = s] for a plain string [s]. *)
Definition innerHTML (s : string) : list Node :=
  if JsString.is_empty s then [] else [Text s].

(** The page declares every id the script names; [getElementById] on such an
    id is a lookup in a total store. *)
Definition Page := string -> Element.

Definition upd (id : string) (f : Element -> Element) (p : Page) : Page :=
  fun i => if String.eqb i id then f (p i) else p i.

(** ** The state of the script *)

(** A value of [parseInt]: NaN, a double that is an integer, or an
    infinity.  The zero with a sign is the zero. *)
Inductive Number :=
| NaN
| Finite (z : Z)
| Infinity (negative : bool).

Record Filters := {
  f_condition : string;
  f_intervention : list string;
  f_location : string;
  f_status : list string;
  f_studyType : list string;
  f_phase : list string;
  f_sex : string;
  f_ageGroups : list string;
  f_healthyVolunteers : bool;
  f_hasResults : string;
  f_hasProtocol : bool;
  f_hasSAP : bool;
  f_hasICF : bool;
  f_funderType : list string;
  f_studyStartFrom : string;
  f_studyStartTo : string;
  f_primaryCompletionFrom : string;
  f_primaryCompletionTo : string;
  f_title : string;
  f_outcome : string;
  f_sponsor : string;
  f_nctId : string;
  f_fdaaa801Violation : bool;
  f_useSemanticSearch : bool;
  f_page : Z;
  f_per_page : Number
}.

(** [totalPages] and [totalResults] take what a reply has under
    [total_pages] and [total]: [None] is [undefined], the value of a property
    that the body does not have. *)
Record State := {
  currentChatStudy : option string;
  currentPage : Z;
  totalPages : option Z;
  currentFilters : option Filters;
  totalResults : option Z;
  isAdvancedMode : bool;
  page : Page;
  ageGroupBoxes : list (string * bool);  (* input[name=ageGroups]: value, checked *)
  alerts : list string                   (* what alert() has shown, oldest first *)
}.

Definition set_currentChatStudy (v : option string) (s : State) : State :=
  {| currentChatStudy := v; currentPage := currentPage s;
     totalPages := totalPages s; currentFilters := currentFilters s;
     totalResults := totalResults s; isAdvancedMode := isAdvancedMode s;
     page := page s; ageGroupBoxes := ageGroupBoxes s; alerts := alerts s |}.

Definition set_currentPage (v : Z) (s : State) : State :=
  {| currentChatStudy := currentChatStudy s; currentPage := v;
     totalPages := totalPages s; currentFilters := currentFilters s;
     totalResults := totalResults s; isAdvancedMode := isAdvancedMode s;
     page := page s; ageGroupBoxes := ageGroupBoxes s; alerts := alerts s |}.

Definition set_totalPages (v : option Z) (s : State) : State :=
  {| currentChatStudy := currentChatStudy s; currentPage := currentPage s;
     totalPages := v; currentFilters := currentFilters s;
     totalResults := totalResults s; isAdvancedMode := isAdvancedMode s;
     page := page s; ageGroupBoxes := ageGroupBoxes s; alerts := alerts s |}.

Definition set_currentFilters (v : option Filters) (s : State) : State :=
  {| currentChatStudy := currentChatStudy s; currentPage := currentPage s;
     totalPages := totalPages s; currentFilters := v;
     totalResults := totalResults s; isAdvancedMode := isAdvancedMode s;
     page := page s; ageGroupBoxes := ageGroupBoxes s; alerts := alerts s |}.

Definition set_totalResults (v : option Z) (s : State) : State :=
  {| currentChatStudy := currentChatStudy s; currentPage := currentPage s;
     totalPages := totalPages s; currentFilters := currentFilters s;
     totalResults := v; isAdvancedMode := isAdvancedMode s;
     page := page s; ageGroupBoxes := ageGroupBoxes s; alerts := alerts s |}.

Definition set_isAdvancedMode (v : bool) (s : State) : State :=
  {| currentChatStudy := currentChatStudy s; currentPage := currentPage s;
     totalPages := totalPages s; currentFilters := currentFilters s;
     totalResults := totalResults s; isAdvancedMode := v;
     page := page s; ageGroupBoxes := ageGroupBoxes s; alerts := alerts s |}.

Definition set_page (v : Page) (s : State) : State :=
  {| currentChatStudy := currentChatStudy s; currentPage := currentPage s;
     totalPages := totalPages s; currentFilters := currentFilters s;
     totalResults := totalResults s; isAdvancedMode := isAdvancedMode s;
     page := v; ageGroupBoxes := ageGroupBoxes s; alerts := alerts s |}.

Definition set_ageGroupBoxes (v : list (string * bool)) (s : State) : State :=
  {| currentChatStudy := currentChatStudy s; currentPage := currentPage s;
     totalPages := totalPages s; currentFilters := currentFilters s;
     totalResults := totalResults s; isAdvancedMode := isAdvancedMode s;
     page := page s; ageGroupBoxes := v; alerts := alerts s |}.

(** [alert(msg)] *)
Definition alert (msg : string) (s : State) : State :=
  {| currentChatStudy := currentChatStudy s; currentPage := currentPage s;
     totalPages := totalPages s; currentFilters := currentFilters s;
     totalResults := totalResults s; isAdvancedMode := isAdvancedMode s;
     page := page s; ageGroupBoxes := ageGroupBoxes s;
     alerts := alerts s ++ [msg] |}.

(** [document.getElementById(id)] and an assignment to one of its fields. *)
Definition el (s : State) (id : string) : Element := page s id.

Definition set_el (id : string) (f : Element -> Element) (s : State) : State :=
  set_page (upd id f (page s)) s.

(** ** Requests and replies *)

Inductive Body :=
| SearchBody (filters : Filters)
| ChatBody (nctId question : string)
| ChatAllBody (filters : Filters) (question : string) (advancedMode : bool)
              (model : string)
| ProtocolBody (condition intervention : string)
| QueryBody (query : string)
| NctBody (nctId : string)
| NctListBody (nctIds : list string)
| DesignBody (condition : string) (phase interventionType : option string).

Record Request := { endpoint : string; body : Body }.

(** What [await response.json()] gives: the parsed body, or an exception
    with its message. *)
Inductive Parsed (D : Type) :=
| BadJson (msg : string)
| Json (d : D).

(** What [await fetch(...)] followed by [response.json()] gives: a rejected
    promise with the message of its error, or a response with its [ok] flag
    and its body. *)
Inductive Fetched (D : Type) :=
| Rejected (msg : string)
| Response (ok : bool) (content : Parsed D).

Arguments BadJson {D} msg.
Arguments Json {D} d.
Arguments Rejected {D} msg.
Arguments Response {D} ok content.

(** A run of an async handler up to its end or up to its request.  The
    continuation takes the reply and the state the page has when the reply
    arrives.  The handlers do nothing between [await fetch] and
    [await response.json()] that touches the state, so the two waits are one
    step. *)
Inductive Step (D : Type) :=
| Done (s : State)
| Await (s : State) (rq : Request) (k : Fetched D -> State -> State).

Arguments Done {D} s.
Arguments Await {D} s rq k.

(** Bodies of the replies, as far as the handlers read them. *)
Record ChatData := {
  c_error : option string;
  c_answer : option string;
  c_info : option string
}.

(** The success payload of /api/search: it carries [total], [total_pages]
    and [results], every study with the modules its card reads; [error] and
    [searchType] may be there or not. *)
Record SearchData := {
  d_error : option string;
  d_total : Z;
  d_total_pages : Z;
  d_searchType : option string;
  d_results : list Study
}.

(** What a study of a result list may lack, by the first read that meets
    [undefined]: [study.protocolSection] (noticed at
    [ps.identificationModule]), [ps.statusModule] (at [status.overallStatus]),
    [ps.identificationModule] (at [id.nctId]), [ps.designModule] (at
    [design.studyType]). *)
Inductive Missing :=
| NoProtocolSection
| NoStatusModule
| NoIdentificationModule
| NoDesignModule.

Inductive StudyJson :=
| Whole (st : Study)
| Lacking (m : Missing).

(** The body of a 200 reply of /api/search as the script meets it: any of
    its properties may be missing, as in a body that is [{error}] and
    nothing else. *)
Record SearchJson := {
  j_error : option string;
  j_total : option Z;
  j_total_pages : option Z;
  j_searchType : option string;
  j_results : option (list StudyJson)
}.

Definition payload (d : SearchData) : SearchJson :=
  {| j_error := d_error d;
     j_total := Some (d_total d);
     j_total_pages := Some (d_total_pages d);
     j_searchType := d_searchType d;
     j_results := Some (map Whole (d_results d)) |}.

(** The body [{error: e}]. *)
Definition error_only (e : string) : SearchJson :=
  {| j_error := Some e; j_total := None; j_total_pages := None;
     j_searchType := None; j_results := None |}.

(** The message of the TypeError that reading the property [prop] of
    [undefined] raises. *)
Definition cannot_read (prop : string) : string :=
  "Cannot read properties of undefined (reading '" ++ prop ++ "')".

(** A call that may throw: the state it returns with, or the message of the
    exception and the state it has reached by then. *)
Inductive Run :=
| Returned (s : State)
| Threw (msg : string) (s : State).

Record ReportData := {
  r_error : option string;
  r_report : option string
}.

(** The success branch of an agent handler interpolates fields of the body
    into fixed markup.  Its value on a body is kept with the body: the markup,
    or the message of the TypeError that a missing field raises. *)
Inductive Template :=
| TemplateFails (msg : string)
| TemplateHtml (html : string).

Record AgentData := {
  a_success : bool;
  a_error : option string;
  a_template : Template
}.

(** ** Individual study chat *)

Definition openChatModal (nctId title : string) (s : State) : State :=
  let s := set_currentChatStudy (Some nctId) s in
  let s := set_el "chatStudyTitle"
             (with_children [Text ("Chat about " ++ nctId)]) s in
  let s := set_el "chatModal" (with_display "block") s in
  set_el "chatMessages" (with_children [ModalPlaceholder title]) s.

Definition closeChatModal (s : State) : State :=
  let s := set_el "chatModal" (with_display "none") s in
  set_currentChatStudy None s.

Definition addModalMessage (now : N) (text : Markup) (type : Role) (s : State)
  : State * string :=
  let id := "msg-" ++ JsString.of_N now in
  let messageDiv := MessageRow id type text in
  (set_el "chatMessages"
     (fun e => with_children (children e ++ [messageDiv]) e) s, id).

(** [document.getElementById(id).remove()] for the id of a message row.  The
    rows are the only elements the script creates with an id; they live in
    the two transcripts, of which the modal one is taken to come first in the
    document (rows of the two transcripts have ids with different prefixes).
    The result is [None] when no row has the id: the call then throws a
    TypeError. *)
Definition has_id (id : string) (n : Node) : bool :=
  match n with
  | MessageRow i _ _ => String.eqb i id
  | _ => false
  end.

Fixpoint remove_first (p : Node -> bool) (l : list Node) : option (list Node) :=
  match l with
  | [] => None
  | n :: r =>
      if p n then Some r
      else match remove_first p r with
           | Some r' => Some (n :: r')
           | None => None
           end
  end.

Definition remove_row (id : string) (s : State) : option State :=
  match remove_first (has_id id) (children (el s "chatMessages")) with
  | Some l => Some (set_el "chatMessages" (with_children l) s)
  | None =>
      match remove_first (has_id id) (children (el s "sidebarChatMessages")) with
      | Some l => Some (set_el "sidebarChatMessages" (with_children l) s)
      | None => None
      end
  end.

(** The part of [sendMessage] after the reply.  When the loading row is gone
    by then, the TypeError of the [try] block is caught and the [catch] block
    raises it again: nothing is written. *)
Definition sendMessage_resume (now : N) (loadingId : string)
  (reply : Fetched ChatData) (s : State) : State :=
  match reply with
  | Response _ (Json data) =>
      match remove_row loadingId s with
      | Some s =>
          match JsString.if_truthy (c_error data) with
          | Some e =>
              fst (addModalMessage now (Raw ("Error: " ++ e)) assistant s)
          | None =>
              fst (addModalMessage now (Raw (JsString.of_prop (c_answer data)))
                     assistant s)
          end
      | None => s
      end
  | Rejected _ | Response _ (BadJson _) =>
      match remove_row loadingId s with
      | Some s =>
          fst (addModalMessage now (Raw "Error: Failed to get response.")
                 assistant s)
      | None => s
      end
  end.

Definition sendMessage (t1 t2 t3 : N) (s : State) : Step ChatData :=
  let question := JsString.trim (el_value (el s "chatInput")) in
  match currentChatStudy s with
  | None => Done s
  | Some study =>
      if (negb (JsString.truthy question) || negb (JsString.truthy study))%bool
      then Done s
      else
        let s := fst (addModalMessage t1 (Raw question) user s) in
        let s := set_el "chatInput" (with_value "") s in
        let '(s, loadingId) :=
          addModalMessage t2 (Raw "Analyzing study data...") loading s in
        Await s {| endpoint := "/api/chat"; body := ChatBody study question |}
              (sendMessage_resume t3 loadingId)
  end.

(** ** Sidebar chat over the filtered studies *)

Definition is_placeholder (n : Node) : bool :=
  match n with SidebarPlaceholder => true | _ => false end.

Definition addSidebarMessage (now : N) (text : Markup) (type : Role) (s : State)
  : State * string :=
  let messages := children (el s "sidebarChatMessages") in
  let messages :=
    match remove_first is_placeholder messages with
    | Some l => l
    | None => messages
    end in
  let id := "sidebar-msg-" ++ JsString.of_N now in
  let messageDiv := MessageRow id type text in
  (set_el "sidebarChatMessages" (with_children (messages ++ [messageDiv])) s, id).

Definition sendSidebarMessage_resume (now : N) (loadingId : string)
  (reply : Fetched ChatData) (s : State) : State :=
  let s :=
    match reply with
    | Response _ (Json data) =>
        match remove_row loadingId s with
        | Some s =>
            match JsString.if_truthy (c_error data) with
            | Some e =>
                fst (addSidebarMessage now (Raw ("Error: " ++ e)) assistant s)
            | None =>
                let answer := JsString.of_prop (c_answer data) in
                match JsString.if_truthy (c_info data) with
                | Some info =>
                    fst (addSidebarMessage now (InfoBadged info answer) assistant s)
                | None => fst (addSidebarMessage now (Raw answer) assistant s)
                end
            end
        | None => s
        end
    | Rejected _ | Response _ (BadJson _) =>
        match remove_row loadingId s with
        | Some s =>
            fst (addSidebarMessage now (Raw "Error: Failed to get response.")
                   assistant s)
        | None => s
        end
    end in
  (* finally *)
  let s := set_el "sidebarSendBtn" (with_disabled false) s in
  set_el "sidebarChatInput" (with_disabled false) s.

Definition sendSidebarMessage (t1 t2 t3 : N) (s : State) : Step ChatData :=
  let question := JsString.trim (el_value (el s "sidebarChatInput")) in
  match currentFilters s with
  | None => Done s
  | Some filters =>
      if negb (JsString.truthy question) then Done s
      else
        let s := fst (addSidebarMessage t1 (Raw question) user s) in
        let s := set_el "sidebarChatInput" (with_value "") s in
        let s := set_el "sidebarSendBtn" (with_disabled true) s in
        let s := set_el "sidebarChatInput" (with_disabled true) s in
        let modeText :=
          if isAdvancedMode s then "ALL complete study data"
          else "essential study data" in
        let '(s, loadingId) :=
          addSidebarMessage t2
            (Raw ("Analyzing " ++ modeText ++ " from filtered studies..."))
            loading s in
        let selectedModel := el_value (el s "llmModelSelector") in
        Await s {| endpoint := "/api/chat-all";
                   body := ChatAllBody filters question (isAdvancedMode s)
                             selectedModel |}
              (sendSidebarMessage_resume t3 loadingId)
  end.

(** ** Search *)

Module ParseInt.

Definition digit (radix : Z) (c : ascii) : option Z :=
  let n := Z.of_nat (nat_of_ascii c) in
  let v :=
    if ((48 <=? n) && (n <=? 57))%bool then n - 48
    else if ((97 <=? n) && (n <=? 122))%bool then n - 87
    else if ((65 <=? n) && (n <=? 90))%bool then n - 55
    else radix in
  if v <? radix then Some v else None.

Fixpoint digits (radix : Z) (s : string) (acc : option Z) : option Z :=
  match s with
  | EmptyString => acc
  | String c r =>
      match digit radix c with
      | Some d =>
          digits radix r
            (Some (match acc with Some a => a * radix + d | None => d end))
      | None => acc
      end
  end.

(** The double nearest to the integer [v], ties going to the even
    significand of 53 bits; [None] when [v] lies beyond the largest double.
    The integers below 2^53 in magnitude are doubles. *)
Definition to_double (v : Z) : option Z :=
  let a := Z.abs v in
  if a <? 2 ^ 53 then Some v
  else
    let e := Z.log2 a - 52 in
    let q := Z.shiftr a e in
    let r := a - Z.shiftl q e in
    let half := Z.shiftl 1 (e - 1) in
    let q :=
      if r <? half then q
      else if half <? r then q + 1
      else if Z.even q then q else q + 1 in
    let m := Z.shiftl q e in
    if 2 ^ 1024 <=? m then None else Some (Z.sgn v * m).

(** [parseInt(s)] with no radix argument: leading white space, a sign, a
    [0x] prefix for base 16, then the longest run of digits, read as an
    integer and rounded to a double; NaN when there is no digit. *)
Definition parseInt (s : string) : Number :=
  let s := JsString.trimStart s in
  let '(neg, s) :=
    match s with
    | String "-" r => (true, r)
    | String "+" r => (false, r)
    | _ => (false, s)
    end in
  let '(radix, s) :=
    match s with
    | String "0" (String "x" r) => (16, r)
    | String "0" (String "X" r) => (16, r)
    | _ => (10, s)
    end in
  match digits radix s None with
  | Some v =>
      match to_double v with
      | Some d => Finite (if neg then - d else d)
      | None => Infinity neg
      end
  | None => NaN
  end.

End ParseInt.

Definition getFilters (s : State) : Filters :=
  let interventionText := JsString.trim (el_value (el s "intervention")) in
  let intervention :=
    if JsString.truthy interventionText
    then filter JsString.truthy
           (map JsString.trim (JsString.split_comma interventionText))
    else [] in
  {| f_condition := el_value (el s "condition");
     f_intervention := intervention;
     f_location := el_value (el s "location");
     f_status := selected_values (el s "status");
     f_studyType := selected_values (el s "studyType");
     f_phase := selected_values (el s "phase");
     f_sex := el_value (el s "sex");
     f_ageGroups := map fst (filter snd (ageGroupBoxes s));
     f_healthyVolunteers := checked (el s "healthyVolunteers");
     f_hasResults := el_value (el s "hasResults");
     f_hasProtocol := checked (el s "hasProtocol");
     f_hasSAP := checked (el s "hasSAP");
     f_hasICF := checked (el s "hasICF");
     f_funderType := selected_values (el s "funderType");
     f_studyStartFrom := el_value (el s "studyStartFrom");
     f_studyStartTo := el_value (el s "studyStartTo");
     f_primaryCompletionFrom := el_value (el s "primaryCompletionFrom");
     f_primaryCompletionTo := el_value (el s "primaryCompletionTo");
     f_title := el_value (el s "title");
     f_outcome := el_value (el s "outcome");
     f_sponsor := el_value (el s "sponsor");
     f_nctId := el_value (el s "nctId");
     f_fdaaa801Violation := checked (el s "fdaaa801Violation");
     f_useSemanticSearch := checked (el s "useSemanticSearch");
     f_page := currentPage s;
     f_per_page := ParseInt.parseInt (el_value (el s "perPage")) |}.

Definition first_read (m : Missing) : string :=
  match m with
  | NoProtocolSection => "identificationModule"
  | NoStatusModule => "overallStatus"
  | NoIdentificationModule => "nctId"
  | NoDesignModule => "studyType"
  end.

(** [data.results.forEach(study => ...)]: a card is appended for each study
    until one cannot be rendered. *)
Fixpoint add_cards (results : list StudyJson) (s : State) : Run :=
  match results with
  | [] => Returned s
  | Whole study :: rest =>
      add_cards rest
        (set_el "resultsContainer"
           (fun e => with_children (children e ++ [StudyCard study]) e) s)
  | Lacking m :: _ => Threw (cannot_read (first_read m)) s
  end.

Definition displayResults (data : SearchJson) (s : State) : Run :=
  let s := set_el "resultsContainer" (with_children (innerHTML "")) s in
  match j_results data with
  | None => Threw (cannot_read "length") s
  | Some [] => Returned (set_el "resultsContainer" (with_children [NoStudies]) s)
  | Some results => add_cards results s
  end.

(** The body of [for (let i = startPage; i <= endPage; i++)]: the buttons
    still to add when [n] rounds remain ([i++] is exact on the page numbers
    of the model). *)
Fixpoint page_buttons (currentPage : Z) (n : nat) (i : Z) : list Node :=
  match n with
  | O => []
  | S n' =>
      PagerButton {| b_text := JsString.of_Z i;
                     b_disabled := false;
                     b_className := if i =? currentPage then "active" else "";
                     b_onclick := GoPage i |}
      :: page_buttons currentPage n' (i + 1)
  end.

(** The guillemets of the Previous and Next labels, U+00AB and U+00BB. *)
Definition laquo : ascii := ascii_of_nat 171.
Definition raquo : ascii := ascii_of_nat 187.

(** Comparisons with a variable that may be [undefined]: [v <= n],
    [v > n] and [n === v] are false when [v] is. *)
Definition at_most (v : option Z) (n : Z) : bool :=
  match v with Some x => x <=? n | None => false end.

Definition above (v : option Z) (n : Z) : bool :=
  match v with Some x => n <? x | None => false end.

Definition is_number (n : Z) (v : option Z) : bool :=
  match v with Some x => n =? x | None => false end.

(** With [totalPages] undefined, [Math.min(totalPages, currentPage + 3)] is
    NaN and the loop does not run. *)
Definition displayPagination (data : SearchJson) (s : State) : State :=
  let s := set_el "pagination" (with_children (innerHTML "")) s in
  if at_most (totalPages s) 1 then s
  else
    let prevBtn :=
      PagerButton {| b_text := String laquo " Previous";
                     b_disabled := currentPage s =? 1;
                     b_className := "";
                     b_onclick := GoPrevious |} in
    let startPage := Z.max 1 (currentPage s - 3) in
    let numbered :=
      match totalPages s with
      | Some tp =>
          let endPage := Z.min tp (currentPage s + 3) in
          page_buttons (currentPage s) (Z.to_nat (endPage - startPage + 1))
            startPage
      | None => []
      end in
    let nextBtn :=
      PagerButton {| b_text := "Next " ++ String raquo "";
                     b_disabled := is_number (currentPage s) (totalPages s);
                     b_className := "";
                     b_onclick := GoNext |} in
    set_el "pagination"
      (fun e => with_children (children e ++ [prevBtn] ++ numbered ++ [nextBtn]) e) s.

(** [classList.add] and [classList.remove] *)
Definition class_add (c : string) (l : list string) : list string :=
  if existsb (String.eqb c) l then l else l ++ [c].

Definition class_remove (c : string) (l : list string) : list string :=
  filter (fun x => negb (String.eqb c x)) l.

(** The count that a search writes into [totalCount]. *)
Definition count_node (searchType : option string) (total : Z) : Node :=
  match searchType with
  | Some t => if String.eqb t "semantic" then SemanticCount total
              else PlainCount total
  | None => PlainCount total
  end.

(** The part of [searchStudies] after the reply.  A body without [total]
    raises a TypeError at [data.total.toLocaleString()], after the two
    variables have been assigned; an exception of [displayResults] leaves
    what was written before it; both end in the [catch] block. *)
Definition searchStudies_resume (reply : Fetched SearchJson) (s : State) : State :=
  match reply with
  | Rejected msg => alert ("Error: " ++ msg) s
  | Response false _ => alert ("Error: " ++ "Search failed") s
  | Response true (BadJson msg) => alert ("Error: " ++ msg) s
  | Response true (Json data) =>
      let s := set_totalPages (j_total_pages data) s in
      let s := set_totalResults (j_total data) s in
      match j_total data with
      | None => alert ("Error: " ++ cannot_read "toLocaleString") s
      | Some total =>
          let s := set_el "totalCount"
                     (with_children [count_node (j_searchType data) total]) s in
          match displayResults data s with
          | Threw msg s => alert ("Error: " ++ msg) s
          | Returned s =>
              let s := displayPagination data s in
              let s := set_el "sidebarChatInput" (with_disabled false) s in
              let s := set_el "sidebarSendBtn" (with_disabled false) s in
              if (isAdvancedMode s && above (totalResults s) 50)%bool
              then set_el "advancedWarning"
                     (fun e => with_classList (class_add "show" (classList e)) e) s
              else set_el "advancedWarning"
                     (fun e => with_classList (class_remove "show" (classList e)) e) s
          end
      end
  end.

(** [searchStudies(page = 1)]: a call without argument is [searchStudies 1]. *)
Definition searchStudies (pageNo : Z) (s : State) : Step SearchJson :=
  let s := set_currentPage pageNo s in
  let filters := getFilters s in
  let s := set_currentFilters (Some filters) s in
  Await s {| endpoint := "/api/search"; body := SearchBody filters |}
        searchStudies_resume.

(** A click on a button of the pagination bar: the page its handler asks
    for when the cursor is [cp]; a disabled button does not react. *)
Definition click_target (o : OnClick) (cp : Z) : Z :=
  match o with
  | GoPrevious => cp - 1
  | GoPage i => i
  | GoNext => cp + 1
  end.

Definition click (b : PageButton) (s : State) : Step SearchJson :=
  if b_disabled b then Done s
  else searchStudies (click_target (b_onclick b) (currentPage s)) s.

(** [document.querySelectorAll(selector).forEach(f)] over the elements of
    the page; [f] tells by the element (and its id) whether the selector
    matches. *)
Definition for_each_element (f : string -> Element -> Element) (s : State)
  : State :=
  set_page (fun id => f id (page s id)) s.

(** [Array.from(select.options).forEach(option => option.selected = false)].
    A select with [multiple] ends with no option selected.  A drop-down list
    selects its first option again as soon as none is selected, so it ends
    on its first option. *)
Definition deselect_all (multiple : bool) (o : list (string * bool))
  : list (string * bool) :=
  if multiple then map (fun o => (fst o, false)) o
  else
    match o with
    | [] => []
    | first :: rest => (fst first, true) :: map (fun o => (fst o, false)) rest
    end.

Definition clearFilters (s : State) : State :=
  let s :=
    for_each_element
      (fun _ e =>
         match kind e with
         | TextInput | DateInput => with_value "" e
         | _ => e
         end) s in
  let s :=
    for_each_element
      (fun id e =>
         match kind e with
         | SelectEl =>
             if String.eqb id "perPage" then e
             else with_options (deselect_all (multiple e) (options e)) e
         | _ => e
         end) s in
  let s :=
    for_each_element
      (fun _ e =>
         match kind e with
         | CheckboxInput => with_checked false e
         | _ => e
         end) s in
  let s := set_ageGroupBoxes (map (fun o => (fst o, false)) (ageGroupBoxes s)) s in
  let s := set_currentPage 1 s in
  let s := set_currentFilters None s in
  let s := set_el "resultsContainer" (with_children (innerHTML "")) s in
  let s := set_el "totalCount" (with_children [Text "0"]) s in
  let s := set_el "sidebarChatMessages" (with_children [SidebarPlaceholder]) s in
  let s := set_el "sidebarChatInput" (with_disabled true) s in
  set_el "sidebarSendBtn" (with_disabled true) s.

Definition toggleAdvancedMode (s : State) : State :=
  let s := set_isAdvancedMode (checked (el s "advancedModeCheckbox")) s in
  if isAdvancedMode s then
    let s := set_el "modeBadge" (with_children [Text "ADVANCED"]) s in
    let s := set_el "modeBadge" (with_classList ["mode-badge"; "advanced"]) s in
    if above (totalResults s) 50
    then set_el "advancedWarning"
           (fun e => with_classList (class_add "show" (classList e)) e) s
    else s
  else
    let s := set_el "modeBadge" (with_children [Text "ESSENTIAL"]) s in
    let s := set_el "modeBadge" (with_classList ["mode-badge"; "essential"]) s in
    set_el "advancedWarning"
      (fun e => with_classList (class_remove "show" (classList e)) e) s.

(** ** Protocol designer *)

Module Replace.

Fixpoint strip_prefix (pat s : string) : option string :=
  match pat, s with
  | EmptyString, _ => Some s
  | String p pat', String c r =>
      if Ascii.eqb p c then strip_prefix pat' r else None
  | String _ _, EmptyString => None
  end.

Fixpoint go (fuel : nat) (pat rep s : string) : string :=
  match fuel with
  | O => s
  | S fuel' =>
      match strip_prefix pat s with
      | Some rest => rep ++ go fuel' pat rep rest
      | None =>
          match s with
          | EmptyString => EmptyString
          | String c r => String c (go fuel' pat rep r)
          end
      end
  end.

(** [s.replace(/pat/g, rep)] for a pattern that is a non-empty literal:
    each round consumes a character of [s], so its length is enough fuel. *)
Definition replace_all (pat rep s : string) : string :=
  go (String.length s) pat rep s.

End Replace.

Definition dq : string := String (ascii_of_nat 34) EmptyString.

Definition styled_p : string :=
  "<p style=" ++ dq ++ "margin-bottom: 1em;" ++ dq ++ ">".

(** The message of the TypeError raised by [data.report.replace] when the
    body has no [report] (wording of V8). *)
Definition no_report_message : string :=
  "Cannot read properties of undefined (reading 'replace')".

Definition generateProtocolReport_resume (reply : Fetched ReportData) (s : State)
  : State :=
  match reply with
  | Response _ (Json data) =>
      let s := set_el "protocolLoading" (with_display "none") s in
      match JsString.if_truthy (r_error data) with
      | Some e => alert ("Error: " ++ e) s
      | None =>
          match r_report data with
          | Some report =>
              let reportContent :=
                Replace.replace_all "</p>" "</p>"
                  (Replace.replace_all "<p>" styled_p report) in
              let s := set_el "protocolReportContent"
                         (with_children (innerHTML reportContent)) s in
              set_el "protocolReportContainer" (with_display "block") s
          | None =>
              let s := set_el "protocolLoading" (with_display "none") s in
              alert ("Error generating report: " ++ no_report_message) s
          end
      end
  | Rejected msg | Response _ (BadJson msg) =>
      let s := set_el "protocolLoading" (with_display "none") s in
      alert ("Error generating report: " ++ msg) s
  end.

Definition generateProtocolReport (s : State) : Step ReportData :=
  let condition := JsString.trim (el_value (el s "protocolCondition")) in
  let intervention := JsString.trim (el_value (el s "protocolIntervention")) in
  if negb (JsString.truthy condition)
  then Done (alert "Please enter a condition or disease" s)
  else
    let s := set_el "protocolLoading" (with_display "block") s in
    let s := set_el "protocolReportContainer" (with_display "none") s in
    Await s {| endpoint := "/api/generate-protocol-report";
               body := ProtocolBody condition intervention |}
          generateProtocolReport_resume.

(** ** Agent features *)

Definition showAgentLoading (resultId : string) (s : State) : State :=
  let s := set_el resultId (with_children [AgentLoading]) s in
  set_el resultId (with_display "block") s.

Definition showAgentError (resultId message : string) (s : State) : State :=
  let s := set_el resultId (with_children [AgentError message]) s in
  set_el resultId (with_display "block") s.

(** The six agent handlers share what follows their request, up to the
    button, the result panel and the success template: [try] with its two
    branches, [catch], and [finally]. *)
Definition agent_resume (btn resultId : string) (reply : Fetched AgentData)
  (s : State) : State :=
  let s :=
    match reply with
    | Response _ (Json data) =>
        if a_success data then
          match a_template data with
          | TemplateHtml html => set_el resultId (with_children [AgentReport html]) s
          | TemplateFails msg => showAgentError resultId msg s
          end
        else
          match JsString.if_truthy (a_error data) with
          | Some e => showAgentError resultId e s
          | None => showAgentError resultId "Unknown error" s
          end
    | Rejected msg | Response _ (BadJson msg) => showAgentError resultId msg s
    end in
  (* finally *)
  set_el btn (with_disabled false) s.

Definition runAgenticSearch (s : State) : Step AgentData :=
  let query := JsString.trim (el_value (el s "agenticSearchQuery")) in
  if negb (JsString.truthy query)
  then Done (alert "Please enter a search query" s)
  else
    let s := set_el "agenticSearchBtn" (with_disabled true) s in
    let s := showAgentLoading "agenticSearchResult" s in
    Await s {| endpoint := "/api/agentic-search"; body := QueryBody query |}
          (agent_resume "agenticSearchBtn" "agenticSearchResult").

Definition runMultiAgentAnalysis (s : State) : Step AgentData :=
  let nctId := JsString.trim (el_value (el s "analysisNctId")) in
  if negb (JsString.truthy nctId)
  then Done (alert "Please enter an NCT ID" s)
  else
    let s := set_el "analysisBtn" (with_disabled true) s in
    let s := showAgentLoading "analysisResult" s in
    Await s {| endpoint := "/api/multi-agent-analysis"; body := NctBody nctId |}
          (agent_resume "analysisBtn" "analysisResult").

Definition runTrialComparison (s : State) : Step AgentData :=
  let nct1 := JsString.trim (el_value (el s "compareNct1")) in
  let nct2 := JsString.trim (el_value (el s "compareNct2")) in
  let nct3 := JsString.trim (el_value (el s "compareNct3")) in
  if (negb (JsString.truthy nct1) || negb (JsString.truthy nct2))%bool
  then Done (alert "Please enter at least 2 NCT IDs" s)
  else
    let nctIds := [nct1; nct2] in
    let nctIds := if JsString.truthy nct3 then (nctIds ++ [nct3])%list else nctIds in
    let s := set_el "compareBtn" (with_disabled true) s in
    let s := showAgentLoading "compareResult" s in
    Await s {| endpoint := "/api/compare-trials"; body := NctListBody nctIds |}
          (agent_resume "compareBtn" "compareResult").

Definition runAmendmentRisk (s : State) : Step AgentData :=
  let nctId := JsString.trim (el_value (el s "amendmentNctId")) in
  if negb (JsString.truthy nctId)
  then Done (alert "Please enter an NCT ID" s)
  else
    let s := set_el "amendmentBtn" (with_disabled true) s in
    let s := showAgentLoading "amendmentResult" s in
    Await s {| endpoint := "/api/amendment-risk"; body := NctBody nctId |}
          (agent_resume "amendmentBtn" "amendmentResult").

Definition runDesignPatterns (s : State) : Step AgentData :=
  let condition := JsString.trim (el_value (el s "patternCondition")) in
  let phase := el_value (el s "patternPhase") in
  let interventionType := JsString.trim (el_value (el s "patternIntervention")) in
  if negb (JsString.truthy condition)
  then Done (alert "Please enter a condition" s)
  else
    let s := set_el "patternBtn" (with_disabled true) s in
    let s := showAgentLoading "patternResult" s in
    Await s {| endpoint := "/api/design-patterns";
               body := DesignBody condition (JsString.if_truthy (Some phase))
                         (JsString.if_truthy (Some interventionType)) |}
          (agent_resume "patternBtn" "patternResult").

Definition runSoAComposer (s : State) : Step AgentData :=
  let condition := JsString.trim (el_value (el s "soaCondition")) in
  let phase := el_value (el s "soaPhase") in
  let interventionType := JsString.trim (el_value (el s "soaIntervention")) in
  if negb (JsString.truthy condition)
  then Done (alert "Please enter a condition" s)
  else
    let s := set_el "soaBtn" (with_disabled true) s in
    let s := showAgentLoading "soaResult" s in
    Await s {| endpoint := "/api/soa-composer";
               body := DesignBody condition (JsString.if_truthy (Some phase))
                         (JsString.if_truthy (Some interventionType)) |}
          (agent_resume "soaBtn" "soaResult").

(** ** Tabs *)

(** The inline style of an element, as far as [switchTab] writes it. *)
Record Style := {
  s_display : string;
  s_background : string;
  s_color : string
}.

Definition Styles := string -> Style.

Definition set_display (d : string) (st : Style) : Style :=
  {| s_display := d; s_background := s_background st; s_color := s_color st |}.

Definition set_background (b : string) (st : Style) : Style :=
  {| s_display := s_display st; s_background := b; s_color := s_color st |}.

Definition set_color (c : string) (st : Style) : Style :=
  {| s_display := s_display st; s_background := s_background st; s_color := c |}.

Definition style (id : string) (f : Style -> Style) (v : Styles) : Styles :=
  fun i => if String.eqb i id then f (v i) else v i.

Definition gradient : string :=
  "linear-gradient(135deg, #667eea 0%, #764ba2 100%)".

Definition switchTab (tab : string) (v : Styles) : Styles :=
  (* hide all sections *)
  let v := style "searchSection" (set_display "none") v in
  let v := style "protocolDesigner" (set_display "none") v in
  let v := style "agentsSection" (set_display "none") v in
  (* reset all tab styles *)
  let v := style "searchTab" (set_background "#ddd") v in
  let v := style "searchTab" (set_color "#333") v in
  let v := style "protocolTab" (set_background "#ddd") v in
  let v := style "protocolTab" (set_color "#333") v in
  let v := style "agentsTab" (set_background "#ddd") v in
  let v := style "agentsTab" (set_color "#333") v in
  (* show the selected section and highlight its tab *)
  if String.eqb tab "search" then
    let v := style "searchSection" (set_display "block") v in
    let v := style "searchTab" (set_background "#4CAF50") v in
    style "searchTab" (set_color "white") v
  else if String.eqb tab "protocol" then
    let v := style "protocolDesigner" (set_display "block") v in
    let v := style "protocolTab" (set_background gradient) v in
    style "protocolTab" (set_color "white") v
  else if String.eqb tab "agents" then
    let v := style "agentsSection" (set_display "block") v in
    let v := style "agentsTab" (set_background gradient) v in
    style "agentsTab" (set_color "white") v
  else v.

(** ** Running a handler to its end *)

(** The state a handler leaves when its reply arrives before anything else
    happens on the page. *)
Definition settle {D : Type} (st : Step D) (reply : Fetched D) : State :=
  match st with
  | Done s => s
  | Await s _ k => k reply s
  end.

(** The message of the exception that [fetch] or [response.json()] raised,
    if one did. *)
Definition thrown {D : Type} (reply : Fetched D) : option string :=
  match reply with
  | Rejected msg => Some msg
  | Response _ (BadJson msg) => Some msg
  | Response _ (Json _) => None
  end.

(** The handler stops at a request to [ep]; [btn] is disabled while the
    request is out and enabled again once the code after the reply has run,
    whatever the reply and whatever happened on the page in between. *)
Definition guarded_request {D : Type} (btn ep : string) (st : Step D) : Prop :=
  exists s1 rq k,
    st = Await s1 rq k /\ endpoint rq = ep /\
    disabled (el s1 btn) = true /\
    forall reply s2, disabled (el (k reply s2) btn) = false.

(** The handler has sent a request and waits for the reply. *)
Definition waits {D : Type} (st : Step D) : bool :=
  match st with
  | Done _ => false
  | Await _ _ _ => true
  end.

(** Some control is disabled while the request of [h] is out and enabled
    after it, on every run of [h] that sends a request. *)
Definition disables_a_trigger {D : Type} (h : State -> Step D) : Prop :=
  exists btn, forall s s1 rq k,
    h s = Await s1 rq k ->
    disabled (el s1 btn) = true /\
    forall reply s2, disabled (el (k reply s2) btn) = false.

(** The state and the request a handler is waiting with, if it waits. *)
Definition awaiting {D : Type} (st : Step D) : option (State * Request) :=
  match st with
  | Done _ => None
  | Await s rq _ => Some (s, rq)
  end.

(** The state a handler has reached when it returns or waits. *)
Definition reached {D : Type} (st : Step D) : State :=
  match st with
  | Done s => s
  | Await s _ _ => s
  end.

(** The page number a search request asks for. *)
Definition requested_page (rq : Request) : option Z :=
  match body rq with
  | SearchBody filters => Some (f_page filters)
  | _ => None
  end.

(** The two transcripts. *)
Definition modal_transcript (s : State) : list Node :=
  children (el s "chatMessages").

Definition sidebar_transcript (s : State) : list Node :=
  children (el s "sidebarChatMessages").

Definition transcripts (s : State) : list Node * list Node :=
  (modal_transcript s, sidebar_transcript s).

(** The handler [h] leaves both transcripts as they are, before its request
    and after the reply. *)
Definition keeps_transcripts {D : Type} (h : State -> Step D) : Prop :=
  forall s0,
    transcripts (reached (h s0)) = transcripts s0 /\
    forall s1 rq k reply s,
      h s0 = Await s1 rq k -> transcripts (k reply s) = transcripts s.

(** A transcript without its first placeholder, if it has one. *)
Definition without_placeholder (l : list Node) : list Node :=
  match remove_first is_placeholder l with
  | Some l' => l'
  | None => l
  end.

(** The numbered buttons of a pagination bar. *)
Fixpoint numbered (bar : list Node) : list PageButton :=
  match bar with
  | [] => []
  | PagerButton b :: r =>
      match b_onclick b with
      | GoPage _ => b :: numbered r
      | _ => numbered r
      end
  | _ :: r => numbered r
  end.

(** What [getFilters] makes of the text of the intervention field: the
    branch of its ternary for a text that is not blank, which gives the
    empty list on a blank text as well. *)
Definition intervention_tokens (text : string) : list string :=
  filter JsString.truthy
    (map JsString.trim (JsString.split_comma (JsString.trim text))).

(** An entry with white space at its start or at its end. *)
Definition padded (e : string) : bool :=
  (match JsString.first_char e with Some c => JsString.is_ws c | None => false end
   || match JsString.last_char e with Some c => JsString.is_ws c | None => false end)%bool.

(** The bar that [displayPagination] leaves, from the cursor and the page
    count it reads. *)
Definition pagination_bar (cp tp : Z) : list Node :=
  if tp <=? 1 then []
  else
    PagerButton {| b_text := String laquo " Previous"; b_disabled := cp =? 1;
                   b_className := ""; b_onclick := GoPrevious |}
    :: page_buttons cp (Z.to_nat (Z.min tp (cp + 3) - Z.max 1 (cp - 3) + 1))
         (Z.max 1 (cp - 3))
    ++ [PagerButton {| b_text := "Next " ++ String raquo ""; b_disabled := cp =? tp;
                       b_className := ""; b_onclick := GoNext |}].

(** The numbered button that the loop of [displayPagination] makes for page
    [i] when the cursor is [cp]. *)
Definition numbered_button (cp i : Z) : PageButton :=
  {| b_text := JsString.of_Z i; b_disabled := false;
     b_className := if i =? cp then "active" else "";
     b_onclick := GoPage i |}.

(** ** Sample pages *)

Definition multi_selects : list string :=
  ["status"; "studyType"; "phase"; "funderType"].

Definition blank (k : Kind) (m : bool) : Element :=
  {| kind := k; multiple := m; value := ""; checked := false; options := [];
     disabled := false; display := ""; classList := []; children := [] |}.

Definition kind_of (id : string) : Kind :=
  if existsb (String.eqb id)
       ["condition"; "intervention"; "location"; "title"; "outcome"; "sponsor";
        "nctId"; "chatInput"; "sidebarChatInput"; "protocolCondition";
        "protocolIntervention"; "agenticSearchQuery"; "analysisNctId";
        "compareNct1"; "compareNct2"; "compareNct3"; "amendmentNctId";
        "patternCondition"; "patternIntervention"; "soaCondition";
        "soaIntervention"]
  then TextInput
  else if existsb (String.eqb id)
       ["studyStartFrom"; "studyStartTo"; "primaryCompletionFrom";
        "primaryCompletionTo"]
  then DateInput
  else if existsb (String.eqb id)
       ["healthyVolunteers"; "hasProtocol"; "hasSAP"; "hasICF";
        "fdaaa801Violation"; "useSemanticSearch"; "advancedModeCheckbox"]
  then CheckboxInput
  else if existsb (String.eqb id)
       ["status"; "studyType"; "phase"; "sex"; "hasResults"; "funderType";
        "perPage"; "llmModelSelector"; "patternPhase"; "soaPhase"]
  then SelectEl
  else OtherEl.

(** The script right after it is loaded (its six variables as declared), on
    a page whose controls are all empty and enabled. *)
Definition initial_state : State :=
  {| currentChatStudy := None; currentPage := 1; totalPages := Some 1;
     currentFilters := None; totalResults := Some 0; isAdvancedMode := false;
     page := fun id => blank (kind_of id) (existsb (String.eqb id) multi_selects);
     ageGroupBoxes := [("ADULT", false); ("CHILD", false)];
     alerts := [] |}.

(** The user types [v] into the field [id]. *)
Definition type_into (id v : string) (s : State) : State :=
  set_el id (with_value v) s.

(** A page with every form of the application filled in, the filter record
    of the search form stored, and the chat modal open on a study. *)
Definition filled : State :=
  let s := initial_state in
  let s := type_into "condition" "diabetes" s in
  let s := type_into "intervention" " metformin, , insulin glargine ," s in
  let s := set_el "perPage" (with_options [("10", true); ("25", false)]) s in
  let s := type_into "protocolCondition" "asthma" s in
  let s := type_into "agenticSearchQuery" "heart failure" s in
  let s := type_into "analysisNctId" "NCT001" s in
  let s := type_into "compareNct1" "NCT001" s in
  let s := type_into "compareNct2" "NCT002" s in
  let s := type_into "amendmentNctId" "NCT001" s in
  let s := type_into "patternCondition" "asthma" s in
  let s := type_into "soaCondition" "asthma" s in
  let s := set_currentFilters (Some (getFilters s)) s in
  let s := openChatModal "NCT001" "A study" s in
  let s := type_into "chatInput" "What is the primary outcome?" s in
  type_into "sidebarChatInput" "How many are recruiting?" s.

Definition five_pages : SearchData :=
  {| d_error := None; d_total := 50; d_total_pages := 5;
     d_searchType := None; d_results := [] |}.

Definition three_pages : SearchData :=
  {| d_error := None; d_total := 30; d_total_pages := 3;
     d_searchType := Some "semantic"; d_results := [] |}.

Definition previous_enabled : PageButton :=
  {| b_text := String laquo " Previous"; b_disabled := false;
     b_className := ""; b_onclick := GoPrevious |}.

(** Page 3 of 5 is on display after a search from the filled page; then the
    filters are cleared. *)
Definition page_three_shown : State :=
  settle (searchStudies 3 filled) (Response true (Json (payload five_pages))).

Definition page_three_cleared : State := clearFilters page_three_shown.

(** The filled page with choices made in the selects of the search form and
    two boxes ticked. *)
Definition form_in_use : State :=
  let s := filled in
  let s := set_el "sex"
             (with_options [("ALL", false); ("FEMALE", true); ("MALE", false)]) s in
  let s := set_el "hasResults"
             (with_options [("", false); ("true", true); ("false", false)]) s in
  let s := set_el "status"
             (with_options [("RECRUITING", true); ("COMPLETED", true);
                            ("TERMINATED", false)]) s in
  let s := set_el "hasProtocol" (with_checked true) s in
  set_ageGroupBoxes [("ADULT", true); ("CHILD", false)] s.

(** The advanced mode switched on, then a search that counts sixty
    studies: the warning is on display. *)
Definition sixty_studies : SearchData :=
  {| d_error := None; d_total := 60; d_total_pages := 6;
     d_searchType := None; d_results := [] |}.

Definition advanced_sixty : State :=
  let s := set_el "advancedModeCheckbox" (with_checked true) initial_state in
  let s := toggleAdvancedMode s in
  settle (searchStudies 1 s) (Response true (Json (payload sixty_studies))).

(** The chat modal open on a study with a question typed, and the protocol
    form with a condition typed, both on the page as loaded. *)
Definition question_typed : State :=
  type_into "chatInput" "Any results?"
    (openChatModal "NCT001" "A study" initial_state).

Definition condition_typed : State :=
  type_into "protocolCondition" "asthma" initial_state.

Definition yes_answer : ChatData :=
  {| c_error := None; c_answer := Some "Yes, posted in 2021."; c_info := None |}.

(** The question of [question_typed] sent and answered. *)
Definition answered : State :=
  settle (sendMessage 5 6 9 question_typed) (Response true (Json yes_answer)).

(** A reply of /api/search that carries an [error] next to an empty result,
    and a reply of an agent endpoint that carries one next to a report. *)
Definition search_error : SearchData :=
  {| d_error := Some "Database unavailable"; d_total := 0; d_total_pages := 0;
     d_searchType := None; d_results := [] |}.

Definition agent_error_and_report : AgentData :=
  {| a_success := true; a_error := Some "Partial failure";
     a_template := TemplateHtml "<div>report</div>" |}.

(** The agent handler [h] shows in the panel [resultId] the message of the
    exception that its request raised. *)
Definition shows_thrown_message (resultId : string) (h : State -> Step AgentData)
  : Prop :=
  forall s0 s1 rq k reply msg s,
    h s0 = Await s1 rq k ->
    thrown reply = Some msg ->
    children (el (k reply s) resultId) = [AgentError msg].

(** The agent handler [h] shows in the panel [resultId] the [error] of a
    body without [success], and not the report. *)
Definition shows_error_field (resultId : string) (h : State -> Step AgentData)
  : Prop :=
  forall s0 s1 rq k ok data e s,
    h s0 = Await s1 rq k ->
    a_success data = false ->
    a_error data = Some e -> e <> "" ->
    children (el (k (Response ok (Json data)) s) resultId) = [AgentError e].

(** The pages on which the two chat handlers wait for their reply. *)
Definition modal_waiting : State := reached (sendMessage 5 6 9 question_typed).

Definition sidebar_waiting : State := reached (sendSidebarMessage 5 6 9 filled).

Definition not_found : ChatData :=
  {| c_error := Some "Study not found"; c_answer := None; c_info := None |}.

Definition no_condition : ReportData :=
  {| r_error := Some "Condition is required"; r_report := None |}.

(** Two bodies of /api/search that differ at most in their [error]. *)
Definition same_but_error (d d' : SearchData) : Prop :=
  d_total d = d_total d' /\ d_total_pages d = d_total_pages d' /\
  d_searchType d = d_searchType d' /\ d_results d = d_results d'.

(** ** Further notions for the properties *)

(** The pages [start], [start + 1], ... , [n] of them. *)
Fixpoint page_range (start : Z) (n : nat) : list Z :=
  match n with
  | O => []
  | S n' => start :: page_range (start + 1) n'
  end.

(** The pages the window of [displayPagination] shows for cursor [cp] and
    page count [tp]: from [max 1 (cp - 3)] to [min tp (cp + 3)]. *)
Definition window (cp tp : Z) : list Z :=
  page_range (Z.max 1 (cp - 3))
    (Z.to_nat (Z.min tp (cp + 3) - Z.max 1 (cp - 3) + 1)).


(** The state that [displayResults] returns with on a list of studies that
    are all whole. *)
Definition rendered (results : list Study) (s : State) : State :=
  let s := set_el "resultsContainer" (with_children (innerHTML "")) s in
  match results with
  | [] => set_el "resultsContainer" (with_children [NoStudies]) s
  | _ =>
      fold_left
        (fun s study =>
           set_el "resultsContainer"
             (fun e => with_children (children e ++ [StudyCard study]) e) s)
        results s
  end.

(** The elements that the code after a search reply writes to. *)
Definition search_targets : list string :=
  ["totalCount"; "resultsContainer"; "pagination"; "sidebarChatInput";
   "sidebarSendBtn"; "advancedWarning"].

(** The state a call has reached when it returns or throws. *)
Definition state_of (r : Run) : State :=
  match r with
  | Returned s => s
  | Threw _ s => s
  end.

(** The card rows that [displayResults] makes of a result list. *)
Definition result_rows (results : list Study) : list Node :=
  match results with
  | [] => [NoStudies]
  | _ => map StudyCard results
  end.

(** The state a handler leaves when [f] happens on the page between its
    request and the arrival of the reply. *)
Definition interrupted {D : Type} (st : Step D) (f : State -> State)
  (reply : Fetched D) : State :=
  match st with
  | Done s => f s
  | Await s _ k => k reply (f s)
  end.

(** A reply that makes [searchStudies] take its [catch] branch before it
    reads the body, and the message it alerts. *)
Definition search_failure (reply : Fetched SearchJson) : option string :=
  match reply with
  | Rejected msg => Some msg
  | Response false _ => Some "Search failed"
  | Response true (BadJson msg) => Some msg
  | Response true (Json _) => None
  end.

(** The field of a request body that its handler insists on. *)
Definition required_field (b : Body) : option string :=
  match b with
  | QueryBody query => Some query
  | NctBody nctId => Some nctId
  | DesignBody condition _ _ => Some condition
  | ProtocolBody condition _ => Some condition
  | _ => None
  end.

(** The handler [h] insists on the form field [field]: when the trimmed
    text of the field is empty it alerts [msg] and does nothing else;
    otherwise it sends a request to [ep] whose required field is that
    trimmed text. *)
Definition validates {D : Type} (field msg ep : string) (h : State -> Step D)
  : Prop :=
  forall s,
    let q := JsString.trim (el_value (el s field)) in
    (q = "" -> h s = Done (alert msg s)) /\
    (q <> "" ->
     exists s1 rq,
       awaiting (h s) = Some (s1, rq) /\ endpoint rq = ep /\
       required_field (body rq) = Some q /\ JsString.trim q = q).

(** An optional field of a request body: [null] when the text [v] it is
    taken from is empty, and [v] otherwise. *)
Definition sent_unless_empty (v : string) (o : option string) : Prop :=
  (v = "" /\ o = None) \/ (v <> "" /\ o = Some v).


(** The controls of the search form that [getFilters] reads, by the kind of
    element they have to be for [clearFilters] to reach them. *)
Definition text_fields : list string :=
  ["condition"; "intervention"; "location"; "title"; "outcome"; "sponsor";
   "nctId"; "studyStartFrom"; "studyStartTo"; "primaryCompletionFrom";
   "primaryCompletionTo"].

Definition check_boxes : list string :=
  ["healthyVolunteers"; "hasProtocol"; "hasSAP"; "hasICF"; "fdaaa801Violation";
   "useSemanticSearch"].

Definition single_selects : list string := ["sex"; "hasResults"].

Definition search_form (s : State) : Prop :=
  (forall id, In id text_fields ->
     kind (el s id) = TextInput \/ kind (el s id) = DateInput) /\
  (forall id, In id multi_selects ->
     kind (el s id) = SelectEl /\ multiple (el s id) = true) /\
  (forall id, In id single_selects ->
     kind (el s id) = SelectEl /\ multiple (el s id) = false) /\
  (forall id, In id check_boxes -> kind (el s id) = CheckboxInput) /\
  kind (el s "perPage") = SelectEl.

(** The value of the first option of a select, the one a drop-down list
    falls back to; the empty string when it has no option. *)
Definition first_option (e : Element) : string :=
  match options e with
  | (v, _) :: _ => v
  | [] => ""
  end.

(** What the three [querySelectorAll] loops of [clearFilters] make of the
    element with id [id]. *)
Definition cleared_control (id : string) (e : Element) : Element :=
  let e := match kind e with
           | TextInput | DateInput => with_value "" e
           | _ => e
           end in
  let e := match kind e with
           | SelectEl =>
               if String.eqb id "perPage" then e
               else with_options (deselect_all (multiple e) (options e)) e
           | _ => e
           end in
  match kind e with
  | CheckboxInput => with_checked false e
  | _ => e
  end.

(** The criteria of a filter record read from a form that has been reset:
    every text and date empty, nothing selected in a multi-select, no box
    ticked, and the two drop-down lists on the options [sex] and
    [hasResults]. *)
Definition reset_criteria (sex hasResults : string) (f : Filters) : Prop :=
  f_sex f = sex /\ f_hasResults f = hasResults /\
  f_condition f = "" /\ f_intervention f = [] /\ f_location f = "" /\
  f_status f = [] /\ f_studyType f = [] /\ f_phase f = [] /\
  f_ageGroups f = [] /\ f_healthyVolunteers f = false /\
  f_hasProtocol f = false /\ f_hasSAP f = false /\ f_hasICF f = false /\
  f_funderType f = [] /\ f_studyStartFrom f = "" /\ f_studyStartTo f = "" /\
  f_primaryCompletionFrom f = "" /\ f_primaryCompletionTo f = "" /\
  f_title f = "" /\ f_outcome f = "" /\ f_sponsor f = "" /\ f_nctId f = "" /\
  f_fdaaa801Violation f = false /\ f_useSemanticSearch f = false.

(** The advanced-mode warning is on display, and the condition under which
    the script wants it on display. *)
Definition warning_shown (s : State) : bool :=
  existsb (String.eqb "show") (classList (el s "advancedWarning")).

Definition warning_due (s : State) : bool :=
  (isAdvancedMode s && above (totalResults s) 50)%bool.

(** The section that a tab name stands for, and the button of that
    section. *)
Definition section_of (tab : string) : option string :=
  if String.eqb tab "search" then Some "searchSection"
  else if String.eqb tab "protocol" then Some "protocolDesigner"
  else if String.eqb tab "agents" then Some "agentsSection"
  else None.

Definition button_of (tab : string) : option string :=
  if String.eqb tab "search" then Some "searchTab"
  else if String.eqb tab "protocol" then Some "protocolTab"
  else if String.eqb tab "agents" then Some "agentsTab"
  else None.

Definition sections : list string :=
  ["searchSection"; "protocolDesigner"; "agentsSection"].

Definition tab_buttons : list string := ["searchTab"; "protocolTab"; "agentsTab"].

Definition plain_styles : Styles :=
  fun _ => {| s_display := ""; s_background := ""; s_color := "" |}.

(** A string with a comma in it. *)
Fixpoint has_comma (s : string) : bool :=
  match s with
  | EmptyString => false
  | String c r => (Ascii.eqb c ","%char || has_comma r)%bool
  end.

(** A token as [getFilters] leaves it: not empty, trimmed, without comma. *)
Definition clean_token (e : string) : Prop :=
  e <> "" /\ JsString.trim e = e /\ has_comma e = false.

(** The intervention field in the words of its description, which name no
    function of the script: split the trimmed text on commas, trim each
    token, drop the empty tokens.

    [t] is [p] trimmed: [p] without the white space at its two ends. *)
Definition trimmed (p t : string) : Prop :=
  exists a b,
    p = (a ++ t ++ b)%string /\
    JsString.all_ws a = true /\ JsString.all_ws b = true /\ padded t = false.

(** [pieces] is [text] split on commas: the pieces hold no comma, and
    joined by commas they are [text]. *)
Definition split_on_commas (text : string) (pieces : list string) : Prop :=
  pieces <> [] /\
  (forall p, In p pieces -> has_comma p = false) /\
  String.concat "," pieces = text.

Definition not_empty (t : string) : bool := negb (String.eqb t "").

Definition intervention_spec (text : string) (result : list string) : Prop :=
  exists trimmedText pieces tokens,
    trimmed text trimmedText /\
    split_on_commas trimmedText pieces /\
    Forall2 trimmed pieces tokens /\
    result = filter not_empty tokens.

(** The agent handler [h] shows the loading block in its panel [res] while
    its request is out, and every reply replaces that block: by the report,
    or by the error box, in which case the panel is on display. *)
Definition settles_panel (res : string) (h : State -> Step AgentData) : Prop :=
  forall s0 s1 rq k,
    h s0 = Await s1 rq k ->
    (children (el s1 res) = [AgentLoading] /\ display (el s1 res) = "block") /\
    forall reply s,
      (exists html, children (el (k reply s) res) = [AgentReport html]) \/
      (exists msg, children (el (k reply s) res) = [AgentError msg] /\
                   display (el (k reply s) res) = "block").

(** * Properties *)

Open Scope list_scope.

Example trim_ex : JsString.trim "  aspirin , x  " = "aspirin , x".
Proof. reflexivity. Qed.

Example split_ex : JsString.split_comma "a,,b," = ["a"; ""; "b"; ""].
Proof. reflexivity. Qed.

Example of_N_ex : JsString.of_N 1700 = "1700".
Proof. reflexivity. Qed.

Example parseInt_ex :
  ParseInt.parseInt " 25px" = Finite 25 /\ ParseInt.parseInt "0x1f" = Finite 31 /\
  ParseInt.parseInt "-7" = Finite (-7) /\ ParseInt.parseInt "" = NaN.
Proof. repeat split; reflexivity. Qed.

(** Beyond 2^53 the value is the nearest double: 2^53 + 1 lies half-way
    between two doubles and goes to the even one, 2^53 + 3 goes up. *)
Example parseInt_rounds :
  ParseInt.parseInt "9007199254740992" = Finite 9007199254740992 /\
  ParseInt.parseInt "9007199254740993" = Finite 9007199254740992 /\
  ParseInt.parseInt "9007199254740995" = Finite 9007199254740996 /\
  ParseInt.parseInt "-9007199254740993" = Finite (-9007199254740992) /\
  ParseInt.parseInt "123456789012345678901234567890"
  = Finite 123456789012345677877719597056.
Proof. repeat split; vm_compute; reflexivity. Qed.

Example replace_ex :
  Replace.replace_all "<p>" "<q>" "<p>a</p><p>b" = "<q>a</p><q>b".
Proof. reflexivity. Qed.

Example getFilters_ex :
  f_intervention (getFilters filled) = ["metformin"; "insulin glargine"] /\
  f_per_page (getFilters filled) = Finite 10 /\
  f_condition (getFilters filled) = "diabetes".
Proof. repeat split; reflexivity. Qed.

Example sendMessage_request :
  option_map snd (awaiting (sendMessage 5 6 9 question_typed))
  = Some {| endpoint := "/api/chat"; body := ChatBody "NCT001" "Any results?" |}.
Proof. vm_compute; reflexivity. Qed.

Example sendMessage_answered :
  modal_transcript answered
  = [ModalPlaceholder "A study";
     MessageRow "msg-5" user (Raw "Any results?");
     MessageRow "msg-9" assistant (Raw "Yes, posted in 2021.")].
Proof. vm_compute; reflexivity. Qed.

(** When the two clock readings of one [sendMessage] coincide, the question
    and the loading row get the same id, and it is the question that
    [getElementById] finds and removes. *)
Example sendMessage_same_millisecond :
  modal_transcript
    (settle (sendMessage 5 5 9 question_typed) (Response true (Json yes_answer)))
  = [ModalPlaceholder "A study";
     MessageRow "msg-5" loading (Raw "Analyzing study data...");
     MessageRow "msg-9" assistant (Raw "Yes, posted in 2021.")].
Proof. vm_compute; reflexivity. Qed.

Example page_three_bar :
  numbered (children (el page_three_shown "pagination"))
  = map (numbered_button 3) [1; 2; 3; 4; 5].
Proof. vm_compute; reflexivity. Qed.

(** ** The store *)

Lemma el_set_el_same (id : string) (f : Element -> Element) (s : State) :
  el (set_el id f s) id = f (el s id).
Proof. unfold el, set_el, upd; simpl. now rewrite String.eqb_refl. Qed.

Lemma el_set_el_other (id j : string) (f : Element -> Element) (s : State) :
  j <> id -> el (set_el id f s) j = el s j.
Proof.
  intros H. unfold el, set_el, upd; simpl.
  destruct (String.eqb_spec j id); [contradiction | reflexivity].
Qed.

Lemma el_set_currentPage (v : Z) (s : State) (j : string) :
  el (set_currentPage v s) j = el s j.
Proof. reflexivity. Qed.

Lemma el_set_currentFilters (v : option Filters) (s : State) (j : string) :
  el (set_currentFilters v s) j = el s j.
Proof. reflexivity. Qed.

Lemma el_set_ageGroupBoxes (v : list (string * bool)) (s : State) (j : string) :
  el (set_ageGroupBoxes v s) j = el s j.
Proof. reflexivity. Qed.

Lemma disabled_set_el_frame (id j : string) (f : Element -> Element) (s : State) :
  (forall e, disabled (f e) = disabled e) ->
  disabled (el (set_el id f s) j) = disabled (el s j).
Proof.
  intros H. unfold el, set_el, upd; simpl.
  destruct (String.eqb j id); [apply H | reflexivity].
Qed.

Lemma children_set_el_frame (id j : string) (f : Element -> Element) (s : State) :
  (forall e, children (f e) = children e) ->
  children (el (set_el id f s) j) = children (el s j).
Proof.
  intros H. unfold el, set_el, upd; simpl.
  destruct (String.eqb j id); [apply H | reflexivity].
Qed.

(** ** Opening the chat modal *)

(** C7. For every NCT id, [openChatModal] writes "Chat about <id>" into the
    header of the transcript, records the id as the current chat study, and
    replaces whatever the transcript held by the placeholder block. *)
Theorem C7_openChatModal_resets_transcript (nctId title : string) (s : State) :
  let s' := openChatModal nctId title s in
  children (el s' "chatStudyTitle") = [Text ("Chat about " ++ nctId)] /\
  currentChatStudy s' = Some nctId /\
  children (el s' "chatMessages") = [ModalPlaceholder title].
Proof. repeat split. Qed.

(** ** Clearing the filters *)

(** C8. [clearFilters] always puts the page cursor back to 1, forgets the
    stored filter record, empties the results container and disables the
    input field and the send button of the sidebar chat. *)
Theorem C8_clearFilters_resets (s : State) :
  let s' := clearFilters s in
  currentPage s' = 1 /\
  currentFilters s' = None /\
  children (el s' "resultsContainer") = [] /\
  disabled (el s' "sidebarChatInput") = true /\
  disabled (el s' "sidebarSendBtn") = true.
Proof. repeat split. Qed.

(** ** Sending nothing *)

(** C9. When the trimmed input is empty or no conversation is open
    ([currentChatStudy] null for the modal, [currentFilters] null for the
    sidebar), [sendMessage] and [sendSidebarMessage] return at once: no
    request is sent and the state, transcripts included, is the one they
    started from. *)
Theorem C9_empty_send_is_a_no_op (t1 t2 t3 : N) (s : State) :
  (JsString.trim (el_value (el s "chatInput")) = "" \/ currentChatStudy s = None ->
   sendMessage t1 t2 t3 s = Done s) /\
  (JsString.trim (el_value (el s "sidebarChatInput")) = "" \/ currentFilters s = None ->
   sendSidebarMessage t1 t2 t3 s = Done s).
Proof.
  split; intros [Hq | Hc].
  - unfold sendMessage. rewrite Hq.
    destruct (currentChatStudy s); reflexivity.
  - unfold sendMessage. now rewrite Hc.
  - unfold sendSidebarMessage. rewrite Hq.
    destruct (currentFilters s); reflexivity.
  - unfold sendSidebarMessage. now rewrite Hc.
Qed.

Lemma C9_empty_send_witness :
  sendMessage 5 5 9 (type_into "chatInput" "  " filled)
    = Done (type_into "chatInput" "  " filled) /\
  sendSidebarMessage 5 5 9 initial_state = Done initial_state.
Proof.
  split.
  - apply (C9_empty_send_is_a_no_op 5 5 9 (type_into "chatInput" "  " filled)).
    left. reflexivity.
  - apply (C9_empty_send_is_a_no_op 5 5 9 initial_state).
    right. reflexivity.
Defined.

(** ** The intervention field of the filter record *)

Section Trimming.

Import JsString.

Lemma trimStart_all_ws (s : string) : all_ws s = true -> trimStart s = "".
Proof.
  induction s as [| c r IH]; simpl; [reflexivity |].
  intros H. apply andb_true_iff in H as [Hc Hr].
  rewrite Hc. now apply IH.
Qed.

Lemma trim_all_ws (s : string) : all_ws s = true -> trim s = "".
Proof. intros H. unfold trim. now rewrite trimStart_all_ws. Qed.

(** After [trimStart] a string is empty or starts with a character that is
    not white space. *)
Lemma trimStart_head (s : string) :
  trimStart s = "" \/
  exists c r, trimStart s = String c r /\ is_ws c = false.
Proof.
  induction s as [| c r IH]; simpl; [now left |].
  destruct (is_ws c) eqn:Hc; [exact IH |].
  right. now exists c, r.
Qed.

Lemma trimStart_fixed (c : ascii) (r : string) :
  is_ws c = false -> trimStart (String c r) = String c r.
Proof. intros H. simpl. now rewrite H. Qed.

Lemma trimEnd_cons (c : ascii) (r : string) :
  is_ws c = false -> trimEnd (String c r) = String c (trimEnd r).
Proof. intros H. simpl. now rewrite H. Qed.

Lemma trimEnd_idem (s : string) : trimEnd (trimEnd s) = trimEnd s.
Proof.
  induction s as [| c r IH]; simpl; [reflexivity |].
  destruct (is_ws c && is_empty (trimEnd r))%bool eqn:E; [reflexivity |].
  simpl. rewrite IH, E. reflexivity.
Qed.

(** After [trimEnd] a string is empty or ends with a character that is not
    white space. *)
Lemma trimEnd_last (s : string) :
  trimEnd s = "" \/ exists c, last_char (trimEnd s) = Some c /\ is_ws c = false.
Proof.
  induction s as [| c r IH]; simpl; [now left |].
  destruct (is_ws c && is_empty (trimEnd r))%bool eqn:E; [now left |].
  right. destruct IH as [H0 | (c' & Hl & Hc')].
  - rewrite H0 in *. simpl in *. exists c. split; [reflexivity |].
    now rewrite andb_true_r in E.
  - exists c'. split; [| exact Hc'].
    simpl. destruct (trimEnd r); [discriminate | exact Hl].
Qed.

Lemma trim_idem (s : string) : trim (trim s) = trim s.
Proof.
  unfold trim.
  destruct (trimStart_head s) as [H0 | (c & r & Hs & Hc)].
  - rewrite H0. reflexivity.
  - rewrite Hs, (trimEnd_cons c r Hc), (trimStart_fixed c _ Hc).
    rewrite <- (trimEnd_cons c r Hc). apply trimEnd_idem.
Qed.

Lemma trim_first (s : string) :
  trim s = "" \/ exists c, first_char (trim s) = Some c /\ is_ws c = false.
Proof.
  unfold trim.
  destruct (trimStart_head s) as [H0 | (c & r & Hs & Hc)].
  - rewrite H0. now left.
  - rewrite Hs, (trimEnd_cons c r Hc). right. now exists c.
Qed.

Lemma trim_last (s : string) :
  trim s = "" \/ exists c, last_char (trim s) = Some c /\ is_ws c = false.
Proof. unfold trim. apply trimEnd_last. Qed.

Lemma truthy_nonempty (s : string) : truthy s = true <-> s <> "".
Proof.
  unfold truthy. destruct s; simpl; split; intros H;
    try discriminate; try reflexivity.
  now elim H.
Qed.

End Trimming.

(** *** What [getFilters] builds *)

Section Tokens.

Import JsString.

Lemma split_comma_pieces (s e : string) :
  In e (split_comma s) -> has_comma e = false.
Proof.
  revert e. induction s as [| c r IH]; intros e; simpl.
  - intros [<- | []]. reflexivity.
  - destruct (Ascii.eqb c ",") eqn:Ec.
    + intros [<- | H]; [reflexivity | now apply IH].
    + destruct (split_comma r) as [| h t] eqn:Es.
      * intros [<- | []]. simpl. now rewrite Ec.
      * intros [<- | H].
        -- simpl. rewrite Ec. apply IH. now left.
        -- apply IH. now right.
Qed.

Lemma trimStart_no_comma (s : string) :
  has_comma s = false -> has_comma (trimStart s) = false.
Proof.
  induction s as [| c r IH]; simpl; [trivial |].
  intros H. apply orb_false_iff in H as (Hc & Hr).
  destruct (is_ws c); [now apply IH |]. simpl. now rewrite Hc, Hr.
Qed.

Lemma trimEnd_no_comma (s : string) :
  has_comma s = false -> has_comma (trimEnd s) = false.
Proof.
  induction s as [| c r IH]; simpl; [trivial |].
  intros H. apply orb_false_iff in H as (Hc & Hr).
  destruct (is_ws c && is_empty (trimEnd r))%bool; [reflexivity |].
  simpl. now rewrite Hc, IH.
Qed.

Lemma split_comma_free (e : string) :
  has_comma e = false -> split_comma e = [e].
Proof.
  induction e as [| c r IH]; simpl; [reflexivity |].
  intros H. apply orb_false_iff in H as (Hc & Hr).
  now rewrite Hc, IH.
Qed.

Lemma split_comma_app (e r : string) :
  has_comma e = false ->
  split_comma (e ++ String "," r) = e :: split_comma r.
Proof.
  induction e as [| c e IH]; simpl; [reflexivity |].
  intros H. apply orb_false_iff in H as (Hc & He).
  now rewrite Hc, IH.
Qed.

Lemma trimEnd_fixed (s : string) (c : ascii) :
  last_char s = Some c -> is_ws c = false -> trimEnd s = s.
Proof.
  induction s as [| a r IH]; simpl; [discriminate |].
  destruct r as [| b r'].
  - intros [= ->] Hc. simpl. now rewrite Hc.
  - intros Hl Hc. rewrite (IH Hl Hc). simpl. now rewrite andb_false_r.
Qed.

Lemma trim_fixed (s : string) (c d : ascii) :
  first_char s = Some c -> is_ws c = false ->
  last_char s = Some d -> is_ws d = false ->
  trim s = s.
Proof.
  intros Hf Hc Hl Hd. unfold trim.
  destruct s as [| a r]; [discriminate |].
  simpl in Hf. injection Hf as ->.
  rewrite (trimStart_fixed c r Hc). now apply (trimEnd_fixed _ d).
Qed.

Lemma clean_ends (e : string) :
  clean_token e ->
  (exists c, first_char e = Some c /\ is_ws c = false) /\
  (exists d, last_char e = Some d /\ is_ws d = false).
Proof.
  intros (Hne & Ht & _). split.
  - destruct (trim_first e) as [H0 | H]; rewrite Ht in *; [contradiction | exact H].
  - destruct (trim_last e) as [H0 | H]; rewrite Ht in *; [contradiction | exact H].
Qed.

Lemma first_char_app (a b : string) :
  a <> "" -> first_char (a ++ b) = first_char a.
Proof. destruct a; [contradiction | reflexivity]. Qed.

Lemma last_char_app (a b : string) :
  b <> "" -> last_char (a ++ b) = last_char b.
Proof.
  intros Hb. induction a as [| c a IH]; simpl; [reflexivity |].
  rewrite IH. destruct (a ++ b)%string eqn:E; [| reflexivity].
  destruct a; simpl in E; [contradiction | discriminate].
Qed.

Lemma concat_cons (e : string) (l : list string) :
  l <> [] ->
  String.concat "," (e :: l) = (e ++ String "," (String.concat "," l))%string.
Proof. destruct l; [contradiction | reflexivity]. Qed.

Lemma concat_clean (l : list string) :
  l <> [] -> (forall e, In e l -> clean_token e) ->
  String.concat "," l <> "" /\
  (exists c, first_char (String.concat "," l) = Some c /\ is_ws c = false) /\
  (exists d, last_char (String.concat "," l) = Some d /\ is_ws d = false) /\
  split_comma (String.concat "," l) = l.
Proof.
  induction l as [| e l IH]; [contradiction |].
  intros _ Hall.
  assert (He : clean_token e) by (apply Hall; now left).
  destruct (clean_ends e He) as (Hf & Hl).
  destruct He as (Hne & Ht & Hc).
  destruct l as [| e' l'].
  - simpl. repeat split; try assumption. now apply split_comma_free.
  - rewrite concat_cons by discriminate.
    destruct IH as (Hne' & _ & Hl' & Hs');
      [discriminate | intros x Hx; apply Hall; now right |].
    split; [destruct e; [contradiction | discriminate] |].
    split; [now rewrite first_char_app |].
    split.
    + rewrite last_char_app by discriminate.
      destruct Hl' as (d & Hd & Hw). exists d. split; [| exact Hw].
      remember (String.concat "," (e' :: l')) as rest eqn:E.
      destruct rest; [contradiction | exact Hd].
    + rewrite split_comma_app by exact Hc. now rewrite Hs'.
Qed.

Lemma clean_tokens_fixed (l : list string) :
  (forall e, In e l -> clean_token e) ->
  filter truthy (map trim l) = l.
Proof.
  induction l as [| e l IH]; intros Hall; simpl; [reflexivity |].
  destruct (Hall e (or_introl eq_refl)) as (Hne & Ht & _).
  rewrite Ht, (proj2 (truthy_nonempty e) Hne), IH; [reflexivity |].
  intros x Hx. apply Hall. now right.
Qed.

Lemma tokens_round_trip (l : list string) :
  (forall e, In e l -> clean_token e) ->
  intervention_tokens (String.concat "," l) = l.
Proof.
  intros Hall. unfold intervention_tokens.
  destruct l as [| e l']; [reflexivity |].
  destruct (concat_clean (e :: l')) as (_ & (c & Hf & Hc) & (d & Hl & Hd) & Hs);
    [discriminate | exact Hall |].
  rewrite (trim_fixed _ c d Hf Hc Hl Hd), Hs.
  now apply clean_tokens_fixed.
Qed.

Lemma tokens_are_clean (text e : string) :
  In e (intervention_tokens text) -> clean_token e.
Proof.
  unfold intervention_tokens. intros H.
  apply filter_In in H as (H & Ht).
  apply in_map_iff in H as (x & <- & Hx).
  split; [now apply truthy_nonempty |]. split; [apply trim_idem |].
  unfold trim. apply trimEnd_no_comma, trimStart_no_comma.
  now apply (split_comma_pieces (trimEnd (trimStart text))).
Qed.

End Tokens.

Lemma intervention_of_the_field (s : State) :
  f_intervention (getFilters s)
  = intervention_tokens (el_value (el s "intervention")) /\
  forall e, In e (intervention_tokens (el_value (el s "intervention"))) ->
            clean_token e.
Proof.
  split; [| intros e; apply tokens_are_clean].
  unfold getFilters, intervention_tokens. cbn [f_intervention].
  destruct (JsString.trim (el_value (el s "intervention"))); reflexivity.
Qed.

(** *** The description of the field *)

Section Description.

Import JsString.

Lemma all_ws_app (a b : string) :
  all_ws a = true -> all_ws b = true -> all_ws (a ++ b) = true.
Proof.
  induction a as [| c a IH]; simpl; [trivial |].
  intros H Hb. apply andb_true_iff in H as (Hc & Ha).
  now rewrite Hc, IH.
Qed.

Lemma trimStart_parts (p : string) :
  exists a, p = (a ++ trimStart p)%string /\ all_ws a = true.
Proof.
  induction p as [| c r (a & E & Ha)]; [now exists "" |].
  simpl. destruct (is_ws c) eqn:Hc.
  - exists (String c a). simpl. now rewrite Hc, Ha, <- E.
  - now exists "".
Qed.

Lemma trimEnd_parts (p : string) :
  exists b, p = (trimEnd p ++ b)%string /\ all_ws b = true.
Proof.
  induction p as [| c r (b & E & Hb)]; [now exists "" |].
  simpl. destruct (is_ws c && is_empty (trimEnd r))%bool eqn:H.
  - apply andb_true_iff in H as (Hc & He).
    destruct (trimEnd r); [| discriminate]. simpl in E.
    exists (String c r). simpl. rewrite Hc, E. now split.
  - exists b. simpl. now rewrite <- E.
Qed.

Lemma trim_not_padded (p : string) : padded (trim p) = false.
Proof.
  unfold padded.
  destruct (trim_first p) as [H0 | (c & Hf & Hc)].
  - rewrite H0. reflexivity.
  - destruct (trim_last p) as [H0 | (d & Hl & Hd)].
    + rewrite H0. reflexivity.
    + now rewrite Hf, Hl, Hc, Hd.
Qed.

(** [trim] gives the trimmed string of the description. *)
Lemma trim_trimmed (p : string) : trimmed p (trim p).
Proof.
  destruct (trimStart_parts p) as (a & Ea & Ha).
  destruct (trimEnd_parts (trimStart p)) as (b & Eb & Hb).
  exists a, b. unfold trim.
  split; [now rewrite <- Eb | ].
  split; [exact Ha |]. split; [exact Hb |]. apply trim_not_padded.
Qed.

Lemma trimStart_app_ws (a r : string) :
  all_ws a = true -> trimStart (a ++ r) = trimStart r.
Proof.
  induction a as [| c a IH]; simpl; [trivial |].
  intros H. apply andb_true_iff in H as (Hc & Ha). now rewrite Hc, IH.
Qed.

Lemma trimEnd_all_ws (b : string) : all_ws b = true -> trimEnd b = "".
Proof.
  induction b as [| c b IH]; simpl; [trivial |].
  intros H. apply andb_true_iff in H as (Hc & Hb). now rewrite IH, Hc.
Qed.

Lemma trimEnd_app_ws (t b : string) :
  all_ws b = true -> trimEnd (t ++ b) = trimEnd t.
Proof.
  intros Hb. induction t as [| c t IH]; simpl.
  - now apply trimEnd_all_ws.
  - now rewrite IH.
Qed.

Lemma not_padded_ends (t : string) :
  padded t = false -> t <> "" ->
  (exists c, first_char t = Some c /\ is_ws c = false) /\
  (exists d, last_char t = Some d /\ is_ws d = false).
Proof.
  unfold padded. intros H Hne. apply orb_false_iff in H as (Hf & Hl).
  destruct t as [| c r]; [contradiction |]. split.
  - exists c. now split.
  - destruct (last_char (String c r)) as [d |] eqn:E.
    + exists d. now split.
    + exfalso. clear - E. revert c E.
      induction r as [| c' r IH]; intros c E; simpl in E; [discriminate |].
      now apply (IH c').
Qed.

(** A string has one trimmed string only. *)
Lemma trimmed_trim (p t : string) : trimmed p t -> t = trim p.
Proof.
  intros (a & b & -> & Ha & Hb & Hp). unfold trim.
  rewrite trimStart_app_ws by exact Ha.
  destruct t as [| c r] eqn:Et.
  - simpl. rewrite (trimStart_all_ws b Hb). reflexivity.
  - rewrite <- Et in *.
    destruct (not_padded_ends t Hp) as ((c' & Hf & Hc) & (d & Hl & Hd));
      [rewrite Et; discriminate |].
    rewrite Et in Hf. simpl in Hf. injection Hf as <-.
    assert (E : trimStart (t ++ b) = (t ++ b)%string).
    { rewrite Et. simpl. now rewrite Hc. }
    rewrite E, trimEnd_app_ws by exact Hb.
    symmetry. now apply (trimEnd_fixed t d).
Qed.

Lemma split_comma_not_nil (s : string) : split_comma s <> [].
Proof.
  destruct s as [| c r]; simpl; [discriminate |].
  destruct (Ascii.eqb c ","); [discriminate |].
  destruct (split_comma r); discriminate.
Qed.

Lemma concat_split_comma (s : string) : String.concat "," (split_comma s) = s.
Proof.
  induction s as [| c r IH]; [reflexivity |].
  simpl. destruct (Ascii.eqb_spec c ",") as [-> | Hc].
  - rewrite concat_cons by apply split_comma_not_nil. now rewrite IH.
  - pose proof (split_comma_not_nil r) as Hn.
    destruct (split_comma r) as [| h t]; [contradiction |].
    destruct t as [| h' t'].
    + simpl in *. now rewrite IH.
    + rewrite concat_cons by discriminate.
      rewrite concat_cons in IH by discriminate.
      cbn [append]. now rewrite IH.
Qed.

(** [split(',')] gives the pieces of the description. *)
Lemma split_comma_split (text : string) :
  split_on_commas text (split_comma text).
Proof.
  split; [apply split_comma_not_nil |].
  split; [intros p; apply split_comma_pieces | apply concat_split_comma].
Qed.

(** A string is split on commas in one way only. *)
Lemma split_on_commas_split_comma (text : string) (pieces : list string) :
  split_on_commas text pieces -> pieces = split_comma text.
Proof.
  intros (Hne & Hfree & <-).
  induction pieces as [| e l IH]; [contradiction |].
  destruct l as [| e' l'].
  - simpl. symmetry. apply split_comma_free. apply Hfree. now left.
  - rewrite concat_cons by discriminate.
    rewrite split_comma_app by (apply Hfree; now left).
    f_equal. apply IH; [discriminate |].
    intros p Hp. apply Hfree. now right.
Qed.

Lemma trimmed_map_trim (pieces tokens : list string) :
  Forall2 trimmed pieces tokens <-> tokens = map trim pieces.
Proof.
  split.
  - induction 1 as [| p t ps ts Hpt _ IH]; [reflexivity |].
    simpl. now rewrite <- (trimmed_trim p t Hpt), IH.
  - intros ->. induction pieces as [| p ps IH]; constructor;
      [apply trim_trimmed | exact IH].
Qed.

Lemma not_empty_truthy (l : list string) :
  filter not_empty l = filter truthy l.
Proof.
  apply filter_ext. intros t. unfold not_empty, truthy.
  destruct t; reflexivity.
Qed.

(** The description determines the list, and it is the list that
    [getFilters] builds. *)
Lemma intervention_spec_tokens (text : string) (result : list string) :
  intervention_spec text result <-> result = intervention_tokens text.
Proof.
  unfold intervention_spec, intervention_tokens. split.
  - intros (tt & pieces & tokens & Ht & Hs & Hf & ->).
    apply trimmed_trim in Ht. subst tt.
    apply split_on_commas_split_comma in Hs. subst pieces.
    apply trimmed_map_trim in Hf. subst tokens.
    apply not_empty_truthy.
  - intros ->.
    exists (trim text), (split_comma (trim text)),
      (map trim (split_comma (trim text))).
    split; [apply trim_trimmed |].
    split; [apply split_comma_split |].
    split; [now apply trimmed_map_trim |].
    symmetry. apply not_empty_truthy.
Qed.

End Description.

(** C10. For every text of the intervention input, the list that
    [getFilters] builds is the one of the description: the trimmed text
    split on commas, each token trimmed, the empty ones dropped, and no
    other list answers that description; a text of white space only yields
    the empty list; and no entry of the result is empty or has white space
    at either end. *)
Theorem C10_intervention_tokens (s : State) :
  let text := el_value (el s "intervention") in
  let result := f_intervention (getFilters s) in
  intervention_spec text result /\
  (forall r, intervention_spec text r -> r = result) /\
  (JsString.all_ws text = true -> result = []) /\
  (forall e, In e result -> e <> "" /\ JsString.trim e = e /\ padded e = false).
Proof.
  cbv zeta.
  destruct (intervention_of_the_field s) as (Heq & _). rewrite Heq.
  set (text := el_value (el s "intervention")).
  split; [now apply intervention_spec_tokens |].
  split; [intros r Hr; now apply intervention_spec_tokens |].
  split.
  - intros Hws. unfold intervention_tokens.
    now rewrite (trim_all_ws text Hws).
  - intros e He. unfold intervention_tokens in He.
    apply filter_In in He as [He Ht].
    apply in_map_iff in He as (x & Hx & _). subst e.
    split; [now apply truthy_nonempty | split; [apply trim_idem |]].
    apply trim_not_padded.
Qed.

(** The field of the filled page holds two tokens, an empty one between
    them and one after them. *)
Lemma C10_intervention_witness :
  f_intervention (getFilters (type_into "intervention" "   " filled)) = [] /\
  intervention_spec " metformin, , insulin glargine ,"
    ["metformin"; "insulin glargine"] /\
  (forall r, intervention_spec " metformin, , insulin glargine ," r ->
             r = ["metformin"; "insulin glargine"]) /\
  (forall e, In e ["metformin"; "insulin glargine"] ->
             e <> "" /\ JsString.trim e = e /\ padded e = false).
Proof.
  assert (Et : el_value (el filled "intervention")
               = " metformin, , insulin glargine ,") by (vm_compute; reflexivity).
  assert (Er : f_intervention (getFilters filled)
               = ["metformin"; "insulin glargine"]) by (vm_compute; reflexivity).
  split.
  - apply (C10_intervention_tokens (type_into "intervention" "   " filled)).
    vm_compute. reflexivity.
  - pose proof (C10_intervention_tokens filled) as H. cbv zeta in H.
    rewrite Et, Er in H. destruct H as (H1 & H2 & _ & H4).
    split; [exact H1 |]. split; [exact H2 | exact H4].
Defined.

(** ** The pagination bar *)

Lemma add_cards_whole (l : list Study) (s : State) :
  add_cards (map Whole l) s
  = Returned
      (fold_left
         (fun s study =>
            set_el "resultsContainer"
              (fun e => with_children (children e ++ [StudyCard study]) e) s)
         l s).
Proof.
  revert s. induction l as [| st l IH]; intros s; [reflexivity |].
  cbn [map add_cards fold_left]. apply IH.
Qed.

(** On a success payload [displayResults] returns. *)
Lemma displayResults_payload (data : SearchData) (s : State) :
  displayResults (payload data) s = Returned (rendered (d_results data) s).
Proof.
  unfold displayResults, rendered. cbn [payload j_results].
  destruct (d_results data) as [| st l]; [reflexivity |].
  apply (add_cards_whole (st :: l)).
Qed.

Lemma add_cards_frame (l : list Study) (s : State) :
  let s' :=
    fold_left
      (fun s study =>
         set_el "resultsContainer"
           (fun e => with_children (children e ++ [StudyCard study]) e) s) l s in
  currentPage s' = currentPage s /\ totalPages s' = totalPages s /\
  forall j, j <> "resultsContainer" -> page s' j = page s j.
Proof.
  revert s. induction l as [| st l IH]; intros s; simpl.
  - repeat split.
  - destruct (IH (set_el "resultsContainer"
                    (fun e => with_children (children e ++ [StudyCard st]) e) s))
      as (Hc & Ht & Hp).
    repeat split; [exact Hc | exact Ht |].
    intros j Hj. rewrite (Hp j Hj). now apply el_set_el_other.
Qed.

Lemma displayResults_frame (results : list Study) (s : State) :
  currentPage (rendered results s) = currentPage s /\
  totalPages (rendered results s) = totalPages s /\
  forall j, j <> "resultsContainer" ->
            page (rendered results s) j = page s j.
Proof.
  unfold rendered. destruct results as [| st l].
  - repeat split. intros j Hj.
    rewrite (el_set_el_other "resultsContainer" j) by exact Hj.
    now apply el_set_el_other.
  - destruct (add_cards_frame (st :: l)
                (set_el "resultsContainer" (with_children (innerHTML "")) s))
      as (Hc & Ht & Hp).
    repeat split; [exact Hc | exact Ht |].
    intros j Hj. rewrite (Hp j Hj). now apply el_set_el_other.
Qed.

Lemma displayPagination_bar (data : SearchJson) (s : State) (tp : Z) :
  totalPages s = Some tp ->
  children (el (displayPagination data s) "pagination")
  = pagination_bar (currentPage s) tp.
Proof.
  intros H. unfold displayPagination, pagination_bar; simpl.
  rewrite H; simpl. destruct (tp <=? 1); reflexivity.
Qed.

Lemma displayPagination_cursor (data : SearchJson) (s : State) :
  currentPage (displayPagination data s) = currentPage s /\
  totalPages (displayPagination data s) = totalPages s.
Proof.
  unfold displayPagination; simpl.
  destruct (at_most (totalPages s) 1); split; reflexivity.
Qed.

(** What the script does with a success payload, step by step. *)
Lemma search_success (data : SearchData) (s : State) :
  searchStudies_resume (Response true (Json (payload data))) s
  = let s := set_totalPages (Some (d_total_pages data)) s in
    let s := set_totalResults (Some (d_total data)) s in
    let s := set_el "totalCount"
               (with_children [count_node (d_searchType data) (d_total data)]) s in
    let s := rendered (d_results data) s in
    let s := displayPagination (payload data) s in
    let s := set_el "sidebarChatInput" (with_disabled false) s in
    let s := set_el "sidebarSendBtn" (with_disabled false) s in
    if (isAdvancedMode s && above (totalResults s) 50)%bool
    then set_el "advancedWarning"
           (fun e => with_classList (class_add "show" (classList e)) e) s
    else set_el "advancedWarning"
           (fun e => with_classList (class_remove "show" (classList e)) e) s.
Proof.
  unfold searchStudies_resume.
  cbn [payload j_total j_total_pages j_searchType].
  now rewrite displayResults_payload.
Qed.

(** After a success payload the bar is the one for the cursor the page has
    then and the page count of the reply. *)
Lemma search_success_bar (data : SearchData) (s : State) :
  let s' := searchStudies_resume (Response true (Json (payload data))) s in
  children (el s' "pagination")
    = pagination_bar (currentPage s) (d_total_pages data) /\
  currentPage s' = currentPage s /\ totalPages s' = Some (d_total_pages data).
Proof.
  cbv zeta. rewrite search_success. cbv zeta.
  set (s1 := set_el "totalCount" _ _).
  assert (H1 : currentPage s1 = currentPage s /\
               totalPages s1 = Some (d_total_pages data)) by (split; reflexivity).
  destruct H1 as (Hc1 & Ht1).
  destruct (displayResults_frame (d_results data) s1) as (Hc2 & Ht2 & _).
  set (s2 := rendered (d_results data) s1) in *.
  destruct (displayPagination_cursor (payload data) s2) as (Hc3 & Ht3).
  assert (Hbar := displayPagination_bar (payload data) s2 (d_total_pages data)).
  rewrite Ht2, Ht1 in Hbar. specialize (Hbar eq_refl).
  set (s3 := displayPagination (payload data) s2) in *.
  rewrite Hc2, Hc1 in Hbar.
  match goal with
  | |- context [if ?c then _ else _] => destruct c
  end; simpl; (split; [exact Hbar | split; congruence]).
Qed.

Lemma add_cards_children (l : list Study) (s : State) :
  children
    (el (fold_left
           (fun s study =>
              set_el "resultsContainer"
                (fun e => with_children (children e ++ [StudyCard study]) e) s)
           l s) "resultsContainer")
  = children (el s "resultsContainer") ++ map StudyCard l.
Proof.
  revert s. induction l as [| st l IH]; intros s; simpl.
  - now rewrite app_nil_r.
  - rewrite IH, el_set_el_same. cbn [children with_children].
    now rewrite <- app_assoc.
Qed.

Lemma displayResults_rows (results : list Study) (s : State) :
  children (el (rendered results s) "resultsContainer") = result_rows results.
Proof.
  unfold rendered, result_rows.
  destruct results as [| st l].
  - now rewrite el_set_el_same.
  - rewrite add_cards_children, el_set_el_same. reflexivity.
Qed.

Lemma search_success_rows (data : SearchData) (s : State) :
  children (el (searchStudies_resume (Response true (Json (payload data))) s)
              "resultsContainer")
  = result_rows (d_results data).
Proof.
  rewrite search_success. cbv zeta.
  match goal with
  | |- context [if ?c then _ else _] => destruct c
  end;
    rewrite !el_set_el_other by discriminate;
    unfold displayPagination;
    match goal with
    | |- context [if ?c then _ else _] => destruct c
    end;
    rewrite !el_set_el_other by discriminate;
    apply displayResults_rows.
Qed.

Lemma add_cards_only_page (l : list Study) (s : State) :
  let s' :=
    fold_left
      (fun s study =>
         set_el "resultsContainer"
           (fun e => with_children (children e ++ [StudyCard study]) e) s) l s in
  s' = set_page (page s') s.
Proof.
  revert s. induction l as [| st l IH]; intros s; simpl.
  - now destruct s.
  - rewrite IH at 1. reflexivity.
Qed.

Lemma displayResults_only_page (results : list Study) (s : State) :
  rendered results s = set_page (page (rendered results s)) s.
Proof.
  unfold rendered. destruct results as [| st l].
  - reflexivity.
  - rewrite add_cards_only_page at 1. reflexivity.
Qed.

Lemma displayPagination_only_page (data : SearchJson) (s : State) :
  displayPagination data s = set_page (page (displayPagination data s)) s.
Proof. unfold displayPagination. destruct (at_most _ 1); reflexivity. Qed.

(** What a success payload leaves of the variables of the script. *)
Lemma search_success_variables (data : SearchData) (s : State) :
  let s' := searchStudies_resume (Response true (Json (payload data))) s in
  currentFilters s' = currentFilters s /\
  isAdvancedMode s' = isAdvancedMode s /\
  totalResults s' = Some (d_total data) /\
  currentChatStudy s' = currentChatStudy s /\
  alerts s' = alerts s.
Proof.
  cbv zeta. rewrite search_success. cbv zeta.
  set (s1 := set_el "totalCount" _ _).
  assert (H1 : currentFilters s1 = currentFilters s /\
               isAdvancedMode s1 = isAdvancedMode s /\
               totalResults s1 = Some (d_total data) /\
               currentChatStudy s1 = currentChatStudy s /\
               alerts s1 = alerts s) by (repeat split).
  pose proof (displayResults_only_page (d_results data) s1) as H2.
  set (s2 := rendered (d_results data) s1) in *.
  pose proof (displayPagination_only_page (payload data) s2) as H3.
  set (s3 := displayPagination (payload data) s2) in *.
  assert (H : currentFilters s3 = currentFilters s /\
              isAdvancedMode s3 = isAdvancedMode s /\
              totalResults s3 = Some (d_total data) /\
              currentChatStudy s3 = currentChatStudy s /\
              alerts s3 = alerts s).
  { rewrite H3, H2. exact H1. }
  match goal with
  | |- context [if ?c then _ else _] => destruct c
  end; exact H.
Qed.

Lemma search_success_enables (data : SearchData) (s : State) :
  let s' := searchStudies_resume (Response true (Json (payload data))) s in
  disabled (el s' "sidebarChatInput") = false /\
  disabled (el s' "sidebarSendBtn") = false.
Proof.
  cbv zeta. rewrite search_success. cbv zeta.
  match goal with
  | |- context [if ?c then _ else _] => destruct c
  end;
    rewrite !(el_set_el_other "advancedWarning") by discriminate;
    (split; [rewrite el_set_el_other by discriminate |]);
    now rewrite el_set_el_same.
Qed.

(** C4. After a successful /api/search reply with [total_pages = 3],
    whichever of the pages 1, 2, 3 is the current one, the pagination bar
    holds exactly three numbered buttons, for the pages 1, 2 and 3, and the
    button of the current page, and no other button of the bar, has the
    class [active]. *)
Theorem C4_three_pages_three_buttons (data : SearchData) (s : State) :
  d_total_pages data = 3 ->
  1 <= currentPage s <= 3 ->
  let s' := searchStudies_resume (Response true (Json (payload data))) s in
  let bar := children (el s' "pagination") in
  numbered bar = map (numbered_button (currentPage s')) [1; 2; 3] /\
  List.length (numbered bar) = 3%nat /\
  forall b, In (PagerButton b) bar ->
            (b_className b = "active" <-> b_onclick b = GoPage (currentPage s')).
Proof.
  intros Htp Hcp. cbv zeta.
  destruct (search_success_bar data s) as (Hbar & Hc & _).
  rewrite Hbar, Hc, Htp.
  assert (Hcase : currentPage s = 1 \/ currentPage s = 2 \/ currentPage s = 3) by lia.
  destruct Hcase as [E | [E | E]]; rewrite E;
    (split; [reflexivity | split; [reflexivity |]]);
    intros b Hb; simpl in Hb;
    repeat (destruct Hb as [Hb | Hb];
            [injection Hb as <-; simpl; split; intros H; (discriminate || reflexivity) |]);
    contradiction.
Qed.

Lemma C4_three_pages_witness :
  let s' := searchStudies_resume (Response true (Json (payload three_pages)))
              (set_currentPage 2 filled) in
  let bar := children (el s' "pagination") in
  numbered bar = map (numbered_button (currentPage s')) [1; 2; 3] /\
  List.length (numbered bar) = 3%nat /\
  forall b, In (PagerButton b) bar ->
            (b_className b = "active" <-> b_onclick b = GoPage (currentPage s')).
Proof.
  apply (C4_three_pages_three_buttons three_pages (set_currentPage 2 filled)).
  - reflexivity.
  - simpl. lia.
Defined.

(** ** The cursor under navigation *)



(** Whether it returns or throws, [displayResults] writes to the results
    container and to nothing else. *)
Lemma add_cards_run (l : list StudyJson) (s : State) :
  let s' := state_of (add_cards l s) in
  s' = set_page (page s') s /\
  forall j, j <> "resultsContainer" -> page s' j = page s j.
Proof.
  revert s. induction l as [| [st | m] l IH]; intros s; cbn [add_cards state_of].
  - split; [now destruct s | reflexivity].
  - destruct (IH (set_el "resultsContainer"
                    (fun e => with_children (children e ++ [StudyCard st]) e) s))
      as (H1 & H2).
    split; [rewrite H1 at 1; reflexivity |].
    intros j Hj. rewrite (H2 j Hj). now apply el_set_el_other.
  - split; [now destruct s | reflexivity].
Qed.

Lemma displayResults_run (data : SearchJson) (s : State) :
  let s' := state_of (displayResults data s) in
  s' = set_page (page s') s /\
  forall j, j <> "resultsContainer" -> page s' j = page s j.
Proof.
  cbv zeta. unfold displayResults.
  set (s0 := set_el "resultsContainer" (with_children (innerHTML "")) s).
  assert (H0 : forall j, j <> "resultsContainer" -> page s0 j = page s j)
    by (intros j Hj; now apply el_set_el_other).
  destruct (j_results data) as [[| st l] |]; cbn [state_of].
  - split; [reflexivity |].
    intros j Hj. rewrite <- (H0 j Hj). now apply el_set_el_other.
  - destruct (add_cards_run (st :: l) s0) as (H1 & H2).
    split; [rewrite H1 at 1; reflexivity |].
    intros j Hj. now rewrite (H2 j Hj), (H0 j Hj).
  - split; [reflexivity | exact H0].
Qed.

Lemma displayPagination_page (data : SearchJson) (s : State) (j : string) :
  j <> "pagination" -> page (displayPagination data s) j = page s j.
Proof.
  intros Hj. unfold displayPagination.
  destruct (at_most _ 1);
    now rewrite ?(el_set_el_other "pagination" j) by exact Hj.
Qed.

(** Whatever the reply, the code after it leaves the cursor, the stored
    filter record, the mode and the chat study as they are, and writes to no
    element but its six targets. *)
Lemma searchStudies_resume_frame (reply : Fetched SearchJson) (s : State) :
  let s' := searchStudies_resume reply s in
  currentPage s' = currentPage s /\
  currentFilters s' = currentFilters s /\
  isAdvancedMode s' = isAdvancedMode s /\
  currentChatStudy s' = currentChatStudy s /\
  forall j, ~ In j search_targets -> page s' j = page s j.
Proof.
  cbv zeta.
  destruct reply as [msg | [|] [msg | data]]; try (repeat split; reflexivity).
  unfold searchStudies_resume.
  destruct (j_total data) as [total |]; [| repeat split; reflexivity].
  set (s1 := set_el "totalCount" _ _).
  destruct (displayResults_run data s1) as (H1 & H2).
  destruct (displayResults data s1) as [s2 | msg s2]; cbn [state_of] in H1, H2.
  - pose proof (displayPagination_cursor data s2) as (Hc & _).
    assert (H3 : displayPagination data s2
                 = set_page (page (displayPagination data s2)) s2).
    { unfold displayPagination. destruct (at_most _ 1); reflexivity. }
    assert (Hp : forall j, ~ In j search_targets ->
                           page (displayPagination data s2) j = page s j).
    { intros j Hj. rewrite displayPagination_page, H2.
      - unfold s1.
        now rewrite (el_set_el_other "totalCount" j)
          by (intros ->; apply Hj; simpl; tauto).
      - intros ->. apply Hj. simpl. tauto.
      - intros ->. apply Hj. simpl. tauto. }
    remember (displayPagination data s2) as s3 eqn:E3.
    assert (Hv : currentPage s3 = currentPage s /\
                 currentFilters s3 = currentFilters s /\
                 isAdvancedMode s3 = isAdvancedMode s /\
                 currentChatStudy s3 = currentChatStudy s)
      by (rewrite H3, H1; repeat split).
    destruct Hv as (V1 & V2 & V3 & V4).
    match goal with
    | |- context [if ?c then _ else _] => destruct c
    end;
      (repeat split; [exact V1 | exact V2 | exact V3 | exact V4 |]);
      intros j Hj;
      (rewrite !(el_set_el_other _ j)
         by (intros ->; apply Hj; simpl; tauto));
      exact (Hp j Hj).
  - rewrite H1. repeat split. intros j Hj.
    change (page s2 j = page s j). rewrite H2.
    + unfold s1.
      now rewrite (el_set_el_other "totalCount" j)
        by (intros ->; apply Hj; simpl; tauto).
    + intros ->. apply Hj. simpl. tauto.
Qed.

Lemma searchStudies_resume_cursor (reply : Fetched SearchJson) (s : State) :
  currentPage (searchStudies_resume reply s) = currentPage s.
Proof. apply searchStudies_resume_frame. Qed.

Lemma search_success_count (data : SearchData) (s : State) :
  children (el (searchStudies_resume (Response true (Json (payload data))) s)
              "totalCount")
  = [count_node (d_searchType data) (d_total data)].
Proof.
  rewrite search_success. cbv zeta.
  match goal with
  | |- context [if ?c then _ else _] => destruct c
  end;
    rewrite !el_set_el_other by discriminate;
    change (el ?x "totalCount") with (page x "totalCount");
    rewrite displayPagination_page by discriminate;
    (destruct (displayResults_frame (d_results data)
                 (set_el "totalCount"
                    (with_children
                       [count_node (d_searchType data) (d_total data)])
                    (set_totalResults (Some (d_total data))
                       (set_totalPages (Some (d_total_pages data)) s))))
       as (_ & _ & Hp));
    rewrite Hp by discriminate;
    change (page ?x "totalCount") with (el x "totalCount");
    now rewrite el_set_el_same.
Qed.

(** A body without [total]: the two variables are assigned, then the
    TypeError of [data.total.toLocaleString()] is alerted; no element is
    written to. *)
Lemma search_without_total (data : SearchJson) (s : State) :
  j_total data = None ->
  let s' := searchStudies_resume (Response true (Json data)) s in
  alerts s' = alerts s ++ ["Error: " ++ cannot_read "toLocaleString"]%string /\
  page s' = page s /\
  totalPages s' = j_total_pages data /\ totalResults s' = None /\
  currentPage s' = currentPage s.
Proof.
  intros H. cbv zeta. unfold searchStudies_resume. rewrite H.
  repeat split.
Qed.

Lemma click_cursor (b : PageButton) (s : State) (reply : Fetched SearchJson) :
  b_disabled b = false ->
  currentPage (settle (click b s) reply)
  = click_target (b_onclick b) (currentPage s).
Proof.
  intros H. unfold click. rewrite H. unfold searchStudies, settle.
  now rewrite searchStudies_resume_cursor.
Qed.


(** C6, at the input where the script leaves the bounds.  A search shows
    page 3 of 5; the filters are cleared, which puts the cursor back to 1 but
    leaves the bar of page 3 on the page, with its Previous button enabled;
    a click on that button asks the backend for page 0 and leaves the cursor
    at 0, whatever the reply. *)
Theorem C6_stale_previous_button_reaches_page_zero :
  (currentPage page_three_shown = 3 /\ totalPages page_three_shown = Some 5) /\
  (currentPage page_three_cleared = 1 /\
   totalPages page_three_cleared = Some 5) /\
  hd_error (children (el page_three_cleared "pagination"))
    = Some (PagerButton previous_enabled) /\
  option_map (fun w => (currentPage (fst w), requested_page (snd w)))
    (awaiting (click previous_enabled page_three_cleared)) = Some (0, Some 0) /\
  forall reply,
    currentPage (settle (click previous_enabled page_three_cleared) reply) = 0.
Proof.
  split; [split; vm_compute; reflexivity |].
  split; [split; vm_compute; reflexivity |].
  split; [vm_compute; reflexivity |].
  split; [vm_compute; reflexivity |].
  intros reply. rewrite click_cursor by reflexivity.
  vm_compute; reflexivity.
Qed.

(** ** Trigger controls while a request is out *)

Lemma agent_resume_enables (btn resultId : string) (reply : Fetched AgentData)
  (s : State) :
  disabled (el (agent_resume btn resultId reply s) btn) = false.
Proof. unfold agent_resume. now rewrite el_set_el_same. Qed.

Lemma sendSidebarMessage_resume_enables (now : N) (loadingId : string)
  (reply : Fetched ChatData) (s : State) :
  disabled (el (sendSidebarMessage_resume now loadingId reply s) "sidebarSendBtn")
    = false /\
  disabled (el (sendSidebarMessage_resume now loadingId reply s) "sidebarChatInput")
    = false.
Proof.
  unfold sendSidebarMessage_resume. split.
  - rewrite el_set_el_other by discriminate. now rewrite el_set_el_same.
  - now rewrite el_set_el_same.
Qed.

Lemma not_issued_by_done {D : Type} (s : State) (P : Prop) :
  waits (@Done D s) = true -> P.
Proof. discriminate. Qed.

Lemma waits_await {D : Type} (st : Step D) :
  waits st = true -> exists s1 rq k, st = Await s1 rq k.
Proof. destruct st as [s | s1 rq k]; [discriminate | intros _; now exists s1, rq, k]. Qed.

Lemma searchStudies_keeps_flags (pageNo : Z) (s s1 : State) (rq : Request)
  (k : Fetched SearchJson -> State -> State) (id : string) :
  searchStudies pageNo s = Await s1 rq k ->
  disabled (el s1 id) = disabled (el s id).
Proof. unfold searchStudies. intros H. injection H as <- _ _. reflexivity. Qed.

Lemma sendMessage_keeps_flags (t1 t2 t3 : N) (s s1 : State) (rq : Request)
  (k : Fetched ChatData -> State -> State) (id : string) :
  sendMessage t1 t2 t3 s = Await s1 rq k ->
  disabled (el s1 id) = disabled (el s id).
Proof.
  unfold sendMessage. intros H.
  destruct (currentChatStudy s) as [study |]; [| discriminate].
  destruct (_ || _)%bool; [discriminate |].
  unfold addModalMessage in H. cbv beta zeta iota in H.
  injection H as <- _ _.
  rewrite !disabled_set_el_frame by reflexivity. reflexivity.
Qed.

Lemma generateProtocolReport_keeps_flags (s s1 : State) (rq : Request)
  (k : Fetched ReportData -> State -> State) (id : string) :
  generateProtocolReport s = Await s1 rq k ->
  disabled (el s1 id) = disabled (el s id).
Proof.
  unfold generateProtocolReport. intros H.
  destruct (negb _); [discriminate |].
  injection H as <- _ _.
  rewrite !disabled_set_el_frame by reflexivity. reflexivity.
Qed.

Ltac agent_guard :=
  match goal with
  | |- waits ?st = true -> guarded_request ?btn ?ep ?st =>
      let h := (eval cbv delta [runAgenticSearch runMultiAgentAnalysis
                                runTrialComparison runAmendmentRisk
                                runDesignPatterns runSoAComposer] in st) in
      change st with h; cbv beta zeta;
      match goal with
      | |- waits (if ?c then _ else _) = true -> _ =>
          destruct c; [apply not_issued_by_done |];
          intros _; do 3 eexists;
          split; [reflexivity | split; [reflexivity | split;
            [reflexivity | intros reply s2; apply agent_resume_enables]]]
      end
  end.

(** C1, as the script has it.  The sidebar chat and the six agent features
    disable their control before the request leaves and enable it again in
    [finally], whatever the reply and whatever the page went through in
    between; [searchStudies], [sendMessage] and [generateProtocolReport]
    change the disabled flag of no element before their request. *)
Theorem C1_trigger_disabled_while_request_is_out (t1 t2 t3 : N) (pageNo : Z)
  (s : State) :
  (waits (sendSidebarMessage t1 t2 t3 s) = true ->
   guarded_request "sidebarSendBtn" "/api/chat-all" (sendSidebarMessage t1 t2 t3 s) /\
   guarded_request "sidebarChatInput" "/api/chat-all" (sendSidebarMessage t1 t2 t3 s)) /\
  (waits (runAgenticSearch s) = true ->
   guarded_request "agenticSearchBtn" "/api/agentic-search" (runAgenticSearch s)) /\
  (waits (runMultiAgentAnalysis s) = true ->
   guarded_request "analysisBtn" "/api/multi-agent-analysis" (runMultiAgentAnalysis s)) /\
  (waits (runTrialComparison s) = true ->
   guarded_request "compareBtn" "/api/compare-trials" (runTrialComparison s)) /\
  (waits (runAmendmentRisk s) = true ->
   guarded_request "amendmentBtn" "/api/amendment-risk" (runAmendmentRisk s)) /\
  (waits (runDesignPatterns s) = true ->
   guarded_request "patternBtn" "/api/design-patterns" (runDesignPatterns s)) /\
  (waits (runSoAComposer s) = true ->
   guarded_request "soaBtn" "/api/soa-composer" (runSoAComposer s)) /\
  (forall s1 rq k id,
     searchStudies pageNo s = Await s1 rq k ->
     disabled (el s1 id) = disabled (el s id)) /\
  (forall s1 rq k id,
     sendMessage t1 t2 t3 s = Await s1 rq k ->
     disabled (el s1 id) = disabled (el s id)) /\
  (forall s1 rq k id,
     generateProtocolReport s = Await s1 rq k ->
     disabled (el s1 id) = disabled (el s id)).
Proof.
  split.
  { unfold sendSidebarMessage.
    destruct (currentFilters s) as [filters |]; [| apply not_issued_by_done].
    destruct (negb _); [apply not_issued_by_done |].
    intros _. unfold addSidebarMessage. cbv beta zeta iota.
    split; do 3 eexists;
      (split; [reflexivity | split; [reflexivity | split; [reflexivity |]]]);
      intros reply s2; apply sendSidebarMessage_resume_enables. }
  do 6 (split; [agent_guard |]).
  split; [| split].
  - intros s1 rq k id. apply searchStudies_keeps_flags.
  - intros s1 rq k id. apply sendMessage_keeps_flags.
  - intros s1 rq k id. apply generateProtocolReport_keeps_flags.
Qed.

Lemma C1_trigger_witness :
  (guarded_request "sidebarSendBtn" "/api/chat-all" (sendSidebarMessage 5 6 9 filled) /\
   guarded_request "sidebarChatInput" "/api/chat-all" (sendSidebarMessage 5 6 9 filled)) /\
  guarded_request "agenticSearchBtn" "/api/agentic-search" (runAgenticSearch filled) /\
  guarded_request "analysisBtn" "/api/multi-agent-analysis" (runMultiAgentAnalysis filled) /\
  guarded_request "compareBtn" "/api/compare-trials" (runTrialComparison filled) /\
  guarded_request "amendmentBtn" "/api/amendment-risk" (runAmendmentRisk filled) /\
  guarded_request "patternBtn" "/api/design-patterns" (runDesignPatterns filled) /\
  guarded_request "soaBtn" "/api/soa-composer" (runSoAComposer filled) /\
  (forall id,
     disabled (el (reached (searchStudies 1 filled)) id) = disabled (el filled id)) /\
  (forall id,
     disabled (el (reached (sendMessage 5 6 9 filled)) id) = disabled (el filled id)) /\
  (forall id,
     disabled (el (reached (generateProtocolReport filled)) id)
     = disabled (el filled id)).
Proof.
  destruct (C1_trigger_disabled_while_request_is_out 5 6 9 1 filled)
    as (H1 & H2 & H3 & H4 & H5 & H6 & H7 & H8 & H9 & H10).
  split; [apply H1; vm_compute; reflexivity |].
  split; [apply H2; vm_compute; reflexivity |].
  split; [apply H3; vm_compute; reflexivity |].
  split; [apply H4; vm_compute; reflexivity |].
  split; [apply H5; vm_compute; reflexivity |].
  split; [apply H6; vm_compute; reflexivity |].
  split; [apply H7; vm_compute; reflexivity |].
  split; [| split]; intros id.
  - destruct (waits_await (searchStudies 1 filled) eq_refl) as (s1 & rq & k & E).
    rewrite E. exact (H8 s1 rq k id E).
  - assert (W : waits (sendMessage 5 6 9 filled) = true) by (vm_compute; reflexivity).
    destruct (waits_await _ W) as (s1 & rq & k & E).
    rewrite E. exact (H9 s1 rq k id E).
  - assert (W : waits (generateProtocolReport filled) = true)
      by (vm_compute; reflexivity).
    destruct (waits_await _ W) as (s1 & rq & k & E).
    rewrite E. exact (H10 s1 rq k id E).
Defined.

(** C1 as stated fails for the search, the per-study chat and the protocol
    report: on a page whose controls are all enabled each of the three sends
    its request, and no control at all is disabled while it is out. *)
Lemma C1_search_chat_report_disable_nothing :
  ~ disables_a_trigger (searchStudies 1) /\
  ~ disables_a_trigger (sendMessage 5 6 9) /\
  ~ disables_a_trigger generateProtocolReport.
Proof.
  split; [| split]; intros [btn H].
  - destruct (waits_await (searchStudies 1 initial_state) eq_refl)
      as (s1 & rq & k & E).
    destruct (H _ _ _ _ E) as [Hd _].
    rewrite (searchStudies_keeps_flags _ _ _ _ _ btn E) in Hd. discriminate.
  - assert (W : waits (sendMessage 5 6 9 question_typed) = true)
      by (vm_compute; reflexivity).
    destruct (waits_await _ W) as (s1 & rq & k & E).
    destruct (H _ _ _ _ E) as [Hd _].
    rewrite (sendMessage_keeps_flags _ _ _ _ _ _ _ btn E) in Hd.
    unfold question_typed, type_into, openChatModal in Hd. cbv zeta in Hd.
    rewrite !disabled_set_el_frame in Hd by reflexivity. discriminate.
  - assert (W : waits (generateProtocolReport condition_typed) = true)
      by (vm_compute; reflexivity).
    destruct (waits_await _ W) as (s1 & rq & k & E).
    destruct (H _ _ _ _ E) as [Hd _].
    rewrite (generateProtocolReport_keeps_flags _ _ _ _ btn E) in Hd.
    unfold condition_typed, type_into in Hd.
    rewrite !disabled_set_el_frame in Hd by reflexivity. discriminate.
Qed.

(** ** The chat transcripts *)

Lemma of_N_inj (n m : N) : JsString.of_N n = JsString.of_N m -> n = m.
Proof.
  unfold JsString.of_N. intros H.
  apply DecimalN.Unsigned.to_uint_inj.
  apply (f_equal NilEmpty.uint_of_string) in H.
  rewrite !NilEmpty.usu in H. now injection H.
Qed.

Lemma remove_first_app (p : Node -> bool) (l r : list Node) :
  (forall n, In n l -> p n = false) ->
  remove_first p (l ++ r)
  = match remove_first p r with
    | Some r' => Some (l ++ r')
    | None => None
    end.
Proof.
  induction l as [| a l IH]; intros H; simpl.
  - now destruct (remove_first p r).
  - rewrite (H a) by now left.
    rewrite IH by (intros n Hn; apply H; now right).
    now destruct (remove_first p r).
Qed.

Lemma children_for_each_element (f : string -> Element -> Element) (s : State)
  (j : string) :
  (forall id e, children (f id e) = children e) ->
  children (el (for_each_element f s) j) = children (el s j).
Proof. intros H. unfold for_each_element, el; simpl. apply H. Qed.

Lemma clearFilters_modal_transcript (s : State) :
  modal_transcript (clearFilters s) = modal_transcript s.
Proof.
  unfold modal_transcript, clearFilters. cbv zeta.
  rewrite !children_set_el_frame by reflexivity.
  rewrite !el_set_el_other by discriminate.
  rewrite el_set_currentFilters, el_set_currentPage, el_set_ageGroupBoxes.
  rewrite !children_for_each_element; [reflexivity | | |];
    intros id e; destruct (kind e); try reflexivity.
  destruct (String.eqb id "perPage"); reflexivity.
Qed.

Lemma agent_handlers_resume (s0 s1 : State) (rq : Request)
  (k : Fetched AgentData -> State -> State) :
  (runAgenticSearch s0 = Await s1 rq k ->
   k = agent_resume "agenticSearchBtn" "agenticSearchResult") /\
  (runMultiAgentAnalysis s0 = Await s1 rq k ->
   k = agent_resume "analysisBtn" "analysisResult") /\
  (runTrialComparison s0 = Await s1 rq k ->
   k = agent_resume "compareBtn" "compareResult") /\
  (runAmendmentRisk s0 = Await s1 rq k ->
   k = agent_resume "amendmentBtn" "amendmentResult") /\
  (runDesignPatterns s0 = Await s1 rq k ->
   k = agent_resume "patternBtn" "patternResult") /\
  (runSoAComposer s0 = Await s1 rq k ->
   k = agent_resume "soaBtn" "soaResult").
Proof.
  unfold runAgenticSearch, runMultiAgentAnalysis, runTrialComparison,
    runAmendmentRisk, runDesignPatterns, runSoAComposer.
  repeat split; intros H;
    match type of H with
    | (if ?c then _ else _) = _ => destruct c; [discriminate |]
    end; now injection H as _ _ <-.
Qed.

(** *** Handlers that do not write to the transcripts *)

Lemma transcripts_set_el_flags (id : string) (f : Element -> Element) (s : State) :
  (forall e, children (f e) = children e) ->
  transcripts (set_el id f s) = transcripts s.
Proof.
  intros H. unfold transcripts, modal_transcript, sidebar_transcript.
  now rewrite !children_set_el_frame by exact H.
Qed.

Lemma transcripts_set_el_other (id : string) (f : Element -> Element) (s : State) :
  id <> "chatMessages" -> id <> "sidebarChatMessages" ->
  transcripts (set_el id f s) = transcripts s.
Proof.
  intros H1 H2. unfold transcripts, modal_transcript, sidebar_transcript.
  rewrite !el_set_el_other by congruence. reflexivity.
Qed.

Lemma transcripts_alert (msg : string) (s : State) :
  transcripts (alert msg s) = transcripts s.
Proof. reflexivity. Qed.

Lemma searchStudies_resume_transcripts (reply : Fetched SearchJson) (s : State) :
  transcripts (searchStudies_resume reply s) = transcripts s.
Proof.
  destruct (searchStudies_resume_frame reply s) as (_ & _ & _ & _ & Hp).
  unfold transcripts, modal_transcript, sidebar_transcript, el.
  rewrite !Hp; [reflexivity | |]; simpl; intros H;
    repeat (destruct H as [H | H]; [discriminate |]); exact H.
Qed.

Lemma agent_resume_transcripts (btn resultId : string) (reply : Fetched AgentData)
  (s : State) :
  resultId <> "chatMessages" -> resultId <> "sidebarChatMessages" ->
  transcripts (agent_resume btn resultId reply s) = transcripts s.
Proof.
  intros H1 H2. unfold agent_resume.
  rewrite transcripts_set_el_flags by reflexivity.
  assert (He : forall m, transcripts (showAgentError resultId m s) = transcripts s).
  { intros m. unfold showAgentError.
    rewrite transcripts_set_el_flags by reflexivity.
    now apply transcripts_set_el_other. }
  destruct reply as [m | ok [m | d]]; try apply He.
  destruct (a_success d).
  - destruct (a_template d); [apply He | now apply transcripts_set_el_other].
  - destruct (JsString.if_truthy (a_error d)); apply He.
Qed.

Lemma agent_handlers_keep_transcripts :
  keeps_transcripts runAgenticSearch /\
  keeps_transcripts runMultiAgentAnalysis /\
  keeps_transcripts runTrialComparison /\
  keeps_transcripts runAmendmentRisk /\
  keeps_transcripts runDesignPatterns /\
  keeps_transcripts runSoAComposer.
Proof.
  repeat split.
  all: try (intros s1 rq k reply s E;
            destruct (agent_handlers_resume s0 s1 rq k)
              as (K1 & K2 & K3 & K4 & K5 & K6);
            first [ rewrite (K1 E) | rewrite (K2 E) | rewrite (K3 E)
                  | rewrite (K4 E) | rewrite (K5 E) | rewrite (K6 E) ];
            apply agent_resume_transcripts; discriminate).
  all: unfold runAgenticSearch, runMultiAgentAnalysis, runTrialComparison,
         runAmendmentRisk, runDesignPatterns, runSoAComposer;
       match goal with
       | |- context [if ?c then _ else _] => destruct c
       end; [reflexivity |];
       unfold reached, showAgentLoading;
       rewrite transcripts_set_el_flags by reflexivity;
       rewrite transcripts_set_el_other by discriminate;
       now rewrite transcripts_set_el_flags by reflexivity.
Qed.

Lemma search_and_report_keep_transcripts (pageNo : Z) :
  keeps_transcripts (searchStudies pageNo) /\
  keeps_transcripts generateProtocolReport.
Proof.
  split; intros s0; split.
  - reflexivity.
  - intros s1 rq k reply s E. unfold searchStudies in E.
    injection E as _ _ <-. apply searchStudies_resume_transcripts.
  - unfold generateProtocolReport. destruct (negb _); [reflexivity |].
    unfold reached. now rewrite !transcripts_set_el_flags by reflexivity.
  - intros s1 rq k reply s E. unfold generateProtocolReport in E.
    destruct (negb _); [discriminate |]. injection E as _ _ <-.
    unfold generateProtocolReport_resume.
    destruct reply as [m | ok [m | d]];
      try (now rewrite transcripts_alert, transcripts_set_el_flags by reflexivity).
    destruct (JsString.if_truthy (r_error d));
      [now rewrite transcripts_alert, transcripts_set_el_flags by reflexivity |].
    destruct (r_report d).
    + rewrite transcripts_set_el_flags by reflexivity.
      rewrite transcripts_set_el_other by discriminate.
      now rewrite transcripts_set_el_flags by reflexivity.
    + now rewrite transcripts_alert, !transcripts_set_el_flags by reflexivity.
Qed.

(** What [sendMessage] has done when it waits for its reply. *)
Lemma sendMessage_suspended (t1 t2 t3 : N) (s : State) :
  waits (sendMessage t1 t2 t3 s) = true ->
  exists s1 rq,
    sendMessage t1 t2 t3 s
      = Await s1 rq (sendMessage_resume t3 ("msg-" ++ JsString.of_N t2)) /\
    modal_transcript s1
      = modal_transcript s
        ++ [MessageRow ("msg-" ++ JsString.of_N t1) user
              (Raw (JsString.trim (el_value (el s "chatInput"))));
            MessageRow ("msg-" ++ JsString.of_N t2) loading
              (Raw "Analyzing study data...")].
Proof.
  unfold sendMessage.
  destruct (currentChatStudy s) as [study |]; [| discriminate].
  destruct (_ || _)%bool; [discriminate |].
  intros _. unfold addModalMessage. cbv beta zeta iota.
  do 2 eexists. split; [reflexivity |].
  unfold modal_transcript. cbn [fst].
  rewrite el_set_el_same. cbn [children with_children].
  rewrite el_set_el_other by discriminate.
  rewrite el_set_el_same. cbn [children with_children].
  now rewrite <- app_assoc.
Qed.

(** What the code after the reply does to the modal transcript when the
    loading row is in it. *)
Lemma sendMessage_resume_transcript (now : N) (loadingId : string)
  (reply : Fetched ChatData) (s : State) (l : list Node) :
  remove_first (has_id loadingId) (modal_transcript s) = Some l ->
  exists text,
    modal_transcript (sendMessage_resume now loadingId reply s)
    = l ++ [MessageRow ("msg-" ++ JsString.of_N now) assistant text].
Proof.
  intros H. unfold modal_transcript in H.
  assert (R : remove_row loadingId s
              = Some (set_el "chatMessages" (with_children l) s)).
  { unfold remove_row. now rewrite H. }
  unfold sendMessage_resume.
  destruct reply as [msg | ok [msg | data]]; rewrite R.
  - eexists. unfold addModalMessage, modal_transcript. simpl fst.
    rewrite !el_set_el_same. reflexivity.
  - eexists. unfold addModalMessage, modal_transcript. simpl fst.
    rewrite !el_set_el_same. reflexivity.
  - destruct (JsString.if_truthy (c_error data)); eexists;
      unfold addModalMessage, modal_transcript; simpl fst;
      rewrite !el_set_el_same; reflexivity.
Qed.

Lemma addModalMessage_transcript (now : N) (text : Markup) (type : Role)
  (s : State) :
  modal_transcript (fst (addModalMessage now text type s))
  = modal_transcript s ++ [MessageRow ("msg-" ++ JsString.of_N now) type text].
Proof.
  unfold addModalMessage, modal_transcript. cbn [fst].
  now rewrite el_set_el_same.
Qed.

Lemma addSidebarMessage_transcript (now : N) (text : Markup) (type : Role)
  (s : State) :
  sidebar_transcript (fst (addSidebarMessage now text type s))
  = without_placeholder (sidebar_transcript s)
    ++ [MessageRow ("sidebar-msg-" ++ JsString.of_N now) type text].
Proof.
  unfold addSidebarMessage, sidebar_transcript. cbn [fst].
  now rewrite el_set_el_same.
Qed.

Lemma sendSidebarMessage_resume_transcript (now : N) (loadingId : string)
  (reply : Fetched ChatData) (s : State) :
  sidebar_transcript (sendSidebarMessage_resume now loadingId reply s)
  = sidebar_transcript
      (match reply with
       | Response _ (Json data) =>
           match remove_row loadingId s with
           | Some s =>
               match JsString.if_truthy (c_error data) with
               | Some e =>
                   fst (addSidebarMessage now (Raw ("Error: " ++ e)) assistant s)
               | None =>
                   match JsString.if_truthy (c_info data) with
                   | Some info =>
                       fst (addSidebarMessage now
                              (InfoBadged info (JsString.of_prop (c_answer data)))
                              assistant s)
                   | None =>
                       fst (addSidebarMessage now
                              (Raw (JsString.of_prop (c_answer data))) assistant s)
                   end
               end
           | None => s
           end
       | _ =>
           match remove_row loadingId s with
           | Some s =>
               fst (addSidebarMessage now (Raw "Error: Failed to get response.")
                      assistant s)
           | None => s
           end
       end).
Proof.
  unfold sendSidebarMessage_resume, sidebar_transcript.
  rewrite !children_set_el_frame by reflexivity.
  destruct reply as [m | ok [m | d]]; reflexivity.
Qed.

Lemma remove_row_modal (id : string) (s : State) (l : list Node) :
  remove_first (has_id id) (modal_transcript s) = Some l ->
  remove_row id s = Some (set_el "chatMessages" (with_children l) s).
Proof. unfold remove_row, modal_transcript. now intros ->. Qed.

Lemma remove_row_sidebar (id : string) (s : State) (l : list Node) :
  remove_first (has_id id) (modal_transcript s) = None ->
  remove_first (has_id id) (sidebar_transcript s) = Some l ->
  remove_row id s = Some (set_el "sidebarChatMessages" (with_children l) s).
Proof. unfold remove_row, modal_transcript, sidebar_transcript. now intros -> ->. Qed.

Lemma modal_transcript_set (l : list Node) (s : State) :
  modal_transcript (set_el "chatMessages" (with_children l) s) = l.
Proof. unfold modal_transcript. now rewrite el_set_el_same. Qed.

Lemma sidebar_transcript_set (l : list Node) (s : State) :
  sidebar_transcript (set_el "sidebarChatMessages" (with_children l) s) = l.
Proof. unfold sidebar_transcript. now rewrite el_set_el_same. Qed.

Lemma remove_first_In (p : Node -> bool) (l l' : list Node) (n : Node) :
  remove_first p l = Some l' -> In n l' -> In n l.
Proof.
  revert l'. induction l as [| a l IH]; intros l' H Hn; simpl in H;
    [discriminate |].
  destruct (p a).
  - injection H as <-. now right.
  - destruct (remove_first p l) as [r |]; [| discriminate].
    injection H as <-. destruct Hn as [<- | Hn]; [now left | right].
    now apply (IH r).
Qed.

Lemma without_placeholder_In (l : list Node) (n : Node) :
  In n (without_placeholder l) -> In n l.
Proof.
  unfold without_placeholder.
  destruct (remove_first is_placeholder l) as [l' |] eqn:E; [| trivial].
  now apply (remove_first_In is_placeholder l l').
Qed.

Lemma without_placeholder_row (l : list Node) (id : string) (role : Role)
  (text : Markup) :
  without_placeholder (l ++ [MessageRow id role text])
  = without_placeholder l ++ [MessageRow id role text].
Proof.
  unfold without_placeholder.
  induction l as [| a l IH]; simpl; [reflexivity |].
  destruct (is_placeholder a); [reflexivity |].
  destruct (remove_first is_placeholder l);
    destruct (remove_first is_placeholder (l ++ [MessageRow id role text]));
    simpl in *; congruence.
Qed.

(** What [sendSidebarMessage] has done when it waits for its reply. *)
Lemma sendSidebarMessage_suspended (t1 t2 t3 : N) (s : State) :
  waits (sendSidebarMessage t1 t2 t3 s) = true ->
  exists s1 rq,
    sendSidebarMessage t1 t2 t3 s
      = Await s1 rq
          (sendSidebarMessage_resume t3 ("sidebar-msg-" ++ JsString.of_N t2)) /\
    modal_transcript s1 = modal_transcript s /\
    exists text,
      sidebar_transcript s1
      = without_placeholder (without_placeholder (sidebar_transcript s))
        ++ [MessageRow ("sidebar-msg-" ++ JsString.of_N t1) user
              (Raw (JsString.trim (el_value (el s "sidebarChatInput"))));
            MessageRow ("sidebar-msg-" ++ JsString.of_N t2) loading (Raw text)].
Proof.
  unfold sendSidebarMessage.
  destruct (currentFilters s) as [filters |]; [| discriminate].
  destruct (negb _); [discriminate |].
  intros _.
  set (q := JsString.trim (el_value (el s "sidebarChatInput"))).
  set (s2 := set_el "sidebarChatInput" (with_disabled true)
               (set_el "sidebarSendBtn" (with_disabled true)
                  (set_el "sidebarChatInput" (with_value "")
                     (fst (addSidebarMessage t1 (Raw q) user s))))).
  assert (H2 : transcripts s2
               = (modal_transcript s,
                  without_placeholder (sidebar_transcript s)
                  ++ [MessageRow ("sidebar-msg-" ++ JsString.of_N t1) user (Raw q)])).
  { subst s2. rewrite !transcripts_set_el_flags by reflexivity.
    unfold transcripts. rewrite addSidebarMessage_transcript.
    unfold addSidebarMessage, modal_transcript. cbn [fst].
    now rewrite el_set_el_other by discriminate. }
  assert (Hm : modal_transcript s2 = modal_transcript s)
    by exact (f_equal fst H2).
  assert (Hs : sidebar_transcript s2
               = without_placeholder (sidebar_transcript s)
                 ++ [MessageRow ("sidebar-msg-" ++ JsString.of_N t1) user (Raw q)])
    by exact (f_equal snd H2).
  clear H2.
  cbv zeta.
  change (set_el "sidebarChatInput" (with_disabled true)
            (set_el "sidebarSendBtn" (with_disabled true)
               (set_el "sidebarChatInput" (with_value "")
                  (fst (addSidebarMessage t1 (Raw q) user s))))) with s2.
  destruct (addSidebarMessage t2
              (Raw ("Analyzing "
                    ++ (if isAdvancedMode s2 then "ALL complete study data"
                        else "essential study data")
                    ++ " from filtered studies...")) loading s2)
    as [s3 loadingId] eqn:E3.
  pose proof (addSidebarMessage_transcript t2
                (Raw ("Analyzing "
                      ++ (if isAdvancedMode s2 then "ALL complete study data"
                          else "essential study data")
                      ++ " from filtered studies...")) loading s2) as H3.
  rewrite E3 in H3. cbn [fst] in H3.
  assert (Hid : loadingId = ("sidebar-msg-" ++ JsString.of_N t2)%string).
  { unfold addSidebarMessage in E3. now injection E3 as _ <-. }
  assert (Hm3 : modal_transcript s3 = modal_transcript s2).
  { unfold addSidebarMessage in E3. injection E3 as <- _.
    unfold modal_transcript. now rewrite el_set_el_other by discriminate. }
  subst loadingId. do 2 eexists. split; [reflexivity |].
  split; [congruence |]. eexists.
  rewrite H3, Hs, without_placeholder_row, <- app_assoc. reflexivity.
Qed.

(** C2, as the script has it.  The modal transcript is reset when the modal
    is opened; closing the modal leaves both transcripts as they are.  The
    sidebar transcript is reset by [clearFilters].  Between resets a row is
    added at the end of its transcript (the sidebar drops a placeholder
    first), and an exchange whose loading row has an id of its own leaves the
    earlier rows in place, followed by the question and the reply.  The
    search, the protocol report and the agent features leave both transcripts
    as they are. *)
Theorem C2_transcripts_between_resets (s : State) :
  (forall nctId title,
     modal_transcript (openChatModal nctId title s) = [ModalPlaceholder title] /\
     sidebar_transcript (openChatModal nctId title s) = sidebar_transcript s) /\
  transcripts (closeChatModal s) = transcripts s /\
  (sidebar_transcript (clearFilters s) = [SidebarPlaceholder] /\
   modal_transcript (clearFilters s) = modal_transcript s) /\
  (forall now text type,
     modal_transcript (fst (addModalMessage now text type s))
     = modal_transcript s
       ++ [MessageRow ("msg-" ++ JsString.of_N now) type text]) /\
  (forall now text type,
     sidebar_transcript (fst (addSidebarMessage now text type s))
     = without_placeholder (sidebar_transcript s)
       ++ [MessageRow ("sidebar-msg-" ++ JsString.of_N now) type text]) /\
  (forall t1 t2 t3 reply,
     waits (sendMessage t1 t2 t3 s) = true ->
     t1 <> t2 ->
     (forall n, In n (modal_transcript s) ->
                has_id ("msg-" ++ JsString.of_N t2) n = false) ->
     exists text,
       modal_transcript (settle (sendMessage t1 t2 t3 s) reply)
       = modal_transcript s
         ++ [MessageRow ("msg-" ++ JsString.of_N t1) user
               (Raw (JsString.trim (el_value (el s "chatInput"))));
             MessageRow ("msg-" ++ JsString.of_N t3) assistant text]) /\
  (forall t1 t2 t3 reply,
     waits (sendSidebarMessage t1 t2 t3 s) = true ->
     t1 <> t2 ->
     (forall n, In n (modal_transcript s) \/ In n (sidebar_transcript s) ->
                has_id ("sidebar-msg-" ++ JsString.of_N t2) n = false) ->
     exists text,
       sidebar_transcript (settle (sendSidebarMessage t1 t2 t3 s) reply)
       = Nat.iter 3 without_placeholder (sidebar_transcript s)
         ++ [MessageRow ("sidebar-msg-" ++ JsString.of_N t1) user
               (Raw (JsString.trim (el_value (el s "sidebarChatInput"))));
             MessageRow ("sidebar-msg-" ++ JsString.of_N t3) assistant text]) /\
  (forall pageNo, keeps_transcripts (searchStudies pageNo)) /\
  keeps_transcripts generateProtocolReport /\
  keeps_transcripts runAgenticSearch /\
  keeps_transcripts runMultiAgentAnalysis /\
  keeps_transcripts runTrialComparison /\
  keeps_transcripts runAmendmentRisk /\
  keeps_transcripts runDesignPatterns /\
  keeps_transcripts runSoAComposer.
Proof.
  split; [intros nctId title; split; reflexivity |].
  split; [reflexivity |].
  split; [split; [reflexivity | apply clearFilters_modal_transcript] |].
  split; [intros; apply addModalMessage_transcript |].
  split; [intros; apply addSidebarMessage_transcript |].
  split.
  { intros t1 t2 t3 reply W Ht Hfresh.
    destruct (sendMessage_suspended t1 t2 t3 s W) as (s1 & rq & E & Hs1).
    rewrite E. unfold settle.
    destruct (sendMessage_resume_transcript t3 ("msg-" ++ JsString.of_N t2) reply s1
                (modal_transcript s
                 ++ [MessageRow ("msg-" ++ JsString.of_N t1) user
                       (Raw (JsString.trim (el_value (el s "chatInput"))))]))
      as (text & Htext).
    - rewrite Hs1. rewrite remove_first_app by exact Hfresh.
      simpl. destruct (String.eqb_spec (JsString.of_N t1) (JsString.of_N t2)) as [e | _].
      + elim Ht. now apply of_N_inj.
      + now rewrite String.eqb_refl.
    - exists text. rewrite Htext. now rewrite <- app_assoc. }
  split.
  { intros t1 t2 t3 reply W Ht Hfresh.
    destruct (sendSidebarMessage_suspended t1 t2 t3 s W)
      as (s1 & rq & E & Hm1 & ltext & Hs1).
    rewrite E. unfold settle.
    set (id2 := ("sidebar-msg-" ++ JsString.of_N t2)%string) in *.
    set (u := MessageRow ("sidebar-msg-" ++ JsString.of_N t1) user
                (Raw (JsString.trim (el_value (el s "sidebarChatInput"))))) in *.
    set (base := without_placeholder (without_placeholder (sidebar_transcript s))) in *.
    assert (Hmod : remove_first (has_id id2) (modal_transcript s1) = None).
    { rewrite Hm1. clear - Hfresh.
      induction (modal_transcript s) as [| a l IH]; [reflexivity |].
      simpl. rewrite (Hfresh a) by (left; now left).
      rewrite IH; [reflexivity |].
      intros n [Hn | Hn]; apply Hfresh; [left; now right | now right]. }
    assert (Hside : remove_first (has_id id2) (sidebar_transcript s1)
                    = Some (base ++ [u])).
    { rewrite Hs1. rewrite remove_first_app.
      - subst u id2. simpl.
        destruct (String.eqb_spec (JsString.of_N t1) (JsString.of_N t2)) as [e | _].
        + elim Ht. now apply of_N_inj.
        + now rewrite String.eqb_refl.
      - intros n Hn. apply Hfresh. right.
        now apply without_placeholder_In, without_placeholder_In. }
    pose proof (remove_row_sidebar id2 s1 _ Hmod Hside) as R.
    rewrite sendSidebarMessage_resume_transcript.
    destruct reply as [m | ok [m | d]]; rewrite R;
      try (eexists; rewrite addSidebarMessage_transcript, sidebar_transcript_set;
           subst u; rewrite without_placeholder_row, <- app_assoc; reflexivity).
    destruct (JsString.if_truthy (c_error d));
      [| destruct (JsString.if_truthy (c_info d))];
      eexists; rewrite addSidebarMessage_transcript, sidebar_transcript_set;
      subst u; rewrite without_placeholder_row, <- app_assoc; reflexivity. }
  split; [intros pageNo; apply search_and_report_keep_transcripts |].
  split; [apply (search_and_report_keep_transcripts 1) |].
  apply agent_handlers_keep_transcripts.
Qed.

Lemma C2_transcripts_witness :
  (exists text,
     modal_transcript
       (settle (sendMessage 5 6 9 question_typed) (Response true (Json yes_answer)))
     = modal_transcript question_typed
       ++ [MessageRow ("msg-" ++ JsString.of_N 5) user
             (Raw (JsString.trim (el_value (el question_typed "chatInput"))));
           MessageRow ("msg-" ++ JsString.of_N 9) assistant text]) /\
  (exists text,
     sidebar_transcript
       (settle (sendSidebarMessage 5 6 9 filled) (Response true (Json yes_answer)))
     = Nat.iter 3 without_placeholder (sidebar_transcript filled)
       ++ [MessageRow ("sidebar-msg-" ++ JsString.of_N 5) user
             (Raw (JsString.trim (el_value (el filled "sidebarChatInput"))));
           MessageRow ("sidebar-msg-" ++ JsString.of_N 9) assistant text]).
Proof.
  destruct (C2_transcripts_between_resets question_typed)
    as (_ & _ & _ & _ & _ & Hmodal & _).
  destruct (C2_transcripts_between_resets filled)
    as (_ & _ & _ & _ & _ & _ & Hsidebar & _).
  split.
  - apply Hmodal.
    + vm_compute; reflexivity.
    + discriminate.
    + intros n Hn.
      change (In n [ModalPlaceholder "A study"]) in Hn.
      destruct Hn as [<- | []]. reflexivity.
  - apply Hsidebar.
    + vm_compute; reflexivity.
    + discriminate.
    + intros n Hn.
      change (In n [ModalPlaceholder "A study"] \/ In n []) in Hn.
      destruct Hn as [[<- | []] | []]. reflexivity.
Defined.

(** C2 as stated fails at [closeChatModal]: after an exchange in the modal,
    closing it ends the conversation but leaves its rows in the transcript. *)
Lemma C2_closing_the_modal_keeps_the_rows :
  currentChatStudy (closeChatModal answered) = None /\
  modal_transcript (closeChatModal answered)
  = [ModalPlaceholder "A study";
     MessageRow "msg-5" user (Raw "Any results?");
     MessageRow "msg-9" assistant (Raw "Yes, posted in 2021.")].
Proof. split; vm_compute; reflexivity. Qed.

(** ** Failures of the request *)

Lemma agent_resume_thrown (btn resultId : string) (reply : Fetched AgentData)
  (msg : string) (s : State) :
  thrown reply = Some msg ->
  children (el (agent_resume btn resultId reply s) resultId) = [AgentError msg].
Proof.
  intros H. unfold agent_resume.
  rewrite children_set_el_frame by reflexivity.
  destruct reply as [m | ok [m | d]]; simpl in H; try discriminate;
    injection H as ->; unfold showAgentError;
    rewrite children_set_el_frame by reflexivity;
    now rewrite el_set_el_same.
Qed.

Lemma if_truthy_nonempty (e : string) :
  e <> "" -> JsString.if_truthy (Some e) = Some e.
Proof.
  intros H. unfold JsString.if_truthy.
  now rewrite (proj2 (truthy_nonempty e) H).
Qed.

Lemma agent_resume_error_field (btn resultId : string) (ok : bool)
  (data : AgentData) (e : string) (s : State) :
  a_success data = false -> a_error data = Some e -> e <> "" ->
  children (el (agent_resume btn resultId (Response ok (Json data)) s) resultId)
  = [AgentError e].
Proof.
  intros Hs He Hne. unfold agent_resume.
  rewrite children_set_el_frame by reflexivity.
  rewrite Hs, He, (if_truthy_nonempty e Hne). unfold showAgentError.
  rewrite children_set_el_frame by reflexivity.
  now rewrite el_set_el_same.
Qed.

(** C3, as the script has it.  When [fetch] or [response.json()] throws, the
    two chat handlers replace the loading row (if it is still in the
    transcript) by the fixed row "Error: Failed to get response." at the end
    of the transcript, whatever the exception says; the search alerts
    "Error: " followed by the message of the exception, the protocol report
    alerts "Error generating report: " followed by it, and the six agent
    handlers show it in the error box of their panel. *)
Theorem C3_thrown_errors_as_surfaced (msg : string) (s : State) :
  (forall reply now loadingId l,
     thrown reply = Some msg ->
     remove_first (has_id loadingId) (modal_transcript s) = Some l ->
     modal_transcript (sendMessage_resume now loadingId reply s)
     = l ++ [MessageRow ("msg-" ++ JsString.of_N now) assistant
               (Raw "Error: Failed to get response.")]) /\
  (forall reply now loadingId l,
     thrown reply = Some msg ->
     remove_first (has_id loadingId) (modal_transcript s) = None ->
     remove_first (has_id loadingId) (sidebar_transcript s) = Some l ->
     sidebar_transcript (sendSidebarMessage_resume now loadingId reply s)
     = without_placeholder l
       ++ [MessageRow ("sidebar-msg-" ++ JsString.of_N now) assistant
             (Raw "Error: Failed to get response.")]) /\
  (forall reply,
     reply = Rejected msg \/ reply = Response true (BadJson msg) ->
     alerts (searchStudies_resume reply s) = alerts s ++ ["Error: " ++ msg]%string) /\
  (forall reply,
     thrown reply = Some msg ->
     alerts (generateProtocolReport_resume reply s)
     = alerts s ++ ["Error generating report: " ++ msg]%string) /\
  shows_thrown_message "agenticSearchResult" runAgenticSearch /\
  shows_thrown_message "analysisResult" runMultiAgentAnalysis /\
  shows_thrown_message "compareResult" runTrialComparison /\
  shows_thrown_message "amendmentResult" runAmendmentRisk /\
  shows_thrown_message "patternResult" runDesignPatterns /\
  shows_thrown_message "soaResult" runSoAComposer.
Proof.
  split.
  { intros reply now loadingId l Ht Hr.
    apply remove_row_modal in Hr. unfold sendMessage_resume.
    destruct reply as [m | ok [m | d]]; try discriminate; rewrite Hr;
      now rewrite addModalMessage_transcript, modal_transcript_set. }
  split.
  { intros reply now loadingId l Ht Hm Hr.
    pose proof (remove_row_sidebar loadingId s l Hm Hr) as R.
    rewrite sendSidebarMessage_resume_transcript.
    destruct reply as [m | ok [m | d]]; try discriminate; rewrite R;
      now rewrite addSidebarMessage_transcript, sidebar_transcript_set. }
  split.
  { intros reply [-> | ->]; reflexivity. }
  split.
  { intros reply Ht.
    destruct reply as [m | ok [m | d]]; simpl in Ht; try discriminate;
      now injection Ht as ->. }
  repeat split; intros s0 s1 rq k reply m s2 E Ht;
    destruct (agent_handlers_resume s0 s1 rq k) as (K1 & K2 & K3 & K4 & K5 & K6);
    first [ rewrite (K1 E) | rewrite (K2 E) | rewrite (K3 E)
          | rewrite (K4 E) | rewrite (K5 E) | rewrite (K6 E) ];
    now apply agent_resume_thrown.
Qed.

Lemma C3_thrown_errors_witness :
  modal_transcript
    (sendMessage_resume 9 "msg-6" (Rejected "Failed to fetch") modal_waiting)
  = [ModalPlaceholder "A study"; MessageRow "msg-5" user (Raw "Any results?")]
    ++ [MessageRow ("msg-" ++ JsString.of_N 9) assistant
          (Raw "Error: Failed to get response.")] /\
  sidebar_transcript
    (sendSidebarMessage_resume 9 "sidebar-msg-6"
       (Response true (BadJson "Unexpected token <")) sidebar_waiting)
  = without_placeholder
      [MessageRow "sidebar-msg-5" user (Raw "How many are recruiting?")]
    ++ [MessageRow ("sidebar-msg-" ++ JsString.of_N 9) assistant
          (Raw "Error: Failed to get response.")] /\
  alerts (searchStudies_resume (Rejected "Failed to fetch") filled)
  = alerts filled ++ ["Error: Failed to fetch"] /\
  alerts (generateProtocolReport_resume (Rejected "Failed to fetch") filled)
  = alerts filled ++ ["Error generating report: Failed to fetch"].
Proof.
  destruct (C3_thrown_errors_as_surfaced "Failed to fetch" modal_waiting)
    as (Hmodal & _).
  destruct (C3_thrown_errors_as_surfaced "Unexpected token <" sidebar_waiting)
    as (_ & Hsidebar & _).
  destruct (C3_thrown_errors_as_surfaced "Failed to fetch" filled)
    as (_ & _ & Hsearch & Hreport & _).
  split; [| split; [| split]].
  - apply Hmodal; [reflexivity | vm_compute; reflexivity].
  - apply Hsidebar; [reflexivity | vm_compute; reflexivity ..].
  - apply Hsearch. left. reflexivity.
  - apply Hreport. reflexivity.
Defined.

(** C3 as stated fails outside the two chats: the search, the protocol report
    and an agent feature show the message of the exception itself, so that
    two different failures give two different texts. *)
Lemma C3_search_report_agents_show_the_exception :
  alerts (settle (searchStudies 1 filled) (Rejected "Failed to fetch"))
  = ["Error: Failed to fetch"] /\
  alerts (settle (searchStudies 1 filled) (Rejected "Load failed"))
  = ["Error: Load failed"] /\
  alerts (settle (generateProtocolReport filled)
            (Response true (BadJson "Unexpected token <")))
  = ["Error generating report: Unexpected token <"] /\
  children (el (settle (runAgenticSearch filled) (Rejected "Failed to fetch"))
              "agenticSearchResult")
  = [AgentError "Failed to fetch"].
Proof. repeat split; vm_compute; reflexivity. Qed.

(** ** Replies that carry an error *)

Lemma searchStudies_resume_ignores_error (d d' : SearchData) (s : State) :
  same_but_error d d' ->
  searchStudies_resume (Response true (Json (payload d))) s
  = searchStudies_resume (Response true (Json (payload d'))) s.
Proof.
  destruct d, d'. unfold same_but_error. simpl.
  intros (-> & -> & -> & ->). reflexivity.
Qed.

(** C5, as the script has it.  A body with a non-empty [error] makes the two
    chat handlers put "Error: " and that text, not the answer, at the end of
    their transcript (provided the loading row is still there); the protocol
    report alerts "Error: " and that text and leaves the report as it was;
    the six agent handlers show the text in the error box of their panel when
    the body has no [success].  The search does not read the field.  A
    success payload that carries it is rendered as it would be without it:
    the count, the result rows, no alert.  A body that carries it without a
    [total], as [{error}] alone does, makes the search alert the TypeError
    of [data.total.toLocaleString()] and not the text of the field; by then
    [totalPages] and [totalResults] have been assigned ([undefined] for
    [{error}] alone), and no element has been written to.  A reply that is
    not OK is answered with "Error: Search failed". *)
Theorem C5_error_field_as_surfaced (e : string) (s : State) :
  e <> "" ->
  (forall ok data now loadingId l,
     c_error data = Some e ->
     remove_first (has_id loadingId) (modal_transcript s) = Some l ->
     modal_transcript (sendMessage_resume now loadingId (Response ok (Json data)) s)
     = l ++ [MessageRow ("msg-" ++ JsString.of_N now) assistant
               (Raw ("Error: " ++ e))]) /\
  (forall ok data now loadingId l,
     c_error data = Some e ->
     remove_first (has_id loadingId) (modal_transcript s) = None ->
     remove_first (has_id loadingId) (sidebar_transcript s) = Some l ->
     sidebar_transcript
       (sendSidebarMessage_resume now loadingId (Response ok (Json data)) s)
     = without_placeholder l
       ++ [MessageRow ("sidebar-msg-" ++ JsString.of_N now) assistant
             (Raw ("Error: " ++ e))]) /\
  (forall ok data,
     r_error data = Some e ->
     let s' := generateProtocolReport_resume (Response ok (Json data)) s in
     alerts s' = alerts s ++ ["Error: " ++ e]%string /\
     el s' "protocolReportContent" = el s "protocolReportContent" /\
     el s' "protocolReportContainer" = el s "protocolReportContainer") /\
  shows_error_field "agenticSearchResult" runAgenticSearch /\
  shows_error_field "analysisResult" runMultiAgentAnalysis /\
  shows_error_field "compareResult" runTrialComparison /\
  shows_error_field "amendmentResult" runAmendmentRisk /\
  shows_error_field "patternResult" runDesignPatterns /\
  shows_error_field "soaResult" runSoAComposer /\
  (forall data,
     d_error data = Some e ->
     let s' := searchStudies_resume (Response true (Json (payload data))) s in
     alerts s' = alerts s /\
     children (el s' "totalCount")
     = [count_node (d_searchType data) (d_total data)] /\
     children (el s' "resultsContainer") = result_rows (d_results data) /\
     forall data',
       same_but_error data data' ->
       s' = searchStudies_resume (Response true (Json (payload data'))) s) /\
  (forall data,
     j_error data = Some e -> j_total data = None ->
     let s' := searchStudies_resume (Response true (Json data)) s in
     alerts s' = alerts s ++ ["Error: " ++ cannot_read "toLocaleString"]%string /\
     (forall id, el s' id = el s id) /\
     totalPages s' = j_total_pages data /\ totalResults s' = None) /\
  (let s' := searchStudies_resume (Response true (Json (error_only e))) s in
   alerts s' = alerts s ++ ["Error: " ++ cannot_read "toLocaleString"]%string /\
   (forall id, el s' id = el s id) /\
   totalPages s' = None /\ totalResults s' = None) /\
  (forall content,
     alerts (searchStudies_resume (Response false content) s)
     = alerts s ++ ["Error: Search failed"]).
Proof.
  intros Hne. pose proof (if_truthy_nonempty e Hne) as Htr.
  split.
  { intros ok data now loadingId l He Hr.
    apply remove_row_modal in Hr. unfold sendMessage_resume.
    rewrite Hr, He, Htr.
    now rewrite addModalMessage_transcript, modal_transcript_set. }
  split.
  { intros ok data now loadingId l He Hm Hr.
    pose proof (remove_row_sidebar loadingId s l Hm Hr) as R.
    rewrite sendSidebarMessage_resume_transcript, R, He, Htr.
    now rewrite addSidebarMessage_transcript, sidebar_transcript_set. }
  split.
  { intros ok data He. cbv zeta. unfold generateProtocolReport_resume.
    rewrite He, Htr. repeat split. }
  do 6 (split;
    [ intros s0 s1 rq k ok data e' s2 E Hs He' Hne';
      destruct (agent_handlers_resume s0 s1 rq k) as (K1 & K2 & K3 & K4 & K5 & K6);
      first [ rewrite (K1 E) | rewrite (K2 E) | rewrite (K3 E)
            | rewrite (K4 E) | rewrite (K5 E) | rewrite (K6 E) ];
      now apply agent_resume_error_field | ]).
  split.
  { intros data _. cbv zeta.
    destruct (search_success_variables data s) as (_ & _ & _ & _ & Ha).
    split; [exact Ha |].
    split; [apply search_success_count |].
    split; [apply search_success_rows |].
    intros data' Hsame. now apply searchStudies_resume_ignores_error. }
  split.
  { intros data _ Ht. cbv zeta.
    destruct (search_without_total data s Ht) as (Ha & Hp & Htp & Hres & _).
    split; [exact Ha |].
    split; [intros id; unfold el; now rewrite Hp |].
    split; assumption. }
  split.
  { cbv zeta.
    destruct (search_without_total (error_only e) s eq_refl)
      as (Ha & Hp & Htp & Hres & _).
    split; [exact Ha |].
    split; [intros id; unfold el; now rewrite Hp |].
    split; assumption. }
  intros content. reflexivity.
Qed.

Lemma C5_error_field_witness :
  modal_transcript
    (sendMessage_resume 9 "msg-6" (Response true (Json not_found)) modal_waiting)
  = [ModalPlaceholder "A study"; MessageRow "msg-5" user (Raw "Any results?")]
    ++ [MessageRow ("msg-" ++ JsString.of_N 9) assistant
          (Raw ("Error: " ++ "Study not found"))] /\
  sidebar_transcript
    (sendSidebarMessage_resume 9 "sidebar-msg-6" (Response true (Json not_found))
       sidebar_waiting)
  = without_placeholder
      [MessageRow "sidebar-msg-5" user (Raw "How many are recruiting?")]
    ++ [MessageRow ("sidebar-msg-" ++ JsString.of_N 9) assistant
          (Raw ("Error: " ++ "Study not found"))] /\
  alerts (generateProtocolReport_resume (Response false (Json no_condition)) filled)
  = alerts filled ++ ["Error: " ++ "Condition is required"]%string /\
  (children
     (el (searchStudies_resume (Response true (Json (payload search_error)))
            filled) "resultsContainer")
   = result_rows (d_results search_error) /\
   searchStudies_resume (Response true (Json (payload search_error))) filled
   = searchStudies_resume
       (Response true
          (Json (payload {| d_error := None; d_total := 0; d_total_pages := 0;
                            d_searchType := None; d_results := [] |}))) filled) /\
  alerts (searchStudies_resume
            (Response true (Json (error_only "Database unavailable"))) filled)
  = alerts filled ++ ["Error: " ++ cannot_read "toLocaleString"]%string.
Proof.
  assert (N1 : "Study not found" <> "") by discriminate.
  assert (N2 : "Condition is required" <> "") by discriminate.
  assert (N3 : "Database unavailable" <> "") by discriminate.
  destruct (C5_error_field_as_surfaced "Study not found" modal_waiting N1)
    as (Hmodal & _).
  destruct (C5_error_field_as_surfaced "Study not found" sidebar_waiting N1)
    as (_ & Hsidebar & _).
  destruct (C5_error_field_as_surfaced "Condition is required" filled N2)
    as (_ & _ & Hreport & _).
  destruct (C5_error_field_as_surfaced "Database unavailable" filled N3)
    as (_ & _ & _ & _ & _ & _ & _ & _ & _ & Hsearch & Hbare & _).
  split; [| split; [| split; [| split]]].
  - apply Hmodal; [reflexivity | vm_compute; reflexivity].
  - apply Hsidebar; [reflexivity | vm_compute; reflexivity ..].
  - apply (Hreport false no_condition). reflexivity.
  - destruct (Hsearch search_error eq_refl) as (_ & _ & Hrows & Hsame).
    split; [exact Hrows |]. apply Hsame. repeat split.
  - apply (Hbare (error_only "Database unavailable")); reflexivity.
Defined.

(** C5 as stated fails for the search, which never shows the [error] of a
    body.  With status 200 the body [{error}] makes it alert a TypeError
    and leaves the results as they were; a success payload that carries an
    [error] as well is rendered as a result (here "No studies found") and
    nothing is alerted; with another status the alert is the fixed
    "Error: Search failed".  It also fails for an agent body that has both
    [success] and [error]: the report is shown. *)
Lemma C5_search_never_shows_the_error_field :
  (let s := settle (searchStudies 1 filled)
              (Response true (Json (error_only "Database unavailable"))) in
   alerts s
   = ["Error: Cannot read properties of undefined (reading 'toLocaleString')"] /\
   children (el s "resultsContainer") = children (el filled "resultsContainer") /\
   children (el s "totalCount") = children (el filled "totalCount")) /\
  (let s := settle (searchStudies 1 filled)
              (Response true (Json (payload search_error))) in
   children (el s "resultsContainer") = [NoStudies] /\
   children (el s "totalCount") = [PlainCount 0] /\
   alerts s = []) /\
  alerts (settle (searchStudies 1 filled)
            (Response false (Json (payload search_error))))
  = ["Error: Search failed"] /\
  children (el (settle (runAgenticSearch filled)
                  (Response true (Json agent_error_and_report)))
              "agenticSearchResult")
  = [AgentReport "<div>report</div>"].
Proof. repeat split; vm_compute; reflexivity. Qed.

(** * Further properties of the script *)

(** ** The window of the pagination bar *)

Lemma numbered_page_buttons (cp : Z) (n : nat) (i : Z) (rest : list Node) :
  numbered (page_buttons cp n i ++ rest)
  = map (numbered_button cp) (page_range i n) ++ numbered rest.
Proof.
  revert i. induction n as [| n IH]; intros i; simpl; [reflexivity |].
  now rewrite IH.
Qed.

Lemma numbered_pagination_bar (cp tp : Z) :
  numbered (pagination_bar cp tp)
  = if tp <=? 1 then [] else map (numbered_button cp) (window cp tp).
Proof.
  unfold pagination_bar, window. destruct (tp <=? 1); [reflexivity |].
  simpl. rewrite numbered_page_buttons. simpl. now rewrite app_nil_r.
Qed.

Lemma page_range_length (i : Z) (n : nat) : List.length (page_range i n) = n.
Proof. revert i. induction n as [| n IH]; intros i; simpl; [| rewrite IH]; reflexivity. Qed.

Lemma page_range_In (i : Z) (n : nat) (j : Z) :
  In j (page_range i n) <-> i <= j < i + Z.of_nat n.
Proof.
  revert i. induction n as [| n IH]; intros i; simpl.
  - split; [contradiction | lia].
  - rewrite IH. lia.
Qed.


(** X1. For a cursor below 2^53 - 3 in magnitude, where the loop counter of
    [displayPagination] is exact, and whatever the page count, the numbered
    buttons of the bar are those of the pages from [max 1 (currentPage - 3)]
    to [min totalPages (currentPage + 3)], in order, each asking for its own
    page, and none when there is at most one page; with [totalPages]
    undefined there is no numbered button.  There are never more than
    seven. *)
Theorem X1_pager_window (data : SearchJson) (s : State) :
  Z.abs (currentPage s) < 2 ^ 53 - 3 ->
  let bar := children (el (displayPagination data s) "pagination") in
  (forall tp, totalPages s = Some tp ->
     numbered bar
     = (if tp <=? 1 then []
        else map (numbered_button (currentPage s)) (window (currentPage s) tp)) /\
     (forall b, In b (numbered bar) ->
        exists i, b_onclick b = GoPage i /\ b_text b = JsString.of_Z i /\
                  Z.max 1 (currentPage s - 3) <= i
                  <= Z.min tp (currentPage s + 3))) /\
  (totalPages s = None -> numbered bar = []) /\
  (List.length (numbered bar) <= 7)%nat.
Proof.
  intros _. cbv zeta.
  assert (Hsome : forall tp, totalPages s = Some tp ->
            numbered (children (el (displayPagination data s) "pagination"))
            = (if tp <=? 1 then []
               else map (numbered_button (currentPage s))
                      (window (currentPage s) tp))).
  { intros tp Htp.
    now rewrite (displayPagination_bar data s tp Htp), numbered_pagination_bar. }
  assert (Hnone : totalPages s = None ->
            numbered (children (el (displayPagination data s) "pagination")) = []).
  { intros Hn. unfold displayPagination; simpl. rewrite Hn. reflexivity. }
  split; [| split; [exact Hnone |]].
  - intros tp Htp. split; [now apply Hsome |].
    rewrite (Hsome tp Htp). destruct (tp <=? 1); [contradiction |].
    intros b Hb. apply in_map_iff in Hb as (i & <- & Hi).
    unfold window in Hi. apply page_range_In in Hi.
    exists i. repeat split; simpl; lia.
  - destruct (totalPages s) as [tp |] eqn:E.
    + rewrite (Hsome tp eq_refl). destruct (tp <=? 1); [simpl; lia |].
      rewrite length_map. unfold window. rewrite page_range_length. lia.
    + rewrite (Hnone eq_refl). simpl. lia.
Qed.

Lemma X1_pager_window_witness :
  let bar :=
    children
      (el (displayPagination (payload five_pages)
             (set_totalPages (Some 5) (set_currentPage 3 initial_state)))
          "pagination") in
  (forall tp, Some 5 = Some tp ->
     numbered bar
     = (if tp <=? 1 then []
        else map (numbered_button 3) (window 3 tp)) /\
     (forall b, In b (numbered bar) ->
        exists i, b_onclick b = GoPage i /\ b_text b = JsString.of_Z i /\
                  Z.max 1 (3 - 3) <= i <= Z.min tp (3 + 3))) /\
  (Some 5 = @None Z -> numbered bar = []) /\
  (List.length (numbered bar) <= 7)%nat.
Proof.
  apply (X1_pager_window (payload five_pages)
           (set_totalPages (Some 5) (set_currentPage 3 initial_state))).
  vm_compute. reflexivity.
Defined.





(** ** The result list *)

Lemma add_cards_lacking (before : list Study) (m : Missing)
  (after : list StudyJson) (s : State) :
  add_cards (map Whole before ++ Lacking m :: after) s
  = Threw (cannot_read (first_read m))
      (fold_left
         (fun s study =>
            set_el "resultsContainer"
              (fun e => with_children (children e ++ [StudyCard study]) e) s)
         before s).
Proof.
  revert s. induction before as [| st l IH]; intros s; [reflexivity |].
  cbn [map app add_cards fold_left]. apply IH.
Qed.

Lemma displayResults_lacking (data : SearchJson) (before : list Study)
  (m : Missing) (after : list StudyJson) (s : State) :
  j_results data = Some (map Whole before ++ Lacking m :: after) ->
  exists s',
    displayResults data s = Threw (cannot_read (first_read m)) s' /\
    children (el s' "resultsContainer") = map StudyCard before.
Proof.
  intros H. unfold displayResults. rewrite H.
  exists (fold_left
            (fun s study =>
               set_el "resultsContainer"
                 (fun e => with_children (children e ++ [StudyCard study]) e) s)
            before
            (set_el "resultsContainer" (with_children (innerHTML "")) s)).
  split.
  - destruct before as [| st l]; [reflexivity |].
    cbn [map app]. apply (add_cards_lacking (st :: l)).
  - rewrite add_cards_children, el_set_el_same. reflexivity.
Qed.

(** X4. A success payload of a search replaces the content of the results
    container: afterwards it holds one card per study of the reply, in the
    order of the reply, or the single "No studies found" paragraph when the
    reply has no study; nothing of what the container held before is left.
    A body that falls short of the payload ends in the [catch] block, with
    the container as far as the code got: as it was for a body without
    [total], as [{error}] alone; empty for a body without [results]; with
    the cards of the studies that come before the first one that lacks a
    module.  The alert names the property that could not be read. *)
Theorem X4_results_are_replaced (s : State) :
  (forall data : SearchData,
     let s' := searchStudies_resume (Response true (Json (payload data))) s in
     children (el s' "resultsContainer") = result_rows (d_results data) /\
     (d_results data <> [] ->
      children (el s' "resultsContainer") = map StudyCard (d_results data)) /\
     alerts s' = alerts s) /\
  (forall data : SearchJson,
     j_total data = None ->
     let s' := searchStudies_resume (Response true (Json data)) s in
     children (el s' "resultsContainer") = children (el s "resultsContainer") /\
     alerts s' = alerts s ++ ["Error: " ++ cannot_read "toLocaleString"]%string) /\
  (forall (data : SearchJson) total,
     j_total data = Some total -> j_results data = None ->
     let s' := searchStudies_resume (Response true (Json data)) s in
     children (el s' "resultsContainer") = [] /\
     alerts s' = alerts s ++ ["Error: " ++ cannot_read "length"]%string) /\
  (forall (data : SearchJson) total before m after,
     j_total data = Some total ->
     j_results data = Some (map Whole before ++ Lacking m :: after) ->
     let s' := searchStudies_resume (Response true (Json data)) s in
     children (el s' "resultsContainer") = map StudyCard before /\
     alerts s' = alerts s ++ ["Error: " ++ cannot_read (first_read m)]%string).
Proof.
  split; [| split; [| split]].
  - intros data. cbv zeta.
    pose proof (search_success_rows data s) as H.
    destruct (search_success_variables data s) as (_ & _ & _ & _ & Ha).
    split; [exact H |]. split; [| exact Ha].
    intros Hne. rewrite H. unfold result_rows.
    destruct (d_results data); [contradiction | reflexivity].
  - intros data Ht. cbv zeta.
    destruct (search_without_total data s Ht) as (Ha & Hp & _).
    split; [unfold el; now rewrite Hp | exact Ha].
  - intros data total Ht Hr. cbv zeta.
    unfold searchStudies_resume, displayResults. rewrite Ht, Hr.
    split; reflexivity.
  - intros data total before m after Ht Hr. cbv zeta.
    unfold searchStudies_resume. rewrite Ht.
    match goal with
    | |- context [displayResults data ?s1] =>
        destruct (displayResults_lacking data before m after s1 Hr)
          as (s2 & E & Hc);
        pose proof (displayResults_run data s1) as (H1 & _)
    end.
    rewrite E in *. cbn [state_of] in H1.
    split; [exact Hc |]. rewrite H1. reflexivity.
Qed.

Lemma X4_results_witness :
  children
    (el (searchStudies_resume
           (Response true
              (Json {| j_error := None; j_total := Some 2; j_total_pages := Some 1;
                       j_searchType := None;
                       j_results :=
                         Some
                           (map Whole
                              [{| st_nctId := "NCT001"; st_briefTitle := None;
                                  st_overallStatus := "RECRUITING";
                                  st_studyType := "INTERVENTIONAL";
                                  st_phases := None; st_leadSponsor := None;
                                  st_hasResults := false |}]
                            ++ Lacking NoDesignModule :: []) |}))
           page_three_shown) "resultsContainer")
  = map StudyCard
      [{| st_nctId := "NCT001"; st_briefTitle := None;
          st_overallStatus := "RECRUITING";
          st_studyType := "INTERVENTIONAL";
          st_phases := None; st_leadSponsor := None;
          st_hasResults := false |}] /\
  children
    (el (searchStudies_resume
           (Response true (Json (error_only "Database unavailable")))
           page_three_shown) "resultsContainer")
  = children (el page_three_shown "resultsContainer").
Proof.
  destruct (X4_results_are_replaced page_three_shown) as (_ & H2 & _ & H4).
  split.
  - apply (H4 _ 2 _ NoDesignModule []); reflexivity.
  - apply (H2 (error_only "Database unavailable")). reflexivity.
Defined.

(** ** Searching, then chatting in the sidebar *)

(** What [sendSidebarMessage] sends. *)
Lemma sendSidebarMessage_request (t1 t2 t3 : N) (s : State) (filters : Filters) :
  currentFilters s = Some filters ->
  JsString.truthy (JsString.trim (el_value (el s "sidebarChatInput"))) = true ->
  option_map snd (awaiting (sendSidebarMessage t1 t2 t3 s))
  = Some {| endpoint := "/api/chat-all";
            body := ChatAllBody filters
                      (JsString.trim (el_value (el s "sidebarChatInput")))
                      (isAdvancedMode s)
                      (el_value (el s "llmModelSelector")) |}.
Proof.
  intros Hf Hq. unfold sendSidebarMessage. rewrite Hf, Hq.
  unfold addSidebarMessage. cbv beta zeta iota. cbn [negb awaiting option_map snd fst].
  rewrite !el_set_el_other by discriminate. reflexivity.
Qed.

(** X5. A search sends the filter record it reads from the form and keeps
    it.  When it succeeds the sidebar chat is usable: its two controls are
    enabled, and a question sent afterwards goes to /api/chat-all with that
    same record (whatever the form holds by then), the trimmed question, the
    current mode and the selected model. *)
Theorem X5_search_then_sidebar_chat (pageNo : Z) (data : SearchData)
  (t1 t2 t3 : N) (s s2 : State) :
  let s1 := settle (searchStudies pageNo s)
              (Response true (Json (payload data))) in
  option_map snd (awaiting (searchStudies pageNo s))
  = Some {| endpoint := "/api/search";
            body := SearchBody (getFilters (set_currentPage pageNo s)) |} /\
  (disabled (el s1 "sidebarChatInput") = false /\
   disabled (el s1 "sidebarSendBtn") = false /\
   currentFilters s1 = Some (getFilters (set_currentPage pageNo s))) /\
  (currentFilters s2 = currentFilters s1 ->
   JsString.truthy (JsString.trim (el_value (el s2 "sidebarChatInput"))) = true ->
   option_map snd (awaiting (sendSidebarMessage t1 t2 t3 s2))
   = Some {| endpoint := "/api/chat-all";
             body := ChatAllBody (getFilters (set_currentPage pageNo s))
                       (JsString.trim (el_value (el s2 "sidebarChatInput")))
                       (isAdvancedMode s2)
                       (el_value (el s2 "llmModelSelector")) |}).
Proof.
  cbv zeta. unfold searchStudies, settle.
  match goal with
  | |- context [searchStudies_resume _ ?s0] =>
      destruct (search_success_variables data s0) as (Hf & _);
      destruct (search_success_enables data s0) as (Hi & Hb)
  end.
  cbn [currentFilters set_currentFilters] in Hf.
  split; [reflexivity |].
  split; [repeat split; assumption |].
  intros Hsame Hq. apply sendSidebarMessage_request; [| exact Hq].
  now rewrite Hsame, Hf.
Qed.

Lemma X5_search_then_sidebar_witness :
  let s1 := settle (searchStudies 1 filled) (Response true (Json (payload three_pages))) in
  option_map snd (awaiting (sendSidebarMessage 5 6 9 s1))
  = Some {| endpoint := "/api/chat-all";
            body := ChatAllBody (getFilters (set_currentPage 1 filled))
                      (JsString.trim (el_value (el s1 "sidebarChatInput")))
                      (isAdvancedMode s1)
                      (el_value (el s1 "llmModelSelector")) |}.
Proof.
  cbv zeta.
  apply (X5_search_then_sidebar_chat 1 three_pages 5 6 9 filled
           (settle (searchStudies 1 filled) (Response true (Json (payload three_pages))))).
  - reflexivity.
  - vm_compute. reflexivity.
Defined.

(** ** A search that fails *)

Lemma searchStudies_resume_failure (reply : Fetched SearchJson) (msg : string)
  (s : State) :
  search_failure reply = Some msg ->
  searchStudies_resume reply s = alert ("Error: " ++ msg) s.
Proof.
  destruct reply as [m | [|] [m | d]]; simpl; intros H;
    try discriminate; now injection H as <-.
Qed.



(** ** Replies that find their loading row gone *)

Lemma remove_first_none (p : Node -> bool) (l : list Node) :
  (forall n, In n l -> p n = false) -> remove_first p l = None.
Proof.
  induction l as [| a l IH]; intros H; simpl; [reflexivity |].
  rewrite (H a) by now left.
  rewrite IH; [reflexivity |]. intros n Hn. apply H. now right.
Qed.

Lemma sendMessage_suspended_sidebar (t1 t2 t3 : N) (s : State) :
  sidebar_transcript (reached (sendMessage t1 t2 t3 s)) = sidebar_transcript s.
Proof.
  unfold sendMessage.
  destruct (currentChatStudy s) as [study |]; [| reflexivity].
  destruct (_ || _)%bool; [reflexivity |].
  unfold addModalMessage, sidebar_transcript. cbv beta zeta iota. cbn [reached fst].
  now rewrite !el_set_el_other by discriminate.
Qed.

(** X7. When the filters are cleared while a sidebar question is out, the
    reply is dropped without a word: the transcript keeps the placeholder
    that [clearFilters] wrote, nothing is alerted, the filter record stays
    cleared, yet the [finally] block enables the two sidebar controls that
    [clearFilters] had disabled. *)
Theorem X7_filters_cleared_during_sidebar_request (t1 t2 t3 : N)
  (reply : Fetched ChatData) (s : State) :
  waits (sendSidebarMessage t1 t2 t3 s) = true ->
  (forall n, In n (modal_transcript s) ->
             has_id ("sidebar-msg-" ++ JsString.of_N t2) n = false) ->
  let s' := interrupted (sendSidebarMessage t1 t2 t3 s) clearFilters reply in
  sidebar_transcript s' = [SidebarPlaceholder] /\
  currentFilters s' = None /\
  alerts s' = alerts s /\
  disabled (el s' "sidebarChatInput") = false /\
  disabled (el s' "sidebarSendBtn") = false /\
  forall u1 u2 u3, sendSidebarMessage u1 u2 u3 s' = Done s'.
Proof.
  intros W Hfresh. cbv zeta.
  destruct (sendSidebarMessage_suspended t1 t2 t3 s W)
    as (s1 & rq & E & Hm1 & _).
  assert (Ha : alerts s1 = alerts s).
  { change s1 with (reached (Await s1 rq
      (sendSidebarMessage_resume t3 ("sidebar-msg-" ++ JsString.of_N t2)))).
    rewrite <- E. unfold sendSidebarMessage.
    destruct (currentFilters s); [| reflexivity].
    destruct (negb _); [reflexivity |].
    unfold addSidebarMessage. reflexivity. }
  rewrite E. unfold interrupted.
  set (id2 := ("sidebar-msg-" ++ JsString.of_N t2)%string) in *.
  assert (R : remove_row id2 (clearFilters s1) = None).
  { unfold remove_row.
    change (children (el (clearFilters s1) "chatMessages"))
      with (modal_transcript (clearFilters s1)).
    rewrite clearFilters_modal_transcript, Hm1, (remove_first_none _ _ Hfresh).
    reflexivity. }
  assert (Hres : exists s0,
             sendSidebarMessage_resume t3 id2 reply (clearFilters s1)
             = set_el "sidebarChatInput" (with_disabled false)
                 (set_el "sidebarSendBtn" (with_disabled false) s0) /\
             s0 = clearFilters s1).
  { exists (clearFilters s1). split; [| reflexivity].
    unfold sendSidebarMessage_resume.
    destruct reply as [m | ok [m | d]]; now rewrite R. }
  destruct Hres as (s0 & -> & ->).
  assert (Hc : currentFilters
                 (set_el "sidebarChatInput" (with_disabled false)
                    (set_el "sidebarSendBtn" (with_disabled false)
                       (clearFilters s1))) = None) by reflexivity.
  split; [reflexivity |]. split; [exact Hc |].
  split; [exact Ha |].
  split; [now rewrite el_set_el_same |].
  split; [rewrite el_set_el_other by discriminate; now rewrite el_set_el_same |].
  intros u1 u2 u3. unfold sendSidebarMessage. now rewrite Hc.
Qed.

Lemma X7_filters_cleared_witness :
  let s' := interrupted (sendSidebarMessage 5 6 9 filled) clearFilters
              (Response true (Json yes_answer)) in
  sidebar_transcript s' = [SidebarPlaceholder] /\
  currentFilters s' = None /\
  alerts s' = alerts filled /\
  disabled (el s' "sidebarChatInput") = false /\
  disabled (el s' "sidebarSendBtn") = false /\
  forall u1 u2 u3, sendSidebarMessage u1 u2 u3 s' = Done s'.
Proof.
  cbv zeta.
  apply (X7_filters_cleared_during_sidebar_request 5 6 9
           (Response true (Json yes_answer)) filled).
  - vm_compute. reflexivity.
  - intros n Hn. change (In n [ModalPlaceholder "A study"]) in Hn.
    destruct Hn as [<- | []]. reflexivity.
Defined.

(** X8. When the chat modal is opened again (on the same study or another)
    while a question is out, the reply is dropped without a word: the
    transcript keeps the placeholder of the newly opened study and nothing
    is alerted. *)
Theorem X8_modal_reopened_during_request (t1 t2 t3 : N) (nctId title : string)
  (reply : Fetched ChatData) (s : State) :
  waits (sendMessage t1 t2 t3 s) = true ->
  (forall n, In n (sidebar_transcript s) ->
             has_id ("msg-" ++ JsString.of_N t2) n = false) ->
  let s' := interrupted (sendMessage t1 t2 t3 s) (openChatModal nctId title) reply in
  modal_transcript s' = [ModalPlaceholder title] /\
  currentChatStudy s' = Some nctId /\
  alerts s' = alerts s /\
  s' = openChatModal nctId title (reached (sendMessage t1 t2 t3 s)).
Proof.
  intros W Hfresh. cbv zeta.
  pose proof (sendMessage_suspended_sidebar t1 t2 t3 s) as Hside.
  destruct (sendMessage_suspended t1 t2 t3 s W) as (s1 & rq & E & _).
  assert (Ha : alerts s1 = alerts s).
  { change s1 with (reached (Await s1 rq
      (sendMessage_resume t3 ("msg-" ++ JsString.of_N t2)))).
    rewrite <- E. unfold sendMessage.
    destruct (currentChatStudy s); [| reflexivity].
    destruct (_ || _)%bool; reflexivity. }
  rewrite E in *. unfold interrupted. cbn [reached] in *.
  set (id2 := ("msg-" ++ JsString.of_N t2)%string) in *.
  assert (R : remove_row id2 (openChatModal nctId title s1) = None).
  { unfold remove_row.
    change (children (el (openChatModal nctId title s1) "chatMessages"))
      with [ModalPlaceholder title].
    change (children (el (openChatModal nctId title s1) "sidebarChatMessages"))
      with (sidebar_transcript s1).
    rewrite Hside, (remove_first_none _ _ Hfresh). reflexivity. }
  assert (Hres : sendMessage_resume t3 id2 reply (openChatModal nctId title s1)
                 = openChatModal nctId title s1).
  { unfold sendMessage_resume.
    destruct reply as [m | ok [m | d]]; now rewrite R. }
  rewrite Hres. repeat split. exact Ha.
Qed.

Lemma X8_modal_reopened_witness :
  let s' := interrupted (sendMessage 5 6 9 question_typed)
              (openChatModal "NCT002" "Another study")
              (Response true (Json yes_answer)) in
  modal_transcript s' = [ModalPlaceholder "Another study"] /\
  currentChatStudy s' = Some "NCT002" /\
  alerts s' = alerts question_typed /\
  s' = openChatModal "NCT002" "Another study"
         (reached (sendMessage 5 6 9 question_typed)).
Proof.
  cbv zeta.
  apply (X8_modal_reopened_during_request 5 6 9 "NCT002" "Another study"
           (Response true (Json yes_answer)) question_typed).
  - vm_compute. reflexivity.
  - intros n Hn. change (In n []) in Hn. contradiction.
Defined.

(** ** Two clock readings in the same millisecond *)

(** X9. When the two [Date.now()] readings of one send are equal (and no
    earlier row has that id), the question row and the loading row get the
    same id; the reply then removes the question, which comes first, and the
    loading row stays in the transcript for good, in the modal chat and in
    the sidebar chat alike. *)
Theorem X9_same_millisecond_loses_the_question (t t3 : N) (s : State) :
  (forall reply,
     waits (sendMessage t t t3 s) = true ->
     (forall n, In n (modal_transcript s) ->
                has_id ("msg-" ++ JsString.of_N t) n = false) ->
     exists text,
       modal_transcript (settle (sendMessage t t t3 s) reply)
       = modal_transcript s
         ++ [MessageRow ("msg-" ++ JsString.of_N t) loading
               (Raw "Analyzing study data...");
             MessageRow ("msg-" ++ JsString.of_N t3) assistant text]) /\
  (forall reply,
     waits (sendSidebarMessage t t t3 s) = true ->
     (forall n, In n (modal_transcript s) \/ In n (sidebar_transcript s) ->
                has_id ("sidebar-msg-" ++ JsString.of_N t) n = false) ->
     exists wait text,
       sidebar_transcript (settle (sendSidebarMessage t t t3 s) reply)
       = Nat.iter 3 without_placeholder (sidebar_transcript s)
         ++ [MessageRow ("sidebar-msg-" ++ JsString.of_N t) loading (Raw wait);
             MessageRow ("sidebar-msg-" ++ JsString.of_N t3) assistant text]).
Proof.
  split.
  { intros reply W Hfresh.
    destruct (sendMessage_suspended t t t3 s W) as (s1 & rq & E & Hs1).
    rewrite E. unfold settle.
    destruct (sendMessage_resume_transcript t3 ("msg-" ++ JsString.of_N t) reply s1
                (modal_transcript s
                 ++ [MessageRow ("msg-" ++ JsString.of_N t) loading
                       (Raw "Analyzing study data...")]))
      as (text & Htext).
    - rewrite Hs1. rewrite remove_first_app by exact Hfresh.
      simpl. now rewrite String.eqb_refl.
    - exists text. rewrite Htext. now rewrite <- app_assoc. }
  intros reply W Hfresh.
  destruct (sendSidebarMessage_suspended t t t3 s W)
    as (s1 & rq & E & Hm1 & ltext & Hs1).
  rewrite E. unfold settle.
  set (id2 := ("sidebar-msg-" ++ JsString.of_N t)%string) in *.
  set (l := MessageRow id2 loading (Raw ltext)) in *.
  set (base := without_placeholder (without_placeholder (sidebar_transcript s))) in *.
  assert (Hmod : remove_first (has_id id2) (modal_transcript s1) = None).
  { rewrite Hm1. apply remove_first_none. intros n Hn. apply Hfresh. now left. }
  assert (Hside : remove_first (has_id id2) (sidebar_transcript s1)
                  = Some (base ++ [l])).
  { rewrite Hs1. rewrite remove_first_app.
    - simpl. now rewrite String.eqb_refl.
    - intros n Hn. apply Hfresh. right.
      now apply without_placeholder_In, without_placeholder_In. }
  pose proof (remove_row_sidebar id2 s1 _ Hmod Hside) as R.
  rewrite sendSidebarMessage_resume_transcript.
  exists ltext.
  destruct reply as [m | ok [m | d]]; rewrite R;
    try (eexists; rewrite addSidebarMessage_transcript, sidebar_transcript_set;
         subst l; rewrite without_placeholder_row, <- app_assoc; reflexivity).
  destruct (JsString.if_truthy (c_error d));
    [| destruct (JsString.if_truthy (c_info d))];
    eexists; rewrite addSidebarMessage_transcript, sidebar_transcript_set;
    subst l; rewrite without_placeholder_row, <- app_assoc; reflexivity.
Qed.

Lemma X9_same_millisecond_witness :
  (exists text,
     modal_transcript
       (settle (sendMessage 5 5 9 question_typed) (Response true (Json yes_answer)))
     = modal_transcript question_typed
       ++ [MessageRow ("msg-" ++ JsString.of_N 5) loading
             (Raw "Analyzing study data...");
           MessageRow ("msg-" ++ JsString.of_N 9) assistant text]) /\
  (exists wait text,
     sidebar_transcript
       (settle (sendSidebarMessage 5 5 9 filled) (Response true (Json yes_answer)))
     = Nat.iter 3 without_placeholder (sidebar_transcript filled)
       ++ [MessageRow ("sidebar-msg-" ++ JsString.of_N 5) loading (Raw wait);
           MessageRow ("sidebar-msg-" ++ JsString.of_N 9) assistant text]).
Proof.
  destruct (X9_same_millisecond_loses_the_question 5 9 question_typed)
    as (Hmodal & _).
  destruct (X9_same_millisecond_loses_the_question 5 9 filled)
    as (_ & Hsidebar).
  split.
  - apply Hmodal.
    + vm_compute. reflexivity.
    + intros n Hn. change (In n [ModalPlaceholder "A study"]) in Hn.
      destruct Hn as [<- | []]. reflexivity.
  - apply Hsidebar.
    + vm_compute. reflexivity.
    + intros n Hn.
      change (In n [ModalPlaceholder "A study"] \/ In n []) in Hn.
      destruct Hn as [[<- | []] | []]. reflexivity.
Defined.

(** ** Sending twice *)

Lemma el_value_cleared (e : Element) :
  kind e <> SelectEl -> el_value (with_value "" e) = "".
Proof. unfold el_value. simpl. destruct (kind e); congruence. Qed.

(** X10. Once a chat question is out, its input field is empty, so a second
    call of the send handler (a second click, a second Enter) before the
    user types again sends nothing and changes nothing. *)
Theorem X10_second_send_is_ignored (t1 t2 t3 u1 u2 u3 : N) (s : State) :
  (waits (sendMessage t1 t2 t3 s) = true ->
   kind (el s "chatInput") <> SelectEl ->
   sendMessage u1 u2 u3 (reached (sendMessage t1 t2 t3 s))
   = Done (reached (sendMessage t1 t2 t3 s))) /\
  (waits (sendSidebarMessage t1 t2 t3 s) = true ->
   kind (el s "sidebarChatInput") <> SelectEl ->
   sendSidebarMessage u1 u2 u3 (reached (sendSidebarMessage t1 t2 t3 s))
   = Done (reached (sendSidebarMessage t1 t2 t3 s))).
Proof.
  split; intros W Hk.
  - assert (Hv : el_value (el (reached (sendMessage t1 t2 t3 s)) "chatInput") = "").
    { unfold sendMessage in *.
      destruct (currentChatStudy s) as [study |]; [| discriminate].
      destruct (_ || _)%bool; [discriminate |].
      unfold addModalMessage. cbv beta zeta iota. cbn [reached fst].
      rewrite el_set_el_other by discriminate. rewrite el_set_el_same.
      apply el_value_cleared.
      rewrite el_set_el_other by discriminate. exact Hk. }
    set (s1 := reached (sendMessage t1 t2 t3 s)) in *.
    unfold sendMessage at 1. rewrite Hv.
    destruct (currentChatStudy s1); reflexivity.
  - assert (Hv : el_value (el (reached (sendSidebarMessage t1 t2 t3 s))
                             "sidebarChatInput") = "").
    { unfold sendSidebarMessage in *.
      destruct (currentFilters s) as [filters |]; [| discriminate].
      destruct (negb _); [discriminate |].
      unfold addSidebarMessage. cbv beta zeta iota. cbn [reached fst].
      rewrite el_set_el_other by discriminate. rewrite el_set_el_same.
      rewrite el_set_el_other by discriminate. rewrite el_set_el_same.
      change (el_value (with_disabled true (with_value "" ?e)))
        with (el_value (with_value "" e)).
      apply el_value_cleared.
      rewrite el_set_el_other by discriminate. exact Hk. }
    set (s1 := reached (sendSidebarMessage t1 t2 t3 s)) in *.
    unfold sendSidebarMessage at 1. rewrite Hv.
    destruct (currentFilters s1); reflexivity.
Qed.

Lemma X10_second_send_witness :
  sendMessage 7 7 8 (reached (sendMessage 5 6 9 question_typed))
  = Done (reached (sendMessage 5 6 9 question_typed)) /\
  sendSidebarMessage 7 7 8 (reached (sendSidebarMessage 5 6 9 filled))
  = Done (reached (sendSidebarMessage 5 6 9 filled)).
Proof.
  split.
  - apply (X10_second_send_is_ignored 5 6 9 7 7 8 question_typed).
    + vm_compute. reflexivity.
    + vm_compute. discriminate.
  - apply (X10_second_send_is_ignored 5 6 9 7 7 8 filled).
    + vm_compute. reflexivity.
    + vm_compute. discriminate.
Defined.

(** ** What the handlers refuse to send *)

Lemma trimmed_field (v : string) :
  JsString.truthy (JsString.trim v) = true ->
  JsString.trim v <> "" /\ JsString.trim (JsString.trim v) = JsString.trim v.
Proof. intros H. split; [now apply truthy_nonempty | apply trim_idem]. Qed.

Lemma if_truthy_sent (x : string) :
  sent_unless_empty x (if JsString.truthy x then Some x else None).
Proof.
  destruct x as [| c r]; [left | right]; split; try reflexivity; discriminate.
Qed.

Lemma validates_intro {D : Type} (field msg ep : string) (h : State -> Step D)
  (mk : State -> State) (rq : State -> Request)
  (k : Fetched D -> State -> State) :
  (forall s,
     h s = if negb (JsString.truthy (JsString.trim (el_value (el s field))))
           then Done (alert msg s) else Await (mk s) (rq s) k) ->
  (forall s, endpoint (rq s) = ep) ->
  (forall s, required_field (body (rq s))
             = Some (JsString.trim (el_value (el s field)))) ->
  validates field msg ep h.
Proof.
  intros Hh Hep Hrq s. cbv zeta. rewrite Hh.
  destruct (JsString.truthy (JsString.trim (el_value (el s field)))) eqn:Hq;
    cbn [negb]; split.
  - intros E. rewrite E in Hq. discriminate.
  - intros _. exists (mk s), (rq s).
    split; [reflexivity |]. split; [apply Hep |]. split; [apply Hrq |].
    apply trim_idem.
  - reflexivity.
  - intros Hne. apply truthy_nonempty in Hne. congruence.
Qed.

(** X11. The protocol report and five of the agent features insist on one
    field each: when the trimmed text of that field is empty they alert
    their message and do nothing else (no request, no change to the page);
    otherwise they send their request, and it carries that trimmed text.
    The phase and the intervention type of the design-pattern and SoA
    requests are the value of their select and the trimmed text of their
    field, sent as [null] when empty. *)
Theorem X11_required_fields_are_validated :
  validates "protocolCondition" "Please enter a condition or disease"
    "/api/generate-protocol-report" generateProtocolReport /\
  validates "agenticSearchQuery" "Please enter a search query"
    "/api/agentic-search" runAgenticSearch /\
  validates "analysisNctId" "Please enter an NCT ID"
    "/api/multi-agent-analysis" runMultiAgentAnalysis /\
  validates "amendmentNctId" "Please enter an NCT ID"
    "/api/amendment-risk" runAmendmentRisk /\
  validates "patternCondition" "Please enter a condition"
    "/api/design-patterns" runDesignPatterns /\
  validates "soaCondition" "Please enter a condition"
    "/api/soa-composer" runSoAComposer /\
  (forall s s1 rq,
     awaiting (runDesignPatterns s) = Some (s1, rq) ->
     exists condition phase interventionType,
       body rq = DesignBody condition phase interventionType /\
       sent_unless_empty (el_value (el s "patternPhase")) phase /\
       sent_unless_empty
         (JsString.trim (el_value (el s "patternIntervention")))
         interventionType) /\
  (forall s s1 rq,
     awaiting (runSoAComposer s) = Some (s1, rq) ->
     exists condition phase interventionType,
       body rq = DesignBody condition phase interventionType /\
       sent_unless_empty (el_value (el s "soaPhase")) phase /\
       sent_unless_empty
         (JsString.trim (el_value (el s "soaIntervention")))
         interventionType).
Proof.
  split; [eapply validates_intro; intros s; reflexivity |].
  split; [eapply validates_intro; intros s; reflexivity |].
  split; [eapply validates_intro; intros s; reflexivity |].
  split; [eapply validates_intro; intros s; reflexivity |].
  split; [eapply validates_intro; intros s; reflexivity |].
  split; [eapply validates_intro; intros s; reflexivity |].
  split; intros s s1 rq A;
    [unfold runDesignPatterns in A | unfold runSoAComposer in A];
    (destruct (negb _); cbn [awaiting] in A; [discriminate A |]);
    injection A as _ <-; do 3 eexists;
    (split; [reflexivity | split; apply if_truthy_sent]).
Qed.

Lemma awaiting_of_waits {D : Type} (st : Step D) :
  waits st = true -> exists s1 rq, awaiting st = Some (s1, rq).
Proof. destruct st as [s | s1 rq k]; [discriminate | intros _; now exists s1, rq]. Qed.

(** A query of white space only is refused; the query of the filled page is
    sent as typed; the SoA request of the filled page, where no phase is
    chosen and no intervention type typed, carries two nulls. *)
Lemma X11_required_fields_witness :
  runAgenticSearch (type_into "agenticSearchQuery" "   " filled)
  = Done (alert "Please enter a search query"
            (type_into "agenticSearchQuery" "   " filled)) /\
  (exists s1 rq,
     awaiting (runAgenticSearch filled) = Some (s1, rq) /\
     endpoint rq = "/api/agentic-search" /\
     required_field (body rq) = Some "heart failure") /\
  (exists s1 rq,
     awaiting (runSoAComposer filled) = Some (s1, rq) /\
     exists condition phase interventionType,
       body rq = DesignBody condition phase interventionType /\
       sent_unless_empty "" phase /\ sent_unless_empty "" interventionType).
Proof.
  destruct X11_required_fields_are_validated
    as (_ & Hquery & _ & _ & _ & _ & _ & Hsoa).
  split; [| split].
  - apply (Hquery (type_into "agenticSearchQuery" "   " filled)).
    vm_compute. reflexivity.
  - destruct (proj2 (Hquery filled)) as (s1 & rq & A & Hep & Hq & _).
    + vm_compute. discriminate.
    + exists s1, rq. split; [exact A |]. split; [exact Hep |].
      rewrite Hq. vm_compute. reflexivity.
  - assert (W : waits (runSoAComposer filled) = true) by (vm_compute; reflexivity).
    destruct (awaiting_of_waits _ W) as (s1 & rq & A).
    exists s1, rq. split; [exact A |].
    destruct (Hsoa filled s1 rq A) as (c & ph & it & Hb & Hp & Hi).
    exists c, ph, it. split; [exact Hb |]. split.
    + assert (E : el_value (el filled "soaPhase") = "") by (vm_compute; reflexivity).
      now rewrite E in Hp.
    + assert (E : JsString.trim (el_value (el filled "soaIntervention")) = "")
        by (vm_compute; reflexivity).
      now rewrite E in Hi.
Defined.

(** X12. [runTrialComparison] sends nothing unless the first two ids are
    given: with a blank first or second field it only alerts.  Otherwise the
    request lists two ids, or three when the third field is not blank; every
    id of the list is trimmed and not empty, and the first two are the first
    two fields. *)
Theorem X12_comparison_needs_two_ids (s : State) :
  let nct1 := JsString.trim (el_value (el s "compareNct1")) in
  let nct2 := JsString.trim (el_value (el s "compareNct2")) in
  let nct3 := JsString.trim (el_value (el s "compareNct3")) in
  (nct1 = "" \/ nct2 = "" ->
   runTrialComparison s = Done (alert "Please enter at least 2 NCT IDs" s)) /\
  (nct1 <> "" -> nct2 <> "" ->
   exists s1 nctIds,
     awaiting (runTrialComparison s)
     = Some (s1, {| endpoint := "/api/compare-trials";
                    body := NctListBody nctIds |}) /\
     nctIds = (if JsString.truthy nct3 then [nct1; nct2; nct3] else [nct1; nct2]) /\
     (2 <= List.length nctIds <= 3)%nat /\
     forall e, In e nctIds -> e <> "" /\ JsString.trim e = e).
Proof.
  cbv zeta. unfold runTrialComparison. split.
  - intros [H | H]; rewrite H; [reflexivity |].
    now rewrite orb_true_r.
  - intros H1 H2.
    apply truthy_nonempty in H1, H2. rewrite H1, H2. cbn [negb orb awaiting].
    do 2 eexists. split; [reflexivity |].
    destruct (JsString.truthy (JsString.trim (el_value (el s "compareNct3"))))
      eqn:H3; (split; [reflexivity | split; [simpl; lia |]]);
      intros e He; simpl in He;
      repeat (destruct He as [<- | He]; [now apply trimmed_field |]);
      contradiction.
Qed.

Lemma X12_comparison_witness :
  runTrialComparison (type_into "compareNct2" "  " filled)
  = Done (alert "Please enter at least 2 NCT IDs"
            (type_into "compareNct2" "  " filled)) /\
  exists s1 nctIds,
    awaiting (runTrialComparison filled)
    = Some (s1, {| endpoint := "/api/compare-trials";
                   body := NctListBody nctIds |}) /\
    nctIds = (if JsString.truthy (JsString.trim (el_value (el filled "compareNct3")))
              then [JsString.trim (el_value (el filled "compareNct1"));
                    JsString.trim (el_value (el filled "compareNct2"));
                    JsString.trim (el_value (el filled "compareNct3"))]
              else [JsString.trim (el_value (el filled "compareNct1"));
                    JsString.trim (el_value (el filled "compareNct2"))]) /\
    (2 <= List.length nctIds <= 3)%nat /\
    forall e, In e nctIds -> e <> "" /\ JsString.trim e = e.
Proof.
  split.
  - apply (X12_comparison_needs_two_ids (type_into "compareNct2" "  " filled)).
    right. vm_compute. reflexivity.
  - apply (X12_comparison_needs_two_ids filled); vm_compute; discriminate.
Defined.

(** ** The outcome of a protocol report *)





(** X13. Once the reply of a protocol report is in, the loading indicator is
    hidden, and exactly one of two things has happened: the report container
    is shown and nothing was alerted, or the container is still hidden, the
    report content is what it was, and one alert was raised. *)
Theorem X13_report_or_one_alert (reply : Fetched ReportData) (s : State) :
  waits (generateProtocolReport s) = true ->
  let s' := settle (generateProtocolReport s) reply in
  display (el s' "protocolLoading") = "none" /\
  ((display (el s' "protocolReportContainer") = "block" /\
    alerts s' = alerts s) \/
   (display (el s' "protocolReportContainer") = "none" /\
    el s' "protocolReportContent" = el s "protocolReportContent" /\
    exists msg, alerts s' = alerts s ++ [msg])).
Proof.
  unfold generateProtocolReport.
  destruct (negb _); [discriminate |]. intros _. cbv zeta.
  unfold settle, generateProtocolReport_resume.
  destruct reply as [m | ok [m | d]].
  - split; [reflexivity |]. right. repeat split. now eexists.
  - split; [reflexivity |]. right. repeat split. now eexists.
  - destruct (JsString.if_truthy (r_error d)) as [e |].
    + split; [reflexivity |]. right. repeat split. now eexists.
    + destruct (r_report d) as [report |].
      * split; [reflexivity |]. left. split; reflexivity.
      * split; [reflexivity |]. right. repeat split. now eexists.
Qed.

Lemma X13_report_witness :
  let s' := settle (generateProtocolReport filled)
              (Response true (Json no_condition)) in
  display (el s' "protocolLoading") = "none" /\
  ((display (el s' "protocolReportContainer") = "block" /\
    alerts s' = alerts filled) \/
   (display (el s' "protocolReportContainer") = "none" /\
    el s' "protocolReportContent" = el filled "protocolReportContent" /\
    exists msg, alerts s' = alerts filled ++ [msg])).
Proof.
  apply (X13_report_or_one_alert (Response true (Json no_condition)) filled).
  vm_compute. reflexivity.
Defined.



(** ** The study a modal question is about *)

(** X15. A question typed into the modal that was opened for a study is
    sent to /api/chat with the id the modal was opened for and the trimmed
    question.  A modal opened with an empty id sends nothing, whatever is
    typed. *)
Theorem X15_modal_question_names_its_study (nctId title q : string)
  (t1 t2 t3 : N) (s : State) :
  kind (el s "chatInput") <> SelectEl ->
  let s1 := type_into "chatInput" q (openChatModal nctId title s) in
  (nctId <> "" -> JsString.trim q <> "" ->
   option_map snd (awaiting (sendMessage t1 t2 t3 s1))
   = Some {| endpoint := "/api/chat"; body := ChatBody nctId (JsString.trim q) |}) /\
  (nctId = "" -> sendMessage t1 t2 t3 s1 = Done s1).
Proof.
  intros Hk. cbv zeta.
  assert (Hv : el_value (el (type_into "chatInput" q (openChatModal nctId title s))
                           "chatInput") = q).
  { unfold type_into, openChatModal. cbv zeta.
    rewrite el_set_el_same. rewrite !el_set_el_other by discriminate.
    change (el (set_currentChatStudy (Some nctId) s) "chatInput")
      with (el s "chatInput").
    unfold el_value. cbn [kind value with_value].
    destruct (kind (el s "chatInput")); congruence. }
  assert (Hc : currentChatStudy (type_into "chatInput" q (openChatModal nctId title s))
               = Some nctId) by reflexivity.
  split.
  - intros Hid Hq. apply truthy_nonempty in Hid, Hq.
    unfold sendMessage. rewrite Hc, Hv, Hid, Hq.
    unfold addModalMessage. reflexivity.
  - intros ->. unfold sendMessage. rewrite Hc.
    now rewrite orb_true_r.
Qed.

Lemma X15_modal_question_witness :
  option_map snd
    (awaiting (sendMessage 5 6 9
                 (type_into "chatInput" " Any results? "
                    (openChatModal "NCT001" "A study" initial_state))))
  = Some {| endpoint := "/api/chat";
            body := ChatBody "NCT001" (JsString.trim " Any results? ") |} /\
  sendMessage 5 6 9
    (type_into "chatInput" "Any results?" (openChatModal "" "A study" initial_state))
  = Done (type_into "chatInput" "Any results?"
            (openChatModal "" "A study" initial_state)).
Proof.
  split.
  - apply (X15_modal_question_names_its_study "NCT001" "A study" " Any results? "
             5 6 9 initial_state); [vm_compute | | vm_compute]; discriminate.
  - apply (X15_modal_question_names_its_study "" "A study" "Any results?"
             5 6 9 initial_state); [vm_compute; discriminate | reflexivity].
Defined.

(** ** Replies that arrive in the other order *)


(** ** The form after [clearFilters] *)

Lemma clearFilters_el (s : State) (id : string) :
  id <> "resultsContainer" -> id <> "totalCount" ->
  id <> "sidebarChatMessages" -> id <> "sidebarChatInput" ->
  id <> "sidebarSendBtn" ->
  el (clearFilters s) id = cleared_control id (el s id).
Proof.
  intros H1 H2 H3 H4 H5. unfold clearFilters. cbv zeta.
  rewrite !el_set_el_other by assumption. reflexivity.
Qed.

Lemma cleared_text (id : string) (e : Element) :
  kind e = TextInput \/ kind e = DateInput ->
  el_value (cleared_control id e) = "".
Proof.
  unfold cleared_control, el_value.
  destruct e; cbn; intros [-> | ->]; reflexivity.
Qed.

Lemma deselected (l : list (string * bool)) :
  map fst (filter snd (map (fun o => (fst o, false)) l)) = [].
Proof. induction l as [| o l IH]; simpl; [reflexivity | exact IH]. Qed.

Lemma cleared_select (id : string) (e : Element) :
  kind e = SelectEl -> multiple e = true -> String.eqb id "perPage" = false ->
  selected_values (cleared_control id e) = [].
Proof.
  unfold cleared_control, selected_values.
  destruct e; cbn; intros -> -> ->. cbn. apply deselected.
Qed.

(** A drop-down list is back on its first option. *)
Lemma cleared_drop_down (id : string) (e : Element) :
  kind e = SelectEl -> multiple e = false -> String.eqb id "perPage" = false ->
  el_value (cleared_control id e) = first_option e.
Proof.
  unfold cleared_control, el_value, first_option.
  destruct e as [k m v c o d di cl ch]; cbn; intros -> -> ->. cbn.
  destruct o as [| [v0 b0] r]; reflexivity.
Qed.

Lemma cleared_checkbox (id : string) (e : Element) :
  kind e = CheckboxInput -> checked (cleared_control id e) = false.
Proof. unfold cleared_control. destruct e; cbn; intros ->. reflexivity. Qed.

Lemma cleared_perPage (e : Element) :
  kind e = SelectEl -> cleared_control "perPage" e = e.
Proof. unfold cleared_control. destruct e; cbn; intros ->. reflexivity. Qed.

(** X17. On a page whose search form has text or date inputs, multi-selects,
    drop-down lists and checkboxes where [getFilters] expects them,
    [clearFilters] resets the form: the filter record read afterwards has
    empty texts and dates, no selected status, type, phase, funder or age
    group and no ticked box; its [sex] and [hasResults] are the first option
    of their drop-down list, which selects that option again when its
    options are deselected; it asks for page 1, and it keeps the page size,
    for the perPage select is the one control that is spared. *)
Theorem X17_cleared_form_is_reset (s : State) :
  search_form s ->
  let f := getFilters (clearFilters s) in
  reset_criteria (first_option (el s "sex")) (first_option (el s "hasResults")) f /\
  f_page f = 1 /\ f_per_page f = f_per_page (getFilters s).
Proof.
  intros (Ht & Hs & Hd & Hc & Hp). cbv zeta.
  assert (T : forall id, In id text_fields ->
                el_value (el (clearFilters s) id) = "").
  { intros id Hin. pose proof (Ht id Hin) as Hk.
    rewrite clearFilters_el;
      [now apply cleared_text | | | | |];
      intros ->; simpl in Hin; intuition discriminate. }
  assert (S : forall id, In id multi_selects ->
                selected_values (el (clearFilters s) id) = []).
  { intros id Hin. pose proof (Hs id Hin) as (Hk & Hm).
    rewrite clearFilters_el;
      [apply cleared_select; [exact Hk | exact Hm |] | | | | |];
      [| intros ->; simpl in Hin; intuition discriminate ..].
    simpl in Hin. destruct Hin as [<- | [<- | [<- | [<- | []]]]]; reflexivity. }
  assert (D : forall id, In id single_selects ->
                el_value (el (clearFilters s) id) = first_option (el s id)).
  { intros id Hin. pose proof (Hd id Hin) as (Hk & Hm).
    rewrite clearFilters_el;
      [apply cleared_drop_down; [exact Hk | exact Hm |] | | | | |];
      [| intros ->; simpl in Hin; intuition discriminate ..].
    simpl in Hin. destruct Hin as [<- | [<- | []]]; reflexivity. }
  assert (C : forall id, In id check_boxes ->
                checked (el (clearFilters s) id) = false).
  { intros id Hin. pose proof (Hc id Hin) as Hk.
    rewrite clearFilters_el;
      [now apply cleared_checkbox | | | | |];
      intros ->; simpl in Hin; intuition discriminate. }
  assert (A : map fst (filter snd (ageGroupBoxes (clearFilters s))) = []).
  { unfold clearFilters. cbv zeta. apply deselected. }
  assert (P : el (clearFilters s) "perPage" = el s "perPage").
  { rewrite clearFilters_el by discriminate. now apply cleared_perPage. }
  unfold reset_criteria, getFilters.
  cbn [f_condition f_intervention f_location f_status f_studyType f_phase
       f_sex f_hasResults
       f_ageGroups f_healthyVolunteers f_hasProtocol f_hasSAP f_hasICF
       f_funderType f_studyStartFrom f_studyStartTo f_primaryCompletionFrom
       f_primaryCompletionTo f_title f_outcome f_sponsor f_nctId
       f_fdaaa801Violation f_useSemanticSearch f_page f_per_page].
  rewrite P, A.
  rewrite (D "sex"), (D "hasResults") by (simpl; tauto).
  rewrite !T by (simpl; tauto).
  rewrite !S by (simpl; tauto).
  rewrite !C by (simpl; tauto).
  repeat split.
Qed.

Lemma form_in_use_is_a_search_form : search_form form_in_use.
Proof.
  unfold search_form, text_fields, multi_selects, single_selects, check_boxes.
  split; [| split; [| split; [| split]]];
    try (intros id Hin; simpl in Hin;
         repeat (destruct Hin as [<- | Hin];
                 [vm_compute; first [split; reflexivity | auto] |]);
         contradiction).
  vm_compute. reflexivity.
Qed.

(** Before the reset the form asks for female participants, studies with
    results, two states and a protocol; afterwards the drop-down lists are
    on their first options, ALL and the empty one. *)
Lemma X17_cleared_form_witness :
  (f_sex (getFilters form_in_use) = "FEMALE" /\
   f_hasResults (getFilters form_in_use) = "true" /\
   f_status (getFilters form_in_use) = ["RECRUITING"; "COMPLETED"]) /\
  reset_criteria "ALL" "" (getFilters (clearFilters form_in_use)) /\
  f_page (getFilters (clearFilters form_in_use)) = 1 /\
  f_per_page (getFilters (clearFilters form_in_use))
  = f_per_page (getFilters form_in_use).
Proof.
  split; [repeat split; vm_compute; reflexivity |].
  apply (X17_cleared_form_is_reset form_in_use).
  apply form_in_use_is_a_search_form.
Defined.

(** ** The advanced-mode warning *)

Lemma class_add_has (c : string) (l : list string) :
  existsb (String.eqb c) (class_add c l) = true.
Proof.
  unfold class_add. destruct (existsb (String.eqb c) l) eqn:E; [exact E |].
  rewrite existsb_app. simpl. now rewrite String.eqb_refl, orb_true_r.
Qed.

Lemma class_remove_has_not (c : string) (l : list string) :
  existsb (String.eqb c) (class_remove c l) = false.
Proof.
  unfold class_remove. induction l as [| x l IH]; simpl; [reflexivity |].
  destruct (String.eqb c x) eqn:E; simpl; [exact IH |].
  now rewrite E, IH.
Qed.

Lemma shown_after_add (l : list string) :
  existsb (String.eqb "show") (class_add "show" l) = true.
Proof. apply class_add_has. Qed.

Lemma hidden_after_remove (l : list string) :
  existsb (String.eqb "show") (class_remove "show" l) = false.
Proof. apply class_remove_has_not. Qed.

Lemma classList_cleared (id : string) (e : Element) :
  classList (cleared_control id e) = classList e.
Proof.
  unfold cleared_control. destruct e as [k v c o d dp cl ch]. cbn.
  destruct k; cbn; try reflexivity.
  destruct (String.eqb id "perPage"); reflexivity.
Qed.

Lemma warning_due_set_el (id : string) (f : Element -> Element) (s : State) :
  warning_due (set_el id f s) = warning_due s.
Proof. reflexivity. Qed.

Lemma warning_shown_other (id : string) (f : Element -> Element) (s : State) :
  id <> "advancedWarning" ->
  warning_shown (set_el id f s) = warning_shown s.
Proof.
  intros H. unfold warning_shown. rewrite el_set_el_other by congruence.
  reflexivity.
Qed.

Lemma warning_shown_set (s : State) :
  warning_shown
    (set_el "advancedWarning"
       (fun e => with_classList (class_add "show" (classList e)) e) s) = true.
Proof.
  unfold warning_shown. rewrite el_set_el_same. apply shown_after_add.
Qed.

Lemma warning_shown_unset (s : State) :
  warning_shown
    (set_el "advancedWarning"
       (fun e => with_classList (class_remove "show" (classList e)) e) s) = false.
Proof.
  unfold warning_shown. rewrite el_set_el_same. apply hidden_after_remove.
Qed.

Lemma search_success_warning (data : SearchData) (s : State) :
  let s' := searchStudies_resume (Response true (Json (payload data))) s in
  warning_shown s' = warning_due s'.
Proof.
  cbv zeta. rewrite search_success. cbv zeta.
  unfold warning_shown, warning_due.
  match goal with
  | |- context [if ?c then _ else _] => destruct c eqn:E
  end; rewrite el_set_el_same; cbn [classList with_classList];
    [rewrite shown_after_add | rewrite hidden_after_remove];
    symmetry; exact E.
Qed.

(** A body with a [total] and without [results]: the count is assigned and
    written, the container emptied, and the [catch] block is reached before
    the warning is looked at. *)
Lemma search_without_results (data : SearchJson) (total : Z) (s : State) :
  j_total data = Some total -> j_results data = None ->
  let s' := searchStudies_resume (Response true (Json data)) s in
  totalResults s' = Some total /\
  isAdvancedMode s' = isAdvancedMode s /\
  el s' "advancedWarning" = el s "advancedWarning".
Proof.
  intros Ht Hr. cbv zeta. unfold searchStudies_resume, displayResults.
  rewrite Ht, Hr. repeat split.
Qed.

(** X18. The warning of the advanced mode is on display exactly when the
    mode is advanced and the last search counted more than 50 studies: a
    success payload establishes this, and [toggleAdvancedMode],
    [clearFilters] and a search that fails before its body is read (network
    error, status not OK, body that is not JSON) keep it.  A 200 body that
    falls short of the payload does not: the count is assigned, and the
    [catch] block is reached before the warning is looked at.  After
    [{error}] alone the count is [undefined] and a warning that was on
    display stays; after a body with a [total] and no [results] the warning
    is as it was, whatever the new count. *)
Theorem X18_warning_follows_mode_and_count (s : State) :
  (forall data,
     let s' := searchStudies_resume (Response true (Json (payload data))) s in
     warning_shown s' = warning_due s') /\
  (warning_shown s = warning_due s ->
   warning_shown (toggleAdvancedMode s) = warning_due (toggleAdvancedMode s) /\
   warning_shown (clearFilters s) = warning_due (clearFilters s) /\
   forall reply msg,
     search_failure reply = Some msg ->
     warning_shown (searchStudies_resume reply s)
     = warning_due (searchStudies_resume reply s)) /\
  (forall data,
     j_total data = None ->
     let s' := searchStudies_resume (Response true (Json data)) s in
     totalResults s' = None /\
     warning_shown s' = warning_shown s /\ warning_due s' = false) /\
  (forall data total,
     j_total data = Some total -> j_results data = None ->
     let s' := searchStudies_resume (Response true (Json data)) s in
     warning_shown s' = warning_shown s /\
     warning_due s' = (isAdvancedMode s && (50 <? total))%bool).
Proof.
  split; [intros data; apply search_success_warning |].
  split; [| split].
  - intros Hinv. split; [| split].
    + unfold toggleAdvancedMode. cbv zeta.
      cbn [isAdvancedMode set_isAdvancedMode].
      destruct (checked (el s "advancedModeCheckbox")) eqn:Hc.
      * change (totalResults (set_el "modeBadge" _ _)) with (totalResults s).
        destruct (above (totalResults s) 50) eqn:Hr.
        -- rewrite warning_shown_set, warning_due_set_el.
           rewrite !warning_due_set_el. unfold warning_due.
           cbn [isAdvancedMode set_isAdvancedMode totalResults].
           now rewrite Hr.
        -- rewrite !warning_shown_other, !warning_due_set_el by discriminate.
           change (warning_shown (set_isAdvancedMode true s))
             with (warning_shown s).
           rewrite Hinv. unfold warning_due.
           cbn [isAdvancedMode set_isAdvancedMode totalResults].
           now rewrite Hr, !andb_false_r.
      * rewrite warning_shown_unset, !warning_due_set_el. reflexivity.
    + unfold warning_shown, warning_due in *.
      rewrite clearFilters_el by discriminate.
      now rewrite classList_cleared.
    + intros reply msg Hf. rewrite (searchStudies_resume_failure _ _ _ Hf).
      exact Hinv.
  - intros data Ht. cbv zeta.
    destruct (search_without_total data s Ht) as (_ & Hp & _ & Hr & _).
    split; [exact Hr |]. split.
    + unfold warning_shown, el. now rewrite Hp.
    + unfold warning_due. rewrite Hr. cbn [above]. apply andb_false_r.
  - intros data total Ht Hr. cbv zeta.
    destruct (search_without_results data total s Ht Hr) as (Hc & Hm & He).
    split.
    + unfold warning_shown. now rewrite He.
    + unfold warning_due. now rewrite Hc, Hm.
Qed.

(** In the advanced mode, with sixty studies counted and the warning on
    display: the three operations keep the warning in step, and the body
    [{error}] with status 200 leaves it on display with no count behind
    it. *)
Lemma X18_warning_witness :
  (warning_shown advanced_sixty = true /\ warning_due advanced_sixty = true) /\
  (warning_shown (toggleAdvancedMode advanced_sixty)
   = warning_due (toggleAdvancedMode advanced_sixty) /\
   warning_shown (clearFilters advanced_sixty)
   = warning_due (clearFilters advanced_sixty) /\
   forall reply msg,
     search_failure reply = Some msg ->
     warning_shown (searchStudies_resume reply advanced_sixty)
     = warning_due (searchStudies_resume reply advanced_sixty)) /\
  (let s' := searchStudies_resume
               (Response true (Json (error_only "Database unavailable")))
               advanced_sixty in
   totalResults s' = None /\
   warning_shown s' = warning_shown advanced_sixty /\ warning_due s' = false).
Proof.
  destruct (X18_warning_follows_mode_and_count advanced_sixty)
    as (_ & Hkeep & Hbare & _).
  split; [split; vm_compute; reflexivity |].
  split.
  - apply Hkeep. vm_compute. reflexivity.
  - apply (Hbare (error_only "Database unavailable")). reflexivity.
Defined.

(** X19. [clearFilters] unticks the advanced-mode checkbox with the other
    checkboxes, but the mode itself is only set by [toggleAdvancedMode]:
    after clearing, the script is still in the mode it was in, a search
    changes neither, and it takes a change event of the checkbox to bring
    the two together again. *)
Theorem X19_cleared_checkbox_keeps_the_mode (s : State) :
  kind (el s "advancedModeCheckbox") = CheckboxInput ->
  let s1 := clearFilters s in
  checked (el s1 "advancedModeCheckbox") = false /\
  isAdvancedMode s1 = isAdvancedMode s /\
  (forall pageNo data,
     let s2 := settle (searchStudies pageNo s1) (Response true (Json (payload data))) in
     checked (el s2 "advancedModeCheckbox") = false /\
     isAdvancedMode s2 = isAdvancedMode s) /\
  isAdvancedMode (toggleAdvancedMode s1) = false.
Proof.
  intros Hk. cbv zeta.
  assert (Hc : checked (el (clearFilters s) "advancedModeCheckbox") = false).
  { rewrite clearFilters_el by discriminate. now apply cleared_checkbox. }
  split; [exact Hc |]. split; [reflexivity |]. split.
  - intros pageNo data. unfold searchStudies, settle.
    match goal with
    | |- context [searchStudies_resume _ ?s0] =>
        destruct (search_success_variables data s0) as (_ & Hm & _);
        set (s1 := s0) in *
    end.
    split; [| exact Hm].
    destruct (searchStudies_resume_frame (Response true (Json (payload data))) s1)
      as (_ & _ & _ & _ & Hp).
    unfold el. rewrite Hp; [exact Hc |].
    simpl. intros H.
    repeat (destruct H as [H | H]; [discriminate |]). exact H.
  - unfold toggleAdvancedMode. cbv zeta.
    cbn [isAdvancedMode set_isAdvancedMode]. rewrite Hc. reflexivity.
Qed.

Lemma X19_cleared_checkbox_witness :
  let s := toggleAdvancedMode
             (set_el "advancedModeCheckbox" (with_checked true) filled) in
  isAdvancedMode s = true /\
  checked (el (clearFilters s) "advancedModeCheckbox") = false /\
  isAdvancedMode (clearFilters s) = isAdvancedMode s /\
  (forall pageNo data,
     let s2 := settle (searchStudies pageNo (clearFilters s))
                 (Response true (Json (payload data))) in
     checked (el s2 "advancedModeCheckbox") = false /\
     isAdvancedMode s2 = isAdvancedMode s) /\
  isAdvancedMode (toggleAdvancedMode (clearFilters s)) = false.
Proof.
  cbv zeta. split; [vm_compute; reflexivity |].
  apply (X19_cleared_checkbox_keeps_the_mode
           (toggleAdvancedMode
              (set_el "advancedModeCheckbox" (with_checked true) filled))).
  vm_compute. reflexivity.
Defined.

(** ** Tabs *)

Lemma style_same (id : string) (f : Style -> Style) (v : Styles) :
  style id f v id = f (v id).
Proof. unfold style. now rewrite String.eqb_refl. Qed.

Lemma style_other (id j : string) (f : Style -> Style) (v : Styles) :
  j <> id -> style id f v j = v j.
Proof.
  intros H. unfold style.
  destruct (String.eqb_spec j id); [contradiction | reflexivity].
Qed.

Ltac styles :=
  repeat first [ rewrite style_same
               | rewrite style_other by (discriminate || assumption) ].

Ltac by_tab tab :=
  unfold switchTab;
  destruct (String.eqb tab "search");
    [| destruct (String.eqb tab "protocol");
       [| destruct (String.eqb tab "agents")]];
  cbv zeta.

Lemma switchTab_outside (tab : string) (v : Styles) (id : string) :
  ~ In id sections -> ~ In id tab_buttons -> switchTab tab v id = v id.
Proof.
  intros Hs Hb. unfold sections, tab_buttons in *.
  assert (E : forall x, In x ["searchSection"; "protocolDesigner"; "agentsSection";
                              "searchTab"; "protocolTab"; "agentsTab"] ->
                        id <> x).
  { intros x Hx ->. simpl in Hx, Hs, Hb. tauto. }
  pose proof (E "searchSection" ltac:(simpl; tauto)).
  pose proof (E "protocolDesigner" ltac:(simpl; tauto)).
  pose proof (E "agentsSection" ltac:(simpl; tauto)).
  pose proof (E "searchTab" ltac:(simpl; tauto)).
  pose proof (E "protocolTab" ltac:(simpl; tauto)).
  pose proof (E "agentsTab" ltac:(simpl; tauto)).
  by_tab tab; styles; reflexivity.
Qed.

(** X20. After [switchTab] the section named by the tab is the only one on
    display and its button the only one in white; a name that is none of
    [search], [protocol], [agents] hides all three sections.  Nothing else
    on the page is touched, and what an earlier [switchTab] did is
    overwritten: only the last call counts. *)
Theorem X20_one_section_on_display (tab : string) (v : Styles) :
  let v' := switchTab tab v in
  (forall sec, In sec sections ->
     s_display (v' sec)
     = if match section_of tab with
          | Some x => String.eqb x sec
          | None => false
          end then "block" else "none") /\
  (forall btn, In btn tab_buttons ->
     s_color (v' btn)
     = if match button_of tab with
          | Some x => String.eqb x btn
          | None => false
          end then "white" else "#333") /\
  (forall id, ~ In id sections -> ~ In id tab_buttons -> v' id = v id) /\
  (forall earlier id, switchTab tab (switchTab earlier v) id = v' id).
Proof.
  cbv zeta. unfold section_of, button_of.
  split; [| split; [| split]].
  - intros sec Hin. unfold sections in Hin. simpl in Hin.
    destruct Hin as [<- | [<- | [<- | []]]];
      by_tab tab; styles; reflexivity.
  - intros btn Hin. unfold tab_buttons in Hin. simpl in Hin.
    destruct Hin as [<- | [<- | [<- | []]]];
      by_tab tab; styles; reflexivity.
  - intros id. apply switchTab_outside.
  - intros earlier id.
    destruct (in_dec string_dec id (sections ++ tab_buttons)) as [Hin | Hout'].
    + unfold sections, tab_buttons in Hin. simpl in Hin.
      destruct Hin as [<- | [<- | [<- | [<- | [<- | [<- | []]]]]]];
        by_tab tab;
        (destruct (String.eqb earlier "search");
           [| destruct (String.eqb earlier "protocol");
              [| destruct (String.eqb earlier "agents")]]);
        cbv zeta; styles; reflexivity.
    + assert (Hs : ~ In id sections)
        by (intros H; apply Hout'; apply in_or_app; tauto).
      assert (Hb : ~ In id tab_buttons)
        by (intros H; apply Hout'; apply in_or_app; tauto).
      now rewrite !switchTab_outside by assumption.
Qed.

Lemma X20_one_section_witness :
  s_display (switchTab "protocol" plain_styles "protocolDesigner") = "block" /\
  s_display (switchTab "protocol" plain_styles "searchSection") = "none" /\
  s_color (switchTab "protocol" plain_styles "protocolTab") = "white" /\
  switchTab "protocol" plain_styles "chatModal" = plain_styles "chatModal".
Proof.
  destruct (X20_one_section_on_display "protocol" plain_styles)
    as (Hsec & Hbtn & Hout & _).
  split; [| split; [| split]].
  - apply (Hsec "protocolDesigner"). simpl. tauto.
  - apply (Hsec "searchSection"). simpl. tauto.
  - apply (Hbtn "protocolTab"). simpl. tauto.
  - apply (Hout "chatModal"); simpl; intuition discriminate.
Defined.

(** ** Intervention tokens, entered again *)

(** X21. No entry of the intervention list that [getFilters] builds
    contains a comma, and the list is stable: typing its entries back into
    the field, joined by commas, makes [getFilters] build the same list. *)
Theorem X21_intervention_list_is_stable (s : State) :
  kind (el s "intervention") <> SelectEl ->
  let tokens := f_intervention (getFilters s) in
  (forall e, In e tokens -> has_comma e = false) /\
  f_intervention
    (getFilters (type_into "intervention" (String.concat "," tokens) s))
  = tokens.
Proof.
  intros Hk. cbv zeta.
  destruct (intervention_of_the_field s) as (Heq & Hclean).
  rewrite Heq in *.
  split; [intros e He; now destruct (Hclean e He) as (_ & _ & Hc) |].
  destruct (intervention_of_the_field
              (type_into "intervention"
                 (String.concat "," (intervention_tokens
                                       (el_value (el s "intervention")))) s))
    as (Heq' & _).
  rewrite Heq'.
  assert (Hv : el_value
                 (el (type_into "intervention"
                        (String.concat ","
                           (intervention_tokens (el_value (el s "intervention")))) s)
                     "intervention")
               = String.concat ","
                   (intervention_tokens (el_value (el s "intervention")))).
  { unfold type_into. rewrite el_set_el_same. unfold el_value.
    cbn [kind value with_value]. destruct (kind (el s "intervention")); congruence. }
  rewrite Hv. apply tokens_round_trip. exact Hclean.
Qed.

Lemma X21_intervention_witness :
  (forall e, In e (f_intervention (getFilters filled)) -> has_comma e = false) /\
  f_intervention
    (getFilters (type_into "intervention"
                   (String.concat "," (f_intervention (getFilters filled))) filled))
  = f_intervention (getFilters filled).
Proof.
  apply (X21_intervention_list_is_stable filled).
  vm_compute. discriminate.
Defined.

(** ** The panel of an agent feature *)

Lemma display_set_el_frame (id j : string) (f : Element -> Element) (s : State) :
  (forall e, display (f e) = display e) ->
  display (el (set_el id f s) j) = display (el s j).
Proof.
  intros H. unfold el, set_el, upd; simpl.
  destruct (String.eqb j id); [apply H | reflexivity].
Qed.

Lemma agent_resume_panel (btn res : string) (reply : Fetched AgentData)
  (s : State) :
  (exists html,
     children (el (agent_resume btn res reply s) res) = [AgentReport html]) \/
  (exists msg,
     children (el (agent_resume btn res reply s) res) = [AgentError msg] /\
     display (el (agent_resume btn res reply s) res) = "block").
Proof.
  unfold agent_resume.
  rewrite children_set_el_frame, display_set_el_frame by reflexivity.
  assert (He : forall m,
             children (el (showAgentError res m s) res) = [AgentError m] /\
             display (el (showAgentError res m s) res) = "block").
  { intros m. unfold showAgentError. split.
    - rewrite children_set_el_frame by reflexivity. now rewrite el_set_el_same.
    - now rewrite el_set_el_same. }
  destruct reply as [m | ok [m | d]]; try (right; eexists; apply He).
  destruct (a_success d).
  - destruct (a_template d) as [m | html]; [right; eexists; apply He |].
    left. exists html. now rewrite el_set_el_same.
  - destruct (JsString.if_truthy (a_error d)); right; eexists; apply He.
Qed.

(** X22. Each agent feature shows the loading block in its result panel
    while its request is out, and every reply, of whatever kind, replaces
    that block: by the report, or by the error box with the panel on
    display.  No reply leaves the panel loading. *)
Theorem X22_reply_ends_the_loading_block :
  settles_panel "agenticSearchResult" runAgenticSearch /\
  settles_panel "analysisResult" runMultiAgentAnalysis /\
  settles_panel "compareResult" runTrialComparison /\
  settles_panel "amendmentResult" runAmendmentRisk /\
  settles_panel "patternResult" runDesignPatterns /\
  settles_panel "soaResult" runSoAComposer.
Proof.
  unfold settles_panel.
  repeat split;
    try (destruct (agent_handlers_resume s0 s1 rq k) as (K1 & K2 & K3 & K4 & K5 & K6);
         first [ rewrite (K1 H) | rewrite (K2 H) | rewrite (K3 H)
               | rewrite (K4 H) | rewrite (K5 H) | rewrite (K6 H) ];
         apply agent_resume_panel);
    unfold runAgenticSearch, runMultiAgentAnalysis, runTrialComparison,
      runAmendmentRisk, runDesignPatterns, runSoAComposer in H;
    match type of H with
    | (if ?c then _ else _) = _ => destruct c; [discriminate |]
    end;
    injection H as <- _ _; unfold showAgentLoading;
    first [ rewrite children_set_el_frame by reflexivity; now rewrite el_set_el_same
          | now rewrite el_set_el_same ].
Qed.

Lemma X22_loading_block_witness :
  exists s1 rq k,
    runAgenticSearch filled = Await s1 rq k /\
    (children (el s1 "agenticSearchResult") = [AgentLoading] /\
     display (el s1 "agenticSearchResult") = "block") /\
    forall reply s,
      (exists html, children (el (k reply s) "agenticSearchResult")
                    = [AgentReport html]) \/
      (exists msg, children (el (k reply s) "agenticSearchResult")
                   = [AgentError msg] /\
                   display (el (k reply s) "agenticSearchResult") = "block").
Proof.
  assert (W : waits (runAgenticSearch filled) = true) by (vm_compute; reflexivity).
  destruct (waits_await _ W) as (s1 & rq & k & E).
  exists s1, rq, k. split; [exact E |].
  destruct X22_reply_ends_the_loading_block as (H & _).
  exact (H filled s1 rq k E).
Defined.

(** ** The page size *)

Section Numbers.
Import ParseInt.










End Numbers.


